(** * The wallet watcher of solana-trade-assist (watcher.py)

    A shallow embedding of the polling, de-duplication, back-off and
    enrichment loop of [watcher.py], and the properties of its design document
    that can be settled on it.

    Conventions of the embedding.
    - A feed transaction and its token transfers are JSON objects read only
      through [.get]; they are records whose fields are [option]s, [None]
      standing for a key that is absent (or, for the strings, [null]).
    - Python truthiness is written out: [None] and the empty string are falsy.
    - The network, the clock and the terminal are outside the program: the
      replies of the three HTTP end points and the clock readings of one loop
      iteration are an [Env], and everything the program does to the outside
      (requests, prints, sleeps, writes of the state file) is recorded as a
      list of [Event]s.
    - Exceptions are the left summand of a small state-and-error monad [M];
      the store survives a raise, as Python's variables do. *)

From Stdlib Require Import ZArith Lia Ascii String Sorted Permutation.
From stdpp Require Import gmap strings list sorting pretty.

Open Scope Z_scope.

(** ** Python values *)

Module Py.

(** [bool(x)] for an optional string. *)
Definition truthy (x : option string) : bool :=
  match x with
  | Some s => negb (String.eqb s "")
  | None => false
  end.

(** [a or b] where both are optional strings. *)
Definition or (a b : option string) : option string :=
  if truthy a then a else b.

(** [a or d] where [d] is a string, so that the result is one. *)
Definition or_str (a : option string) (d : string) : string :=
  match a with
  | Some s => if String.eqb s "" then d else s
  | None => d
  end.

(** [a == b] on optional strings. *)
Definition eqb (a b : option string) : bool := bool_decide (a = b).

(** [str(x)] inside an f-string. *)
Definition str (x : option string) : string :=
  match x with
  | Some s => s
  | None => "None"
  end.

(** ASCII white space, as [str.strip()] understands it. Strings are byte
    strings here: white space outside ASCII is not recognised. *)
Definition is_space (c : ascii) : bool :=
  let n := Z.of_nat (nat_of_ascii c) in
  (n =? 32) || ((9 <=? n) && (n <=? 13)) || ((28 <=? n) && (n <=? 31)).

Fixpoint lstrip (s : string) : string :=
  match s with
  | String c s' => if is_space c then lstrip s' else s
  | EmptyString => EmptyString
  end.

Fixpoint rstrip (s : string) : string :=
  match s with
  | String c s' =>
      match rstrip s' with
      | EmptyString => if is_space c then EmptyString else String c EmptyString
      | r => String c r
      end
  | EmptyString => EmptyString
  end.

Definition strip (s : string) : string := rstrip (lstrip s).

(** [s.replace(chr(10), by)]. *)
Fixpoint replace_newline (by_ : string) (s : string) : string :=
  match s with
  | String c s' =>
      if Ascii.eqb c "010"%char then by_ +:+ replace_newline by_ s'
      else String c (replace_newline by_ s')
  | EmptyString => EmptyString
  end.

(** [sorted(l, key=key)] with integer keys. Python's sort is stable and
    compares keys with [<] only; its result is the one stable arrangement of
    [l], computed here by insertion from the right. *)
Section Sorted.
Context {A : Type} (key : A -> Z).

Fixpoint insert_by (x : A) (l : list A) : list A :=
  match l with
  | [] => [x]
  | y :: l' => if key y <? key x then y :: insert_by x l' else x :: y :: l'
  end.

Fixpoint sorted (l : list A) : list A :=
  match l with
  | [] => []
  | x :: l' => insert_by x (sorted l')
  end.
End Sorted.

End Py.

(** ** Exceptions *)

(** The three classes the loop tells apart: [requests.exceptions.HTTPError]
    (with the status of its response), any other
    [requests.RequestException], and any other [Exception]. *)
Inductive Exn :=
| HTTPError (status : Z) (msg : string)
| RequestException (msg : string)
| PyException (msg : string).

Definition exn_str (e : Exn) : string :=
  match e with
  | HTTPError _ m | RequestException m | PyException m => m
  end.

(** ** Data of the feed *)

(** The [token] object of a transfer. *)
Record TokenInfo := {
  name : option string;
  symbol : option string
}.

Record TokenTransfer := {
  fromUserAccount : option string;
  toUserAccount : option string;
  mint : option string;
  token : option TokenInfo;
  tokenName : option string;
  tokenSymbol : option string
}.

(** [timestamp] is a whole number of seconds when the key is there, [None]
    when it is not; [tokenTransfers] absent or [null] is the empty list
    ([tx.get("tokenTransfers") or []]). *)
Record RawTransaction := {
  signature : option string;
  timestamp : option Z;
  tokenTransfers : list TokenTransfer
}.

(** The dictionary [extract_token_details] returns. *)
Record AlertRecord := {
  alert_signature : option string;
  alert_time : string;
  alert_token_name : string;
  alert_ticker : string;
  alert_mint : string
}.

(** ** Configuration *)

Definition POLL_INTERVAL_SEC : Z := 20.
Definition MAX_BACKOFF : Z := 300.

(** The environment variables. [__main__] refuses to start without
    [WATCH_WALLET], hence a string. *)
Record Config := {
  WATCH_WALLET : string;
  TELEGRAM_BOT_TOKEN : option string;
  TELEGRAM_CHAT_ID : option string
}.

(** ** Rendering a timestamp *)

Module Datetime.

(** Proleptic Gregorian date of a day number counted from 1970-01-01. *)
Definition civil_from_days (days : Z) : Z * Z * Z :=
  let z := days + 719468 in
  let era := z / 146097 in
  let doe := z - era * 146097 in
  let yoe := (doe - doe / 1460 + doe / 36524 - doe / 146096) / 365 in
  let doy := doe - (365 * yoe + yoe / 4 - yoe / 100) in
  let mp := (5 * doy + 2) / 153 in
  let d := doy - (153 * mp + 2) / 5 + 1 in
  let m := if mp <? 10 then mp + 3 else mp - 9 in
  let y := yoe + era * 400 + (if m <=? 2 then 1 else 0) in
  (y, m, d).

Definition MINYEAR : Z := 1.
Definition MAXYEAR : Z := 9999.

(** [%02d] and [%04d] of a non-negative number. *)
Definition pad (width : nat) (n : Z) : string :=
  let s := pretty n in
  String.concat "" (replicate (width - String.length s) "0") +:+ s.

(** [datetime.fromtimestamp(ts, tz=timezone.utc).isoformat()] for a whole
    number of seconds; [None] when the year falls outside
    [MINYEAR .. MAXYEAR], where Python raises (a platform may refuse more
    than that). *)
Definition isoformat_utc (ts : Z) : option string :=
  let '(y, m, d) := civil_from_days (ts / 86400) in
  let secs := ts mod 86400 in
  if (MINYEAR <=? y) && (y <=? MAXYEAR) then
    Some (pad 4 y +:+ "-" +:+ pad 2 m +:+ "-" +:+ pad 2 d +:+ "T" +:+
          pad 2 (secs / 3600) +:+ ":" +:+ pad 2 (secs mod 3600 / 60) +:+ ":" +:+
          pad 2 (secs mod 60) +:+ "+00:00")
  else None.

End Datetime.

(** ** The outside world *)

(** What [requests.get(...).raise_for_status(); resp.json() or []] yields. *)
Inductive FetchReply :=
| FetchRaises (e : Exn)
| FetchJson (txs : list RawTransaction).

(** A [name] or [symbol] of the metadata reply: absent (or [null]), a string,
    or some other JSON value, of which only the truthiness and the Python
    type name matter. *)
Inductive MetaField :=
| FieldMissing
| FieldStr (s : string)
| FieldOther (is_true : bool) (type_name : string).

(** The first element of the metadata reply: either the chain of [.get]s
    down to [data] raises (some node is not an object), or it ends in an
    object with the two fields. *)
Inductive MetaEntry :=
| EntryMalformed (msg : string)
| EntryData (on_chain_name on_chain_symbol : MetaField).

Inductive MetaPayload :=
| PayloadOther
| PayloadList (items : list MetaEntry).

(** What [requests.post(...).raise_for_status(); resp.json()] yields. *)
Inductive MetaReply :=
| MetaRaises (e : Exn)
| MetaJson (data : MetaPayload).

(** What [requests.post] to the Telegram end point yields: a response with
    its status and text, or a [requests.RequestException]. *)
Inductive TelegramReply :=
| TelegramRaises (msg : string)
| TelegramResponse (status_code : Z) (text : string).

(** The outside world during one iteration of the loop. The two clock
    readings are those of the heartbeat test and of its update, in whole
    seconds. *)
Record Env := {
  transactions_reply : FetchReply;
  metadata_reply : string -> MetaReply;
  telegram_reply : string -> TelegramReply;
  time_at_check : Z;
  time_at_mark : Z
}.

Inductive Event :=
| Print (line : string)
| Sleep (secs : Z)
| GetTransactions (address : string) (limit : Z)
| PostMetadata (mint_account : string)
| PostTelegram (text : string)
| WriteState (sig : option string).

(** ** The store *)

(** The local variables of [poll_watch_wallet], the contents of
    [last_sig.json] ([None]: no file, an unreadable one, or [null]) and the
    module-level [_token_cache]. Reading the file does not fail; the writes that
    fail are those of module [Disk] below. *)
Record Store := {
  last_sig : option string;
  retry_delay : Z;
  last_heartbeat : Z;
  state_file : option string;
  _token_cache : gmap string (string * string)
}.

Definition set_last_sig (v : option string) (s : Store) : Store :=
  {| last_sig := v; retry_delay := retry_delay s;
     last_heartbeat := last_heartbeat s; state_file := state_file s;
     _token_cache := _token_cache s |}.

Definition set_retry_delay (v : Z) (s : Store) : Store :=
  {| last_sig := last_sig s; retry_delay := v;
     last_heartbeat := last_heartbeat s; state_file := state_file s;
     _token_cache := _token_cache s |}.

Definition set_last_heartbeat (v : Z) (s : Store) : Store :=
  {| last_sig := last_sig s; retry_delay := retry_delay s;
     last_heartbeat := v; state_file := state_file s;
     _token_cache := _token_cache s |}.

Definition set_state_file (v : option string) (s : Store) : Store :=
  {| last_sig := last_sig s; retry_delay := retry_delay s;
     last_heartbeat := last_heartbeat s; state_file := v;
     _token_cache := _token_cache s |}.

Definition set_token_cache (v : gmap string (string * string)) (s : Store) : Store :=
  {| last_sig := last_sig s; retry_delay := retry_delay s;
     last_heartbeat := last_heartbeat s; state_file := state_file s;
     _token_cache := v |}.

(** ** The monad *)

Record Run (A : Type) := MkRun {
  outcome : Exn + A;
  final : Store;
  emitted : list Event
}.
Arguments MkRun {A}.
Arguments outcome {A}.
Arguments final {A}.
Arguments emitted {A}.

Definition M (A : Type) : Type := Store -> Run A.

Definition ret {A} (a : A) : M A := fun s => MkRun (inr a) s [].

Definition raise {A} (e : Exn) : M A := fun s => MkRun (inl e) s [].

Definition bind {A B} (m : M A) (k : A -> M B) : M B := fun s =>
  match m s with
  | MkRun (inl e) s1 evs1 => MkRun (inl e) s1 evs1
  | MkRun (inr a) s1 evs1 =>
      match k a s1 with
      | MkRun o s2 evs2 => MkRun o s2 (evs1 ++ evs2)
      end
  end.

(** [try: m except Exception as e: h e]. *)
Definition try_except {A} (m : M A) (h : Exn -> M A) : M A := fun s =>
  match m s with
  | MkRun (inl e) s1 evs1 =>
      match h e s1 with
      | MkRun o s2 evs2 => MkRun o s2 (evs1 ++ evs2)
      end
  | MkRun (inr a) s1 evs1 => MkRun (inr a) s1 evs1
  end.

Definition emit (ev : Event) : M unit := fun s => MkRun (inr tt) s [ev].

Definition gets {A} (f : Store -> A) : M A := fun s => MkRun (inr (f s)) s [].

Definition modify (f : Store -> Store) : M unit := fun s => MkRun (inr tt) (f s) [].

Notation "'do' x <- m ; k" := (bind m (fun x => k))
  (at level 10, x name, m at level 100, k at level 200).
Notation "'do' ' p <- m ; k" := (bind m (fun x => match x with p => k end))
  (at level 10, p pattern, m at level 100, k at level 200).
Notation "m ;; k" := (bind m (fun _ => k))
  (at level 100, k at level 200, right associativity).

(** [for x in l: body x]. *)
Fixpoint for_each {A} (body : A -> M unit) (l : list A) : M unit :=
  match l with
  | [] => ret tt
  | x :: l' => body x ;; for_each body l'
  end.

Definition print (line : string) : M unit := emit (Print line).
Definition sleep (secs : Z) : M unit := emit (Sleep secs).

Definition nl : string := String "010"%char EmptyString.

(** ** State storage *)

Definition load_last_signature : M (option string) := gets state_file.

Definition save_last_signature (sig : option string) : M unit :=
  emit (WriteState sig) ;; modify (set_state_file sig).

(** ** The watcher *)

Section Watcher.

Variable cfg : Config.

Section Iteration.

Variable env : Env.

Definition fetch_recent_transactions (address : string) (limit : Z)
  : M (list RawTransaction) :=
  emit (GetTransactions address limit) ;;
  match transactions_reply env with
  | FetchRaises e => raise e
  | FetchJson txs => ret txs
  end.

Definition send_telegram_text (text : string) : M unit :=
  if negb (Py.truthy (TELEGRAM_BOT_TOKEN cfg)) || negb (Py.truthy (TELEGRAM_CHAT_ID cfg))
  then print "[TELEGRAM] Bot token or chat ID missing — skipping send."
  else
    emit (PostTelegram text) ;;
    match telegram_reply env text with
    | TelegramRaises msg => raise (RequestException msg)
    | TelegramResponse status_code body =>
        if status_code =? 200 then ret tt
        else print ("[TELEGRAM] Failed: " +:+ pretty status_code +:+ " " +:+ body)
    end.

(** *** Token metadata lookup *)

(** [if name: name = name.strip()], after which [name or "unknown"] only
    asks whether the result is a non-empty string. *)
Definition strip_field (f : MetaField) : M (option string) :=
  match f with
  | FieldMissing => ret None
  | FieldStr s => ret (Some (Py.strip s))
  | FieldOther true ty =>
      raise (PyException ("'" +:+ ty +:+ "' object has no attribute 'strip'"))
  | FieldOther false _ => ret None
  end.

Definition cache_put (mint : string) (v : string * string) : M unit :=
  modify (fun s => set_token_cache (<[mint := v]> (_token_cache s)) s).

(** The body of the [try]; [Some v] is its [return], [None] falling out of
    it. *)
Definition lookup_metadata (mint : string) : M (option (string * string)) :=
  emit (PostMetadata mint) ;;
  match metadata_reply env mint with
  | MetaRaises e => raise e
  | MetaJson (PayloadList (meta :: _)) =>
      match meta with
      | EntryMalformed msg => raise (PyException msg)
      | EntryData n sy =>
          do name <- strip_field n;
          do symbol <- strip_field sy;
          let v := (Py.or_str name "unknown", Py.or_str symbol "unknown") in
          cache_put mint v ;;
          ret (Some v)
      end
  | MetaJson _ => ret None
  end.

Definition fetch_token_metadata (mint : string) : M (string * string) :=
  do cache <- gets _token_cache;
  match cache !! mint with
  | Some v => ret v
  | None =>
      do r <- try_except (lookup_metadata mint)
                (fun e =>
                   print ("[META] Failed to fetch metadata for " +:+ mint +:+ ": "
                          +:+ exn_str e) ;;
                   ret None);
      match r with
      | Some v => ret v
      | None =>
          cache_put mint ("unknown", "unknown") ;;
          ret ("unknown", "unknown")
      end
  end.

(** *** Token detail extraction *)

Definition ts_to_iso (ts_seconds : Z) : M string :=
  match Datetime.isoformat_utc ts_seconds with
  | Some s => ret s
  | None => raise (PyException "year is out of range")
  end.

Definition touches_wallet (t : TokenTransfer) : bool :=
  Py.eqb (fromUserAccount t) (Some (WATCH_WALLET cfg))
  || Py.eqb (toUserAccount t) (Some (WATCH_WALLET cfg)).

(** The [for ... break] over the transfers. *)
Fixpoint first_touching (transfers : list TokenTransfer) : option TokenTransfer :=
  match transfers with
  | [] => None
  | t :: rest => if touches_wallet t then Some t else first_touching rest
  end.

(** [candidate], after the fall-back to [transfers[0]]. *)
Definition select_candidate (transfers : list TokenTransfer) : option TokenTransfer :=
  match first_touching transfers with
  | Some t => Some t
  | None =>
      match transfers with
      | t :: _ => Some t
      | [] => None
      end
  end.

Definition token_info_name (t : TokenTransfer) : option string :=
  match token t with Some i => name i | None => None end.

Definition token_info_symbol (t : TokenTransfer) : option string :=
  match token t with Some i => symbol i | None => None end.

(** [ts_to_iso(timestamp) if timestamp else "unknown"]: a timestamp of 0 is
    falsy, like a missing one. *)
Definition iso_time_of (timestamp : option Z) : M string :=
  match timestamp with
  | Some ts => if ts =? 0 then ret "unknown" else ts_to_iso ts
  | None => ret "unknown"
  end.

Definition extract_token_details (tx : RawTransaction) : M AlertRecord :=
  do iso_time <- iso_time_of (timestamp tx);
  let candidate := select_candidate (tokenTransfers tx) in
  let '(mint_, token_name, ticker) :=
    match candidate with
    | Some c =>
        (Py.or_str (mint c) "unknown",
         Py.or_str (Py.or (token_info_name c) (tokenName c)) "unknown",
         Py.or_str (Py.or (token_info_symbol c) (tokenSymbol c)) "unknown")
    | None => ("unknown", "unknown", "unknown")
    end in
  do '(token_name, ticker) <-
    if negb (String.eqb mint_ "unknown")
       && (String.eqb token_name "unknown" || String.eqb ticker "unknown")
    then
      do '(meta_name, meta_symbol) <- fetch_token_metadata mint_;
      ret (if String.eqb token_name "unknown" then meta_name else token_name,
           if String.eqb ticker "unknown" then meta_symbol else ticker)
    else ret (token_name, ticker);
  ret {| alert_signature := signature tx;
         alert_time := iso_time;
         alert_token_name := token_name;
         alert_ticker := ticker;
         alert_mint := mint_ |}.

(** *** Polling loop *)

(** The branch an iteration of the [while True] ends in: the [try] block
    ran to its end, or one of the [except] clauses did. *)
Inductive Branch := Success | RateLimited | Transient | Fatal.

(** [txs_sorted]. A missing timestamp counts as 0. *)
Definition ts_key (t : RawTransaction) : Z := default 0 (timestamp t).

Definition txs_sorted (txs : list RawTransaction) : list RawTransaction :=
  Py.sorted ts_key txs.

(** [new_batch], the novelty filter. *)
Definition new_batch (txs : list RawTransaction) (seen : option string)
  : list RawTransaction :=
  if Py.truthy seen
  then List.filter (fun t => negb (Py.eqb (signature t) seen)) (txs_sorted txs)
  else txs_sorted txs.

Definition alert_text (details : AlertRecord) : string :=
  "New activity on <b>" +:+ WATCH_WALLET cfg +:+ "</b>" +:+ nl +:+
  "• <b>Token:</b> " +:+ alert_token_name details +:+ " (" +:+
    alert_ticker details +:+ ")" +:+ nl +:+
  "• <b>Mint:</b> " +:+ alert_mint details +:+ nl +:+
  "• <b>Time (UTC):</b> " +:+ alert_time details +:+ nl +:+
  "• <b>Sig:</b> " +:+ Py.str (alert_signature details).

(** The body of [for tx in new_batch]. *)
Definition process_tx (tx : RawTransaction) : M unit :=
  do details <- extract_token_details tx;
  let msg := alert_text details in
  print ("[ALERT] " +:+ Py.replace_newline " | " msg) ;;
  send_telegram_text msg ;;
  modify (set_last_sig (signature tx)) ;;
  save_last_signature (signature tx).

(** The block under [if txs:]. *)
Definition process_window (txs : list RawTransaction) : M unit :=
  match txs with
  | [] => ret tt
  | _ :: _ =>
      do seen <- gets last_sig;
      for_each process_tx (new_batch txs seen) ;;
      do stored <- load_last_signature;
      if negb (Py.truthy stored)
      then
        match last (txs_sorted txs) with
        | Some newest =>
            if Py.truthy (signature newest)
            then save_last_signature (signature newest) ;;
                 modify (set_last_sig (signature newest))
            else ret tt
        | None => ret tt
        end
      else ret tt
  end.

Definition heartbeat : M unit :=
  do hb <- gets last_heartbeat;
  if 300 <? time_at_check env - hb
  then print "[HEARTBEAT] Watcher is alive." ;;
       modify (set_last_heartbeat (time_at_mark env))
  else ret tt.

(** What follows the block in the [try]. *)
Definition after_window : M unit :=
  modify (set_retry_delay POLL_INTERVAL_SEC) ;;
  heartbeat ;;
  sleep POLL_INTERVAL_SEC.

(** The body of the [try]. *)
Definition poll_once : M unit :=
  do txs <- fetch_recent_transactions (WATCH_WALLET cfg) 20;
  process_window txs ;;
  after_window.

(** The [except] clauses. *)
Definition handle (e : Exn) : M Branch :=
  match e with
  | HTTPError status_code _ =>
      if status_code =? 429
      then
        do d <- gets retry_delay;
        print ("[RATE LIMIT] Too many requests. Backing off for " +:+ pretty d
               +:+ "s...") ;;
        sleep d ;;
        modify (set_retry_delay (Z.min (d * 2) MAX_BACKOFF)) ;;
        ret RateLimited
      else
        print ("[NETWORK] HTTP error: " +:+ exn_str e +:+ ". Retrying in 10s...") ;;
        sleep 10 ;;
        ret Transient
  | RequestException _ =>
      print ("[NETWORK] " +:+ exn_str e +:+ ". Retrying in 10s...") ;;
      sleep 10 ;;
      ret Transient
  | PyException _ =>
      print ("[ERROR] " +:+ exn_str e) ;;
      sleep 5 ;;
      ret Fatal
  end.

(** One iteration of [while True]. *)
Definition iteration : M Branch :=
  try_except (poll_once ;; ret Success) handle.

End Iteration.

(** The iterations of the loop, one [Env] each. *)
Fixpoint iterations (envs : list Env) : M (list Branch) :=
  match envs with
  | [] => ret []
  | env :: envs' =>
      do b <- iteration env;
      do bs <- iterations envs';
      ret (b :: bs)
  end.

(** [poll_watch_wallet], cut after [length envs] iterations; [start] is the
    first clock reading. *)
Definition poll_watch_wallet (start : Z) (envs : list Env) : M (list Branch) :=
  do sig <- load_last_signature;
  modify (set_last_sig sig) ;;
  print ("[INIT] last_seen_signature=" +:+ Py.str sig) ;;
  modify (set_retry_delay POLL_INTERVAL_SEC) ;;
  modify (set_last_heartbeat start) ;;
  iterations envs.

End Watcher.

(** The store of a process that starts with [file] in [last_sig.json]. *)
Definition boot (file : option string) : Store :=
  {| last_sig := None; retry_delay := 0; last_heartbeat := 0;
     state_file := file; _token_cache := ∅ |}.

(** *** Start of the process *)

(** The environment variables [__main__] and the configuration read. *)
Record Environ := {
  env_HELIUS_API_KEY : option string;
  env_WATCH_WALLET : option string;
  env_BOT_TOKEN : option string;
  env_CHAT_ID : option string
}.

(** [if not os.getenv(var): raise RuntimeError(...)]. *)
Definition require_env (var : string) (value : option string) : M string :=
  if Py.truthy value
  then ret (Py.or_str value "")
  else raise (PyException ("Missing env var: " +:+ var)).

(** The block under [if __name__ == "__main__":]; [startup] is the outside
    world while the starting message is sent. Nothing catches what it
    raises. *)
Definition main (environ : Environ) (start : Z) (startup : Env) (envs : list Env)
  : M (list Branch) :=
  do _ <- require_env "HELIUS_API_KEY" (env_HELIUS_API_KEY environ);
  do wallet <- require_env "WATCH_WALLET" (env_WATCH_WALLET environ);
  let cfg := {| WATCH_WALLET := wallet;
                TELEGRAM_BOT_TOKEN := env_BOT_TOKEN environ;
                TELEGRAM_CHAT_ID := env_CHAT_ID environ |} in
  send_telegram_text cfg startup "Watcher starting…" ;;
  poll_watch_wallet cfg start envs.

(** ** The state file on a disk that can fail *)

(** In the definitions above a write of [last_sig.json] goes through. In
    [save_last_signature], [open] and [json.dump] can raise an [OSError],
    which no clause of the loop catches but the last. This module has
    [save_last_signature] with that exception, and its callers. *)

(** What a write of the state file meets: it goes through; [open] raises and
    the file is as before; or, [open] having truncated the file, [json.dump]
    or the closing of the file raises, and [load_last_signature] finds no
    signature in what is left. *)
Inductive WriteReply :=
| Written
| OpenRaises (msg : string)
| DumpRaises (msg : string).

Module Disk.

Section WithDisk.

Variable cfg : Config.
Variable env : Env.

(** The reply to the write of each cursor during the iteration. *)
Variable disk : option string -> WriteReply.

Definition save_last_signature (sig : option string) : M unit :=
  match disk sig with
  | Written => emit (WriteState sig) ;; modify (set_state_file sig)
  | OpenRaises msg => raise (PyException msg)
  | DumpRaises msg => modify (set_state_file None) ;; raise (PyException msg)
  end.

Definition process_tx (tx : RawTransaction) : M unit :=
  do details <- extract_token_details cfg env tx;
  let msg := alert_text cfg details in
  print ("[ALERT] " +:+ Py.replace_newline " | " msg) ;;
  send_telegram_text cfg env msg ;;
  modify (set_last_sig (signature tx)) ;;
  save_last_signature (signature tx).

Definition process_window (txs : list RawTransaction) : M unit :=
  match txs with
  | [] => ret tt
  | _ :: _ =>
      do seen <- gets last_sig;
      for_each process_tx (new_batch txs seen) ;;
      do stored <- load_last_signature;
      if negb (Py.truthy stored)
      then
        match last (txs_sorted txs) with
        | Some newest =>
            if Py.truthy (signature newest)
            then save_last_signature (signature newest) ;;
                 modify (set_last_sig (signature newest))
            else ret tt
        | None => ret tt
        end
      else ret tt
  end.

Definition poll_once : M unit :=
  do txs <- fetch_recent_transactions env (WATCH_WALLET cfg) 20;
  process_window txs ;;
  after_window env.

Definition iteration : M Branch :=
  try_except (poll_once ;; ret Success) handle.

End WithDisk.

End Disk.

(** ** Vocabulary of the properties *)

(** Every event of the run satisfies [P]. *)
Definition only (P : Event -> Prop) (s s' : Store) (evs : list Event) : Prop :=
  Forall P evs.

(** The variable [last_sig] and the state file agree afterwards if they did
    before. *)
Definition sync_kept (s s' : Store) (evs : list Event) : Prop :=
  last_sig s = state_file s -> last_sig s' = state_file s'.

(** The pauses of a run, in order. *)
Definition sleeps (evs : list Event) : list Z :=
  omap (fun ev => match ev with Sleep d => Some d | _ => None end) evs.

(** The requests to the transaction feed. *)
Definition is_fetch (ev : Event) : bool :=
  match ev with GetTransactions _ _ => true | _ => false end.

Definition is_sleep (ev : Event) : bool :=
  match ev with Sleep _ => true | _ => false end.

Definition is_post_telegram (ev : Event) : bool :=
  match ev with PostTelegram _ => true | _ => false end.

(** The clause an exception ends in. *)
Definition branch_of (e : Exn) : Branch :=
  match e with
  | HTTPError code _ => if code =? 429 then RateLimited else Transient
  | RequestException _ => Transient
  | PyException _ => Fatal
  end.

(** The pause that ends an iteration begun in store [s]. *)
Definition branch_pause (b : Branch) (s : Store) : Z :=
  match b with
  | Success => POLL_INTERVAL_SEC
  | RateLimited => retry_delay s
  | Transient => 10
  | Fatal => 5
  end.

(** The texts sent to Telegram, in order. *)
Definition notifications (evs : list Event) : list string :=
  omap (fun ev => match ev with PostTelegram text => Some text | _ => None end) evs.

(** [text] is the alert of transaction [tx]. *)
Definition alert_of (cfg : Config) (text : string) (tx : RawTransaction) : Prop :=
  exists d, text = alert_text cfg d /\ alert_signature d = signature tx.

(** The retry delay lies between the poll interval and the cap. *)
Definition delay_in_range (s : Store) : Prop :=
  POLL_INTERVAL_SEC <= retry_delay s <= MAX_BACKOFF.

(** No cached name or symbol is the empty string. *)
Definition cache_named (s : Store) : Prop :=
  forall m n k, _token_cache s !! m = Some (n, k) -> n <> "" /\ k <> "".

(** The order of the sort keys. *)
Definition key_le {A : Type} (key : A -> Z) (a b : A) : Prop := key a <= key b.

(** A relation between the store before, the store after and the events in
    between that holds of doing nothing and composes along a run. *)
Class StepRel (R : Store -> Store -> list Event -> Prop) := {
  step_refl : forall s, R s s [];
  step_trans : forall s1 s2 s3 e1 e2,
    R s1 s2 e1 -> R s2 s3 e2 -> R s1 s3 (e1 ++ e2)
}.

(** [m] respects [R] from every store, whether it returns or raises. *)
Definition always (R : Store -> Store -> list Event -> Prop) {A} (m : M A) : Prop :=
  forall s, R s (final (m s)) (emitted (m s)).

(** The cursors written, in order. *)
Definition writes (evs : list Event) : list (option string) :=
  omap (fun ev => match ev with WriteState sig => Some sig | _ => None end) evs.

(** The metadata requests for [m]. *)
Definition lookups (m : string) (evs : list Event) : nat :=
  length (List.filter (fun ev => match ev with
                                 | PostMetadata m' => String.eqb m m'
                                 | _ => false
                                 end) evs).

(** Nothing but the cache changes, and the state file is not written. *)
Definition quiet (s s' : Store) (evs : list Event) : Prop :=
  last_sig s' = last_sig s /\ retry_delay s' = retry_delay s
  /\ last_heartbeat s' = last_heartbeat s /\ state_file s' = state_file s
  /\ writes evs = [].

(** The cache only grows, a mint is asked for at most once, and it is asked
    for only when it is not cached and is cached afterwards. *)
Definition frugal (s s' : Store) (evs : list Event) : Prop :=
  (forall m v, _token_cache s !! m = Some v -> _token_cache s' !! m = Some v)
  /\ (forall m, (lookups m evs <= 1)%nat)
  /\ (forall m, is_Some (_token_cache s !! m) -> lookups m evs = 0%nat)
  /\ (forall m, (0 < lookups m evs)%nat -> is_Some (_token_cache s' !! m)).

(** A field on which [.strip()] raises: a truthy value that is no string. *)
Definition field_raises (f : MetaField) : bool :=
  match f with
  | FieldOther true _ => true
  | _ => false
  end.

(** A field that yields no name: absent, falsy, or blank once stripped. *)
Definition field_empty (f : MetaField) : bool :=
  match f with
  | FieldMissing => true
  | FieldStr s => String.eqb (Py.strip s) ""
  | FieldOther b _ => negb b
  end.

(** The ways a lookup fails: the request raises (network error, error
    status, unreadable body), the reply is empty or not a list, its first
    element is malformed, a field is of a type that cannot be stripped, or
    neither a name nor a symbol comes out of it. *)
Definition lookup_failed (r : MetaReply) : bool :=
  match r with
  | MetaRaises _ => true
  | MetaJson PayloadOther => true
  | MetaJson (PayloadList []) => true
  | MetaJson (PayloadList (EntryMalformed _ :: _)) => true
  | MetaJson (PayloadList (EntryData n sy :: _)) =>
      field_raises n || field_raises sy || (field_empty n && field_empty sy)
  end.

(** The mint of the record is that of the selected transfer. *)
Definition candidate_mint cfg (tx : RawTransaction) : string :=
  match select_candidate cfg (tokenTransfers tx) with
  | Some c => Py.or_str (mint c) "unknown"
  | None => "unknown"
  end.

(** The name and the symbol the selected transfer carries inline: those of
    its [token] object before [tokenName] and [tokenSymbol]. *)
Definition candidate_name cfg (tx : RawTransaction) : string :=
  match select_candidate cfg (tokenTransfers tx) with
  | Some c => Py.or_str (Py.or (token_info_name c) (tokenName c)) "unknown"
  | None => "unknown"
  end.

Definition candidate_symbol cfg (tx : RawTransaction) : string :=
  match select_candidate cfg (tokenTransfers tx) with
  | Some c => Py.or_str (Py.or (token_info_symbol c) (tokenSymbol c)) "unknown"
  | None => "unknown"
  end.

(** The test before the metadata lookup. *)
Definition needs_lookup cfg (tx : RawTransaction) : bool :=
  negb (String.eqb (candidate_mint cfg tx) "unknown")
  && (String.eqb (candidate_name cfg tx) "unknown"
      || String.eqb (candidate_symbol cfg tx) "unknown").

(** The property of the cursor over several iterations: of two cursors
    written one after the other, the transaction of the second is not older
    than the transaction of the first. *)
Definition cursor_never_goes_back
  (txs : list RawTransaction) (saved : list (option string)) : Prop :=
  forall (i : nat) c1 c2 t1 t2,
    saved !! i = Some c1 -> saved !! S i = Some c2 ->
    In t1 txs -> In t2 txs -> signature t1 = c1 -> signature t2 = c2 ->
    ts_key t1 <= ts_key t2.

(** The alerts of a run: the [[ALERT]] lines and the requests to Telegram. *)
Definition alerts (evs : list Event) : list Event :=
  List.filter (fun ev => match ev with
                         | PostTelegram _ => true
                         | Print line => String.prefix "[ALERT]" line
                         | _ => false
                         end) evs.

(** The lines printed while a window is processed. *)
Definition window_line (line : string) : bool :=
  String.prefix "[ALERT] " line || String.prefix "[TELEGRAM] " line
  || String.prefix "[META] " line.

(** What the events of a window may be: those prints, metadata requests,
    writes of the state file and, when the Telegram credentials are set,
    requests to Telegram. *)
Definition window_events (cfg : Config) (P : Event -> Prop) : Prop :=
  (forall line, window_line line = true -> P (Print line))
  /\ (forall m, P (PostMetadata m))
  /\ (forall c, P (WriteState c))
  /\ (Py.truthy (TELEGRAM_BOT_TOKEN cfg) = true ->
      Py.truthy (TELEGRAM_CHAT_ID cfg) = true ->
      forall text, P (PostTelegram text)).

(** The delay stays in range and every pause is between 5 s and the cap. *)
Definition paced (s s' : Store) (evs : list Event) : Prop :=
  delay_in_range s ->
  delay_in_range s' /\ Forall (fun d => 5 <= d <= MAX_BACKOFF) (sleeps evs).

(** The line of the heartbeat. *)
Definition heartbeat_line : Event := Print "[HEARTBEAT] Watcher is alive.".

(** Every cached identity has a non-empty name and symbol, and stays so. *)
Definition named_kept (s s' : Store) (evs : list Event) : Prop :=
  cache_named s -> cache_named s'.

(** The string contains a line feed. *)
Fixpoint has_newline (s : string) : bool :=
  match s with
  | String c s' => Ascii.eqb c "010"%char || has_newline s'
  | EmptyString => false
  end.

(** An [[ALERT]] line of the log holds on one line. *)
Definition one_line_alert (ev : Event) : Prop :=
  match ev with
  | Print line => String.prefix "[ALERT] " line = true -> has_newline line = false
  | _ => True
  end.

(** What enrichment emits: metadata requests and [[META]] lines. *)
Definition meta_event (ev : Event) : Prop :=
  match ev with
  | PostMetadata _ => True
  | Print line => String.prefix "[META] " line = true
  | _ => False
  end.

(** No iteration of the run ended in success. *)
Definition no_success (bs : list Branch) : Prop := ~ In Success bs.

(** The fetch is refused with HTTP 429. *)
Definition throttled_fetch (env : Env) : Prop :=
  exists msg, transactions_reply env = FetchRaises (HTTPError 429 msg).

(** An exception other than [requests.exceptions.HTTPError]. *)
Definition no_http_error (e : Exn) : Prop :=
  match e with
  | HTTPError _ _ => False
  | _ => True
  end.

(** The exception that leaves the [try] of an iteration begun in [s]: that
    of the fetch, or that of the processing of the fetched window; [None]
    when the [try] runs to its end. *)
Definition raised_in_try (cfg : Config) (env : Env) (s : Store) : option Exn :=
  match transactions_reply env with
  | FetchRaises e => Some e
  | FetchJson txs =>
      match outcome (process_window cfg env txs s) with
      | inl e => Some e
      | inr _ => None
      end
  end.

(** The branch an iteration ends in, by what left its [try]. *)
Definition branch_after (cause : option Exn) : Branch :=
  match cause with
  | Some e => branch_of e
  | None => Success
  end.

(** After the run the cursor in memory is the one in the state file, unless
    the run raised an exception of the class the last clause catches. *)
Definition in_sync_unless_other {A} (r : Run A) : Prop :=
  match outcome r with
  | inl (PyException _) => True
  | _ => last_sig (final r) = state_file (final r)
  end.

(** No write of the cursor of a transaction of the fetched window fails. *)
Definition window_is_written (env : Env) (disk : option string -> WriteReply) : Prop :=
  forall txs t,
    transactions_reply env = FetchJson txs -> In t txs ->
    disk (signature t) = Written.

(** ** Sample data *)

Module Sample.

Definition cfg : Config :=
  {| WATCH_WALLET := "W4LLET";
     TELEGRAM_BOT_TOKEN := Some "123:abc";
     TELEGRAM_CHAT_ID := Some "42" |}.

Definition transfer (from to_ mint_ : string) : TokenTransfer :=
  {| fromUserAccount := Some from; toUserAccount := Some to_;
     mint := Some mint_; token := None; tokenName := None;
     tokenSymbol := None |}.

Definition tx (sig : string) (ts : Z) : RawTransaction :=
  {| signature := Some sig; timestamp := Some ts; tokenTransfers := [] |}.

Definition txA := tx "A" 100.
Definition txB := tx "B" 200.
Definition txC : RawTransaction :=
  {| signature := Some "C"; timestamp := Some 150;
     tokenTransfers := [transfer "other" "W4LLET" "Mx"] |}.

Definition ok_telegram (_ : string) : TelegramReply := TelegramResponse 200 "ok".
Definition no_metadata (_ : string) : MetaReply := MetaJson (PayloadList []).

Definition env_of (reply : FetchReply) : Env :=
  {| transactions_reply := reply; metadata_reply := no_metadata;
     telegram_reply := ok_telegram; time_at_check := 0; time_at_mark := 0 |}.

Definition window (txs : list RawTransaction) : Env := env_of (FetchJson txs).
Definition throttled : Env := env_of (FetchRaises (HTTPError 429 "429 Client Error")).

End Sample.

Module SampleReplies.

Definition network_error (_ : string) : MetaReply :=
  MetaRaises (RequestException "Connection aborted.").
Definition empty_list (_ : string) : MetaReply := MetaJson (PayloadList []).
Definition no_fields (_ : string) : MetaReply :=
  MetaJson (PayloadList [EntryData FieldMissing FieldMissing]).
Definition only_symbol (_ : string) : MetaReply :=
  MetaJson (PayloadList [EntryData FieldMissing (FieldStr " USDC ")]).

Definition env_of (reply : string -> MetaReply) : Env :=
  {| transactions_reply := FetchJson []; metadata_reply := reply;
     telegram_reply := Sample.ok_telegram; time_at_check := 0;
     time_at_mark := 0 |}.

End SampleReplies.

Module SampleDelivery.

Definition env_of (reply : TelegramReply) (txs : list RawTransaction) : Env :=
  {| transactions_reply := FetchJson txs; metadata_reply := Sample.no_metadata;
     telegram_reply := fun _ => reply; time_at_check := 0; time_at_mark := 0 |}.

Definition refused : TelegramReply := TelegramResponse 502 "Bad Gateway".
Definition timed_out : TelegramReply := TelegramRaises "Read timed out.".

(** The requests sent to Telegram. *)
Definition posts (evs : list Event) : list string :=
  omap (fun ev => match ev with PostTelegram text => Some text | _ => None end) evs.

End SampleDelivery.

Module SampleDisk.

(** The write of cursor [B] is refused. *)
Definition refuses_B (sig : option string) : WriteReply :=
  if Py.eqb sig (Some "B") then OpenRaises "[Errno 13] Permission denied" else Written.

End SampleDisk.

(** * Properties *)

#[local] Arguments String.append : simpl never.
#[local] Arguments Datetime.isoformat_utc : simpl never.
#[local] Arguments alert_text : simpl never.
#[local] Arguments fetch_token_metadata : simpl never.
#[local] Arguments extract_token_details : simpl never.
#[local] Arguments send_telegram_text : simpl never.
#[local] Arguments process_tx : simpl never.
#[local] Arguments new_batch : simpl never.
#[local] Arguments after_window : simpl never.
#[local] Arguments handle : simpl never.
#[local] Arguments iteration : simpl never.
#[local] Arguments txs_sorted : simpl never.
#[local] Arguments process_window : simpl never.

(** ** [sorted] is a stable sort *)

Section SortedFacts.
Context {A : Type} (key : A -> Z).

Lemma insert_by_Permutation x l :
  Permutation (Py.insert_by key x l) (x :: l).
Proof.
  induction l as [|y l IH]; simpl.
  - reflexivity.
  - destruct (key y <? key x).
    + rewrite IH. apply perm_swap.
    + reflexivity.
Qed.

Lemma sorted_Permutation l : Permutation (Py.sorted key l) l.
Proof.
  induction l as [|x l IH]; simpl.
  - constructor.
  - rewrite insert_by_Permutation. now constructor.
Qed.

Lemma insert_by_Forall (P : A -> Prop) x l :
  P x -> Forall P l -> Forall P (Py.insert_by key x l).
Proof.
  intros Hx Hl. induction Hl as [|y l Hy Hl IH]; simpl.
  - now constructor.
  - destruct (key y <? key x); constructor; auto.
Qed.

Lemma insert_by_StronglySorted x l :
  StronglySorted (key_le key) l -> StronglySorted (key_le key) (Py.insert_by key x l).
Proof.
  induction 1 as [|y l Hs IH Hy]; simpl.
  - repeat constructor.
  - destruct (Z.ltb_spec (key y) (key x)) as [Hlt | Hge].
    + constructor; [exact IH |].
      apply insert_by_Forall; [unfold key_le; lia | exact Hy].
    + constructor; [now constructor |].
      constructor; [exact Hge |].
      eapply List.Forall_impl; [| exact Hy].
      unfold key_le. intros a Ha. simpl in Ha. lia.
Qed.

Lemma sorted_StronglySorted l : StronglySorted (key_le key) (Py.sorted key l).
Proof.
  induction l as [|x l IH]; simpl.
  - constructor.
  - now apply insert_by_StronglySorted.
Qed.

(** Stability: elements of equal key keep their order. *)
Lemma filter_key_insert_by k x l :
  List.filter (fun a => key a =? k) (Py.insert_by key x l) =
  if key x =? k then x :: List.filter (fun a => key a =? k) l
  else List.filter (fun a => key a =? k) l.
Proof.
  induction l as [|y l IH]; simpl.
  - reflexivity.
  - destruct (Z.ltb_spec (key y) (key x)) as [Hlt | Hge]; simpl.
    + rewrite IH.
      destruct (Z.eqb_spec (key y) k), (Z.eqb_spec (key x) k);
        try reflexivity; lia.
    + reflexivity.
Qed.

Lemma sorted_stable k l :
  List.filter (fun a => key a =? k) (Py.sorted key l) =
  List.filter (fun a => key a =? k) l.
Proof.
  induction l as [|x l IH]; simpl.
  - reflexivity.
  - rewrite filter_key_insert_by, IH. reflexivity.
Qed.

(** A comprehension with an [if] commutes with the sort. *)
Lemma filter_insert_by (p : A -> bool) x l :
  StronglySorted (key_le key) l ->
  List.filter p (Py.insert_by key x l) =
  if p x then Py.insert_by key x (List.filter p l) else List.filter p l.
Proof.
  induction 1 as [|y l Hs IH Hy]; simpl.
  - destruct (p x); reflexivity.
  - destruct (Z.ltb_spec (key y) (key x)) as [Hlt | Hge]; simpl.
    + rewrite IH. destruct (p y), (p x); simpl; try reflexivity.
      destruct (Z.ltb_spec (key y) (key x)); [reflexivity | lia].
    + destruct (p x) eqn:Hpx; [| reflexivity].
      destruct (p y) eqn:Hpy; simpl.
      * destruct (Z.ltb_spec (key y) (key x)); [lia | reflexivity].
      * clear IH. induction Hy as [|z l Hz Hy IH]; simpl; [reflexivity |].
        destruct (p z) eqn:Hpz; simpl.
        -- unfold key_le in Hz.
           destruct (Z.ltb_spec (key z) (key x)); [lia | reflexivity].
        -- apply IH. now inversion Hs.
Qed.

Lemma filter_sorted (p : A -> bool) l :
  List.filter p (Py.sorted key l) = Py.sorted key (List.filter p l).
Proof.
  induction l as [|x l IH]; simpl.
  - reflexivity.
  - rewrite filter_insert_by by apply sorted_StronglySorted.
    rewrite IH. destruct (p x); reflexivity.
Qed.

(** In a sorted list an element of larger key comes later. *)
Lemma StronglySorted_lookup_lt (l : list A) (i j : nat) a b :
  StronglySorted (key_le key) l ->
  l !! i = Some a -> l !! j = Some b -> key a < key b -> (i < j)%nat.
Proof.
  intros Hs. revert i j. induction Hs as [|y l Hs IH Hy]; intros i j Ha Hb Hlt.
  - discriminate.
  - destruct i as [|i], j as [|j]; simpl in *.
    + inversion Ha; inversion Hb; subst. lia.
    + lia.
    + inversion Hb; subst.
      rewrite List.Forall_forall in Hy.
      assert (Hin : In a l)
        by (apply list_elem_of_In; eapply list_elem_of_lookup_2; eauto).
      specialize (Hy _ Hin). unfold key_le in Hy. lia.
    + apply -> Nat.succ_lt_mono. eapply IH; eauto.
Qed.
End SortedFacts.

(** ** The novelty filter *)

Lemma py_eqb_true (a b : option string) : Py.eqb a b = true <-> a = b.
Proof. unfold Py.eqb. apply bool_decide_eq_true. Qed.

Lemma py_eqb_false (a b : option string) : Py.eqb a b = false <-> a <> b.
Proof. unfold Py.eqb. apply bool_decide_eq_false. Qed.

(** C3. Without a cursor ([last_sig] is [None]) the batch of a non-empty
    window is the whole window ordered by timestamp: it is a permutation of
    the window, its keys never decrease, a missing timestamp having key 0,
    transactions of equal key keep the order of the feed, and a transaction
    without timestamp stands before every transaction of positive
    timestamp. *)
Theorem new_batch_without_cursor (txs : list RawTransaction) :
  txs <> [] ->
  let out := new_batch txs None in
  Permutation out txs
  /\ StronglySorted (key_le ts_key) out
  /\ (forall k, List.filter (fun t => ts_key t =? k) out =
                List.filter (fun t => ts_key t =? k) txs)
  /\ (forall t, timestamp t = None -> ts_key t = 0)
  /\ (forall (i j : nat) t u,
         out !! i = Some t -> out !! j = Some u ->
         timestamp t = None -> 0 < ts_key u -> (i < j)%nat).
Proof.
  intros _. cbv zeta. unfold new_batch, txs_sorted. simpl.
  split; [apply sorted_Permutation |].
  split; [apply sorted_StronglySorted |].
  split; [intros k; apply sorted_stable |].
  split; [intros t Ht; unfold ts_key; now rewrite Ht |].
  intros i j t u Hi Hj Ht Hu.
  eapply (StronglySorted_lookup_lt ts_key); eauto using sorted_StronglySorted.
  unfold ts_key at 1. rewrite Ht. simpl. exact Hu.
Qed.

Lemma new_batch_without_cursor_witness :
  let txs := [Sample.txB; Sample.txA] in
  let out := new_batch txs None in
  out = [Sample.txA; Sample.txB]
  /\ Permutation out txs
  /\ StronglySorted (key_le ts_key) out.
Proof.
  split; [reflexivity |].
  pose proof (new_batch_without_cursor [Sample.txB; Sample.txA]) as H.
  destruct H as (Hp & Hs & _); [discriminate |].
  split; [exact Hp | exact Hs].
Defined.

(** C10. With a cursor (the loop's test [if last_sig:] holds: the cursor is
    a non-empty string) the batch is the window sorted by timestamp without
    the transactions whose signature is the cursor, wherever they stand: it
    holds exactly the transactions of the window with another signature,
    among them every one older than the cursor's transaction, in sorted and
    stable order. *)
Theorem new_batch_with_cursor (txs : list RawTransaction) (seen : option string) :
  Py.truthy seen = true ->
  let keep := fun t => negb (Py.eqb (signature t) seen) in
  let out := new_batch txs seen in
  out = List.filter keep (txs_sorted txs)
  /\ out = Py.sorted ts_key (List.filter keep txs)
  /\ (forall t, In t out <-> In t txs /\ signature t <> seen)
  /\ (forall t c, In t txs -> In c txs -> signature c = seen ->
                  signature t <> seen -> ts_key t < ts_key c -> In t out)
  /\ StronglySorted (key_le ts_key) out
  /\ (forall k, List.filter (fun t => ts_key t =? k) out =
                List.filter (fun t => ts_key t =? k) (List.filter keep txs)).
Proof.
  intros Hseen. cbv zeta. unfold new_batch, txs_sorted. rewrite Hseen.
  assert (Hmem : forall t,
             In t (List.filter (fun t => negb (Py.eqb (signature t) seen))
                     (Py.sorted ts_key txs))
             <-> In t txs /\ signature t <> seen).
  { intros t. rewrite filter_In.
    rewrite (Permutation_in' (eq_refl t) (sorted_Permutation ts_key txs)).
    rewrite negb_true_iff, py_eqb_false. reflexivity. }
  split; [reflexivity |].
  split; [apply filter_sorted |].
  split; [exact Hmem |].
  split; [intros t c Ht _ _ Hne _; apply Hmem; now split |].
  rewrite filter_sorted.
  split; [apply sorted_StronglySorted | intros k; apply sorted_stable].
Qed.

Lemma new_batch_with_cursor_witness :
  new_batch [Sample.txB; Sample.txC; Sample.txA] (Some "B")
  = [Sample.txA; Sample.txC].
Proof.
  pose proof (new_batch_with_cursor [Sample.txB; Sample.txC; Sample.txA]
                (Some "B") eq_refl) as H.
  cbv zeta in H. destruct H as (H & _). rewrite H. reflexivity.
Defined.

(** C1 as stated fails: the cursor is the signature of the newest
    transaction of the window, and the older transaction is selected all the
    same. *)
Lemma newest_is_cursor_batch_not_empty :
  last (txs_sorted [Sample.txA; Sample.txB]) = Some Sample.txB
  /\ signature Sample.txB = Some "B"
  /\ new_batch [Sample.txA; Sample.txB] (Some "B") = [Sample.txA]
  /\ new_batch [Sample.txA; Sample.txB] (Some "B") <> [].
Proof. repeat split; discriminate. Qed.

(** ** Reasoning about runs *)

Section Always.
Context (R : Store -> Store -> list Event -> Prop) `{!StepRel R}.

Lemma always_ret {A} (a : A) : always R (ret a).
Proof. intros s. apply step_refl. Qed.

Lemma always_raise {A} (e : Exn) : always R (@raise A e).
Proof. intros s. apply step_refl. Qed.

Lemma always_gets {A} (f : Store -> A) : always R (gets f).
Proof. intros s. apply step_refl. Qed.

Lemma always_bind {A B} (m : M A) (k : A -> M B) :
  always R m -> (forall a, always R (k a)) -> always R (bind m k).
Proof.
  intros Hm Hk s. unfold bind. specialize (Hm s).
  destruct (m s) as [[e|a] s1 evs1]; simpl in *; [exact Hm |].
  specialize (Hk a s1). destruct (k a s1) as [o s2 evs2]; simpl in *.
  eapply step_trans; [exact Hm | exact Hk].
Qed.

Lemma always_try_except {A} (m : M A) (h : Exn -> M A) :
  always R m -> (forall e, always R (h e)) -> always R (try_except m h).
Proof.
  intros Hm Hh s. unfold try_except. specialize (Hm s).
  destruct (m s) as [[e|a] s1 evs1]; simpl in *; [| exact Hm].
  specialize (Hh e s1). destruct (h e s1) as [o s2 evs2]; simpl in *.
  eapply step_trans; [exact Hm | exact Hh].
Qed.

Lemma always_for_each {A} (body : A -> M unit) (l : list A) :
  (forall x, always R (body x)) -> always R (for_each body l).
Proof.
  intros Hb. induction l as [|x l IH]; simpl.
  - apply always_ret.
  - apply always_bind; auto.
Qed.

Lemma always_emit (ev : Event) :
  (forall s, R s s [ev]) -> always R (emit ev).
Proof. intros H s. apply H. Qed.

Lemma always_modify (f : Store -> Store) :
  (forall s, R s (f s) []) -> always R (modify f).
Proof. intros H s. apply H. Qed.
End Always.

(** Splits a program along its binds and case distinctions. *)
Ltac always_step :=
  match goal with
  | |- always ?R (ret _) => apply (always_ret R)
  | |- always ?R (raise _) => apply (always_raise R)
  | |- always ?R (gets _) => apply (always_gets R)
  | |- always ?R (bind _ _) => apply (always_bind R); [| intros ?]
  | |- always ?R (try_except _ _) => apply (always_try_except R); [| intros ?]
  | |- always ?R (for_each _ _) => apply (always_for_each R); intros ?
  | |- always _ (match ?x with _ => _ end) => destruct x eqn:?
  | |- always _ (print _) => unfold print
  | |- always _ (sleep _) => unfold sleep
  end.

Lemma writes_app e1 e2 : writes (e1 ++ e2) = writes e1 ++ writes e2.
Proof. apply omap_app. Qed.

Lemma lookups_app m e1 e2 : lookups m (e1 ++ e2) = (lookups m e1 + lookups m e2)%nat.
Proof. unfold lookups. now rewrite List.filter_app, length_app. Qed.

#[export] Instance quiet_step : StepRel quiet.
Proof.
  split.
  - intros s. repeat split.
  - intros s1 s2 s3 e1 e2 (H1 & H2 & H3 & H4 & H5) (K1 & K2 & K3 & K4 & K5).
    unfold quiet. rewrite writes_app, H5, K5. repeat split; congruence.
Qed.

#[export] Instance frugal_step : StepRel frugal.
Proof.
  split.
  - intros s. unfold frugal, lookups. simpl. repeat split; auto; intros; lia.
  - intros s1 s2 s3 e1 e2 (H1 & H2 & H3 & H4) (K1 & K2 & K3 & K4).
    unfold frugal. repeat split.
    + auto.
    + intros m. rewrite lookups_app.
      destruct (lookups m e1) as [|n] eqn:E1; [apply K2 |].
      rewrite (K3 m); [specialize (H2 m); lia |].
      apply H4. lia.
    + intros m Hm. rewrite lookups_app, (H3 m Hm), (K3 m); [reflexivity |].
      destruct Hm as [v Hv]. exists v. auto.
    + intros m. rewrite lookups_app. intros Hpos.
      destruct (lookups m e2) as [|n] eqn:E2; [| apply K4; lia].
      destruct (H4 m) as [v Hv]; [lia |]. exists v. auto.
Qed.

(** ** The token identity cache *)

Ltac unfold_run :=
  unfold bind, try_except, ret, raise, emit, gets, modify, print, sleep,
    cache_put in *; simpl in *.

(** A hit answers from the cache: no request, no event, the store as it was. *)
Lemma fetch_token_metadata_hit env mint_ s v :
  _token_cache s !! mint_ = Some v ->
  fetch_token_metadata env mint_ s = MkRun (inr v) s [].
Proof.
  intros H. unfold fetch_token_metadata. unfold_run. rewrite H. reflexivity.
Qed.

Lemma fetch_token_metadata_miss_failed env mint_ s :
  _token_cache s !! mint_ = None ->
  lookup_failed (metadata_reply env mint_) = true ->
  outcome (fetch_token_metadata env mint_ s) = inr ("unknown", "unknown")
  /\ _token_cache (final (fetch_token_metadata env mint_ s))
     = <[mint_ := ("unknown", "unknown")]> (_token_cache s).
Proof.
  intros Hmiss Hfail. unfold fetch_token_metadata, lookup_metadata.
  unfold_run. rewrite Hmiss. simpl.
  destruct (metadata_reply env mint_) as [e | [| [| [msg | n sy] items]]];
    simpl in *; auto.
  destruct n as [| sn | [] tn]; simpl in *; auto;
    destruct sy as [| ss | [] ts]; simpl in *; auto; try discriminate.
  all: repeat match goal with
         | H : context [String.eqb ?a ?b] |- _ =>
             destruct (String.eqb_spec a b); simpl in H; try discriminate
         | H : ?a = "" |- _ => rewrite H
         end; simpl; auto.
Qed.

(** A miss asks once, caches what it returns and never raises. *)
Lemma fetch_token_metadata_miss env mint_ s :
  _token_cache s !! mint_ = None ->
  exists v log,
    fetch_token_metadata env mint_ s
    = MkRun (inr v) (set_token_cache (<[mint_ := v]> (_token_cache s)) s)
        (PostMetadata mint_ :: log)
    /\ (log = [] \/ exists line, log = [Print line]).
Proof.
  intros Hmiss. unfold fetch_token_metadata, lookup_metadata.
  unfold_run. rewrite Hmiss. simpl.
  destruct (metadata_reply env mint_) as [e | [| [| [msg | n sy] items]]];
    simpl; eauto 6.
  destruct n as [| sn | [] tn]; simpl; eauto 6;
    destruct sy as [| ss | [] ts]; simpl; eauto 6.
Qed.

Lemma fetch_token_metadata_returns env mint_ s :
  exists v, outcome (fetch_token_metadata env mint_ s) = inr v
            /\ _token_cache (final (fetch_token_metadata env mint_ s)) !! mint_
               = Some v.
Proof.
  destruct (_token_cache s !! mint_) as [v|] eqn:Hc.
  - exists v. rewrite (fetch_token_metadata_hit _ _ _ _ Hc). auto.
  - destruct (fetch_token_metadata_miss env _ _ Hc) as (v & log & -> & _).
    exists v. simpl. split; [reflexivity | apply lookup_insert_eq].
Qed.

Lemma lookups_cons_post m m' evs :
  lookups m (PostMetadata m' :: evs)
  = ((if String.eqb m m' then 1 else 0) + lookups m evs)%nat.
Proof. unfold lookups. simpl. destruct (String.eqb m m'); reflexivity. Qed.

Lemma fetch_token_metadata_quiet env mint_ : always quiet (fetch_token_metadata env mint_).
Proof.
  intros s. destruct (_token_cache s !! mint_) as [v|] eqn:Hc.
  - rewrite (fetch_token_metadata_hit _ _ _ _ Hc). apply step_refl.
  - destruct (fetch_token_metadata_miss env _ _ Hc) as (v & log & -> & Hlog).
    simpl. unfold quiet. simpl.
    destruct Hlog as [-> | (line & ->)]; repeat split.
Qed.

Lemma fetch_token_metadata_frugal env mint_ : always frugal (fetch_token_metadata env mint_).
Proof.
  intros s. destruct (_token_cache s !! mint_) as [v|] eqn:Hc.
  - rewrite (fetch_token_metadata_hit _ _ _ _ Hc). apply step_refl.
  - destruct (fetch_token_metadata_miss env _ _ Hc) as (v & log & -> & Hlog).
    simpl.
    assert (Hl : forall m, lookups m (PostMetadata mint_ :: log)
                           = if String.eqb m mint_ then 1%nat else 0%nat).
    { intros m. rewrite lookups_cons_post.
      destruct Hlog as [-> | (line & ->)]; unfold lookups; simpl; lia. }
    unfold frugal. simpl. repeat split.
    + intros m w Hm. rewrite lookup_insert_ne; [exact Hm | congruence].
    + intros m. rewrite Hl. destruct (String.eqb m mint_); lia.
    + intros m Hm. rewrite Hl. destruct (String.eqb_spec m mint_); [| reflexivity].
      subst m. rewrite Hc in Hm. now destruct Hm.
    + intros m. rewrite Hl. destruct (String.eqb_spec m mint_); [| lia].
      subst m. intros _. rewrite lookup_insert_eq. eauto.
Qed.

(** ** Enrichment and notification leave the cursor alone *)

Lemma quiet_event ev s :
  (forall sig, ev <> WriteState sig) -> quiet s s [ev].
Proof.
  intros H. unfold quiet, writes. repeat split.
  destruct ev; simpl; try reflexivity. now destruct (H sig).
Qed.

Lemma frugal_event ev s :
  (forall m, ev <> PostMetadata m) -> frugal s s [ev].
Proof.
  intros H.
  assert (Hl : forall m, lookups m [ev] = 0%nat).
  { intros m. destruct ev; try reflexivity. now destruct (H mint_account). }
  unfold frugal. repeat split; auto; intros m; rewrite Hl; lia.
Qed.

Lemma frugal_same_cache s s' :
  _token_cache s' = _token_cache s -> frugal s s' [].
Proof.
  intros H. unfold frugal, lookups. rewrite H. simpl.
  repeat split; auto; intros; lia.
Qed.

Create HintDb watcher.
#[local] Hint Resolve fetch_token_metadata_quiet fetch_token_metadata_frugal : watcher.

Ltac always_auto :=
  repeat always_step;
  try solve
    [ eauto with watcher
    | match goal with |- always ?R (emit _) => apply (always_emit R) end;
      intros ?; first [apply quiet_event | apply frugal_event | reflexivity];
      discriminate
    | match goal with |- always ?R (modify _) => apply (always_modify R) end;
      intros ?; first [apply frugal_same_cache | idtac]; reflexivity ].

Lemma extract_token_details_quiet cfg env tx :
  always quiet (extract_token_details cfg env tx).
Proof. unfold extract_token_details, iso_time_of, ts_to_iso. always_auto. Qed.

Lemma extract_token_details_frugal cfg env tx :
  always frugal (extract_token_details cfg env tx).
Proof. unfold extract_token_details, iso_time_of, ts_to_iso. always_auto. Qed.

Lemma send_telegram_text_run cfg env text s :
  final (send_telegram_text cfg env text s) = s
  /\ writes (emitted (send_telegram_text cfg env text s)) = []
  /\ forall m, lookups m (emitted (send_telegram_text cfg env text s)) = 0%nat.
Proof.
  unfold send_telegram_text.
  destruct (negb _ || negb _); [repeat split |].
  unfold_run. destruct (telegram_reply env text) as [msg | code body]; simpl;
    [repeat split |].
  destruct (code =? 200); repeat split.
Qed.

Lemma send_telegram_text_frugal cfg env text :
  always frugal (send_telegram_text cfg env text).
Proof. unfold send_telegram_text. always_auto. Qed.

#[local] Hint Resolve extract_token_details_quiet extract_token_details_frugal
  send_telegram_text_frugal : watcher.

Lemma process_tx_frugal cfg env tx : always frugal (process_tx cfg env tx).
Proof. unfold process_tx, save_last_signature. always_auto. Qed.

#[local] Hint Resolve process_tx_frugal : watcher.

Lemma iteration_frugal cfg env : always frugal (iteration cfg env).
Proof.
  unfold iteration, poll_once, fetch_recent_transactions, process_window,
    after_window, heartbeat, handle, load_last_signature, save_last_signature.
  always_auto.
Qed.

#[local] Hint Resolve iteration_frugal : watcher.

Lemma poll_watch_wallet_frugal cfg start envs :
  always frugal (poll_watch_wallet cfg start envs).
Proof.
  unfold poll_watch_wallet, load_last_signature.
  assert (H : always frugal (iterations cfg envs)).
  { induction envs as [|env envs IH]; simpl; always_auto. }
  always_auto.
Qed.

(** ** One transaction of the batch *)

Lemma process_tx_cases cfg env tx s :
  let r := process_tx cfg env tx s in
  match outcome r with
  | inr _ =>
      last_sig (final r) = signature tx /\ state_file (final r) = signature tx
      /\ writes (emitted r) = [signature tx]
  | inl _ =>
      last_sig (final r) = last_sig s /\ state_file (final r) = state_file s
      /\ writes (emitted r) = []
  end
  /\ retry_delay (final r) = retry_delay s
  /\ last_heartbeat (final r) = last_heartbeat s.
Proof.
  cbv zeta. unfold process_tx, save_last_signature.
  pose proof (extract_token_details_quiet cfg env tx s) as (Q1 & Q2 & Q3 & Q4 & Q5).
  pose proof (send_telegram_text_run cfg env) as Hsend.
  generalize dependent (send_telegram_text cfg env). intros snd Hsend.
  generalize dependent (extract_token_details cfg env tx). intros ext Q1 Q2 Q3 Q4 Q5.
  unfold bind, print, emit, modify, ret.
  destruct (ext s) as [[e | details] s0 evs0]; simpl in *;
    [repeat split; assumption |].
  destruct (Hsend (alert_text cfg details) s0) as (T1 & T2 & _).
  destruct (snd (alert_text cfg details) s0) as [[e | []] s1 evs1];
    simpl in *; subst s1.
  - rewrite writes_app, Q5. simpl. rewrite T2. repeat split; assumption.
  - rewrite writes_app, Q5. simpl. rewrite writes_app, T2. simpl.
    repeat split; assumption.
Qed.

(** The loop over the batch writes the cursor of each transaction it gets
    through, in order, and stops at the first that raises. *)
Lemma for_each_process_tx cfg env (l : list RawTransaction) s :
  let r := for_each (process_tx cfg env) l s in
  exists done rest,
    l = done ++ rest
    /\ writes (emitted r) = map signature done
    /\ (outcome r = inr tt -> rest = [])
    /\ (done = [] -> last_sig (final r) = last_sig s
                     /\ state_file (final r) = state_file s)
    /\ (forall t, last done = Some t ->
          last_sig (final r) = signature t /\ state_file (final r) = signature t)
    /\ retry_delay (final r) = retry_delay s.
Proof.
  cbv zeta. revert s. induction l as [|tx l IH]; intros s.
  - exists [], []. simpl. repeat split; intros; auto; discriminate.
  - simpl. unfold bind.
    pose proof (process_tx_cases cfg env tx s) as (Hc & Hr & _). cbv zeta in Hc, Hr.
    destruct (process_tx cfg env tx s) as [[e | []] s1 evs1]; simpl in *.
    + exists [], (tx :: l). simpl. destruct Hc as (H1 & H2 & H3).
      repeat split; auto; try discriminate.
    + destruct Hc as (H1 & H2 & H3).
      destruct (IH s1) as (done & rest & -> & Hw & Hok & Hnil & Hlast & Hrd).
      destruct (for_each (process_tx cfg env) (done ++ rest) s1)
        as [o s2 evs2]; simpl in *.
      exists (tx :: done), rest. rewrite writes_app, H3, Hw. simpl.
      repeat split; auto; try discriminate; try congruence.
      * destruct done as [|t' done']; simpl in H.
        -- inversion H; subst. destruct (Hnil eq_refl). congruence.
        -- now apply Hlast.
      * destruct done as [|t' done']; simpl in H.
        -- inversion H; subst. destruct (Hnil eq_refl). congruence.
        -- now apply Hlast.
Qed.

(** ** One window *)

Lemma txs_sorted_In txs t : In t (txs_sorted txs) <-> In t txs.
Proof.
  unfold txs_sorted. split; apply Permutation_in;
    [| symmetry]; apply sorted_Permutation.
Qed.

Lemma new_batch_In txs seen t : In t (new_batch txs seen) -> In t (txs_sorted txs).
Proof.
  unfold new_batch. destruct (Py.truthy seen); [| auto].
  intros H. apply filter_In in H. tauto.
Qed.

Lemma new_batch_StronglySorted txs seen :
  StronglySorted (key_le ts_key) (new_batch txs seen).
Proof.
  unfold new_batch, txs_sorted. destruct (Py.truthy seen).
  - rewrite filter_sorted. apply sorted_StronglySorted.
  - apply sorted_StronglySorted.
Qed.

Lemma txs_sorted_le_newest txs newest t :
  last (txs_sorted txs) = Some newest ->
  In t (txs_sorted txs) -> key_le ts_key t newest.
Proof.
  intros Hlast Hin. apply last_Some in Hlast as [l' Hl'].
  pose proof (sorted_StronglySorted ts_key txs) as Hs.
  unfold txs_sorted in *. rewrite Hl' in Hs, Hin.
  apply in_app_or in Hin as [Hin | [<- | []]].
  - eapply StronglySorted_app_1_elem_of; [exact Hs | | ].
    + now apply list_elem_of_In.
    + apply list_elem_of_here.
  - unfold key_le. lia.
Qed.

(** The cursors written while a window is processed are the signatures of
    transactions of the window taken in the order of their timestamps. *)
Lemma process_window_writes cfg env txs s :
  let r := process_window cfg env txs s in
  exists done,
    writes (emitted r) = map signature done
    /\ StronglySorted (key_le ts_key) done
    /\ (forall t, In t done -> In t txs)
    /\ retry_delay (final r) = retry_delay s.
Proof.
  cbv zeta. unfold process_window. destruct txs as [|tx0 txs0].
  { exists []. simpl. repeat split; [constructor | tauto]. }
  remember (tx0 :: txs0) as txs eqn:Etxs. clear Etxs tx0 txs0.
  unfold load_last_signature, save_last_signature.
  unfold_run.
  destruct (for_each_process_tx cfg env (new_batch txs (last_sig s)) s)
    as (done & rest & Hsplit & Hw & Hok & _ & _ & Hrd).
  pose proof (new_batch_StronglySorted txs (last_sig s)) as Hs.
  assert (Hin : forall t, In t done -> In t (txs_sorted txs)).
  { intros t Ht. apply (new_batch_In txs (last_sig s)). rewrite Hsplit.
    apply in_or_app. now left. }
  rewrite Hsplit in Hs. apply StronglySorted_app_1_l in Hs.
  destruct (for_each (process_tx cfg env) (new_batch txs (last_sig s)) s)
    as [[e | []] s1 evs1]; simpl in *.
  { exists done. repeat split; auto. intros t Ht. now apply txs_sorted_In, Hin. }
  specialize (Hok eq_refl). subst rest. rewrite app_nil_r in Hsplit.
  destruct (negb (Py.truthy (state_file s1))); simpl.
  2:{ exists done. rewrite app_nil_r. repeat split; auto.
      intros t Ht. now apply txs_sorted_In, Hin. }
  destruct (last (txs_sorted txs)) as [newest|] eqn:Hlast; simpl.
  2:{ exists done. rewrite app_nil_r. repeat split; auto.
      intros t Ht. now apply txs_sorted_In, Hin. }
  destruct (Py.truthy (signature newest)); simpl.
  2:{ exists done. rewrite app_nil_r. repeat split; auto.
      intros t Ht. now apply txs_sorted_In, Hin. }
  exists (done ++ [newest]). rewrite writes_app, Hw, map_app. simpl.
  repeat split; auto.
  - apply StronglySorted_app_2; [| exact Hs | repeat constructor].
    intros x1 x2 H1 H2. apply list_elem_of_singleton in H2. subst x2.
    apply (txs_sorted_le_newest txs); [exact Hlast |].
    now apply Hin, list_elem_of_In.
  - intros t Ht. apply in_app_or in Ht as [Ht | [<- | []]].
    + now apply txs_sorted_In, Hin.
    + apply txs_sorted_In. apply list_elem_of_In.
      now apply last_Some_elem_of.
Qed.

(** ** One iteration *)

Lemma after_window_run env s :
  let r := after_window env s in
  outcome r = inr tt
  /\ retry_delay (final r) = POLL_INTERVAL_SEC
  /\ last_sig (final r) = last_sig s
  /\ state_file (final r) = state_file s
  /\ writes (emitted r) = [].
Proof.
  cbv zeta. unfold after_window, heartbeat. unfold_run.
  destruct (300 <? time_at_check env - last_heartbeat s); simpl; repeat split.
Qed.

Lemma handle_run e s :
  let r := handle e s in
  exists b,
    outcome r = inr b
    /\ b <> Success
    /\ (b = RateLimited <-> exists msg, e = HTTPError 429 msg)
    /\ retry_delay (final r)
       = match b with
         | RateLimited => Z.min (retry_delay s * 2) MAX_BACKOFF
         | _ => retry_delay s
         end
    /\ last_sig (final r) = last_sig s
    /\ state_file (final r) = state_file s
    /\ writes (emitted r) = [].
Proof.
  cbv zeta. unfold handle. destruct e as [code msg | msg | msg].
  - destruct (Z.eqb_spec code 429) as [-> | Hne]; unfold_run.
    + exists RateLimited. repeat split; eauto; discriminate.
    + exists Transient. repeat split; try discriminate.
      intros (m & [= Hc _]). contradiction.
  - unfold_run. exists Transient. repeat split; try discriminate.
    intros (m & [=]).
  - unfold_run. exists Fatal. repeat split; try discriminate.
    intros (m & [=]).
Qed.

Lemma iteration_cases cfg env s :
  let r := iteration cfg env s in
  exists b,
    outcome r = inr b
    /\ retry_delay (final r)
       = match b with
         | Success => POLL_INTERVAL_SEC
         | RateLimited => Z.min (retry_delay s * 2) MAX_BACKOFF
         | _ => retry_delay s
         end
    /\ writes (emitted r)
       = match transactions_reply env with
         | FetchJson txs => writes (emitted (process_window cfg env txs s))
         | FetchRaises _ => []
         end.
Proof.
  cbv zeta. unfold iteration, poll_once, fetch_recent_transactions.
  pose proof (after_window_run env) as Haw.
  pose proof handle_run as Hh.
  pose proof (process_window_writes cfg env) as Hpw. cbv zeta in Haw, Hh, Hpw.
  generalize dependent (after_window env). intros aw Haw.
  generalize dependent handle. intros h Hh.
  generalize dependent (process_window cfg env). intros pw Hpw.
  unfold try_except, bind, emit, ret, raise. simpl.
  destruct (transactions_reply env) as [e | txs]; simpl.
  - destruct (Hh e s) as (b & Ho & Hb & _ & Hr & _ & _ & Hw).
    destruct (h e s) as [o s2 evs2]; simpl in *. subst o.
    exists b. rewrite Hw, Hr. repeat split.
    destruct b; try reflexivity. contradiction.
  - destruct (Hpw txs s) as (_ & _ & _ & _ & Hrd).
    destruct (pw txs s) as [[e | []] s1 evs1]; simpl in *.
    + destruct (Hh e s1) as (b & Ho & Hb & _ & Hr & _ & _ & Hw).
      destruct (h e s1) as [o s2 evs2]; simpl in *. subst o.
      exists b. rewrite writes_app, Hw, Hr, Hrd, app_nil_r.
      repeat split. destruct b; try reflexivity. contradiction.
    + destruct (Haw s1) as (Ho & Hr & _ & _ & Hw).
      destruct (aw s1) as [o s2 evs2]; simpl in *. subst o. simpl.
      exists Success.
      rewrite Hr, !writes_app, Hw. simpl. now rewrite !app_nil_r.
Qed.

(** An iteration, by what its fetch and the processing of the window do. *)
Lemma iteration_unfold cfg env s :
  iteration cfg env s =
  match transactions_reply env with
  | FetchRaises e =>
      match handle e s with
      | MkRun o s' evs => MkRun o s' (GetTransactions (WATCH_WALLET cfg) 20 :: evs)
      end
  | FetchJson txs =>
      match process_window cfg env txs s with
      | MkRun (inl e) s1 evs1 =>
          match handle e s1 with
          | MkRun o s' evs =>
              MkRun o s' (GetTransactions (WATCH_WALLET cfg) 20 :: evs1 ++ evs)
          end
      | MkRun (inr _) s1 evs1 =>
          match after_window env s1 with
          | MkRun _ s' evs =>
              MkRun (inr Success) s' (GetTransactions (WATCH_WALLET cfg) 20 :: evs1 ++ evs)
          end
      end
  end.
Proof.
  unfold iteration, poll_once, fetch_recent_transactions.
  pose proof (after_window_run env) as Haw. cbv zeta in Haw.
  generalize dependent (after_window env). intros aw Haw.
  generalize handle. intros h.
  generalize (process_window cfg env). intros pw.
  unfold try_except, bind, emit, ret, raise. simpl.
  destruct (transactions_reply env) as [e | txs]; simpl.
  - destruct (h e s) as [o s' evs]. reflexivity.
  - destruct (pw txs s) as [[e | []] s1 evs1]; simpl.
    + destruct (h e s1) as [o s' evs]. reflexivity.
    + destruct (Haw s1) as (Ho & _).
      destruct (aw s1) as [o s' evs]; simpl in *. subst o. simpl.
      now rewrite ?app_nil_r.
Qed.

(** ** The back-off ladder *)

Lemma double_capped k :
  0 <= k ->
  Z.min (Z.min (POLL_INTERVAL_SEC * 2 ^ k) MAX_BACKOFF * 2) MAX_BACKOFF
  = Z.min (POLL_INTERVAL_SEC * 2 ^ (k + 1)) MAX_BACKOFF.
Proof.
  intros Hk. rewrite Z.pow_add_r by lia. change (2 ^ 1) with 2.
  unfold POLL_INTERVAL_SEC, MAX_BACKOFF.
  assert (0 < 2 ^ k) by (apply Z.pow_pos_nonneg; lia). lia.
Qed.

Lemma iterations_rate_limited cfg envs : forall s k,
  0 <= k ->
  retry_delay s = Z.min (POLL_INTERVAL_SEC * 2 ^ k) MAX_BACKOFF ->
  outcome (iterations cfg envs s) = inr (replicate (length envs) RateLimited) ->
  retry_delay (final (iterations cfg envs s))
  = Z.min (POLL_INTERVAL_SEC * 2 ^ (k + Z.of_nat (length envs))) MAX_BACKOFF.
Proof.
  induction envs as [|env envs IH]; intros s k Hk Hs Hout.
  - simpl. now rewrite Z.add_0_r.
  - cbn [iterations length replicate] in *.
    destruct (iteration_cases cfg env s) as (b & Hb & Hr & _). cbv zeta in *.
    unfold bind in *.
    destruct (iteration cfg env s) as [o s1 evs1];
      cbn [outcome final emitted] in *. subst o.
    specialize (IH s1 (k + 1)).
    destruct (iterations cfg envs s1) as [[e | bs] s2 evs2];
      cbn [outcome final emitted ret] in *; [discriminate |].
    unfold ret in Hout. cbn [outcome final emitted] in *.
    injection Hout as -> ->.
    rewrite Hs, double_capped in Hr by exact Hk.
    rewrite IH; [| lia | exact Hr | reflexivity].
    f_equal. f_equal. f_equal. lia.
Qed.

(** ** The cursor *)

(** C2, amended. Within one iteration of the loop the cursors written are,
    in order, the signatures of transactions of the fetched window whose
    timestamps (a missing one counting as 0) never decrease. *)
Theorem cursor_nondecreasing_within_iteration
  (cfg : Config) (env : Env) (s : Store) :
  exists done : list RawTransaction,
    writes (emitted (iteration cfg env s)) = map signature done
    /\ StronglySorted (key_le ts_key) done
    /\ (forall t, In t done ->
          exists txs, transactions_reply env = FetchJson txs /\ In t txs).
Proof.
  destruct (iteration_cases cfg env s) as (b & _ & _ & Hw). cbv zeta in Hw.
  rewrite Hw. destruct (transactions_reply env) as [e | txs].
  - exists []. repeat split; [constructor | intros t []].
  - destruct (process_window_writes cfg env txs s) as (done & Hd & Hs & Hin & _).
    exists done. repeat split; eauto.
Qed.

(** C2 as stated fails: in two iterations over the same window, the second
    starts with the cursor on the newest transaction and writes the cursor
    of the older one. *)
Lemma cursor_goes_back_across_iterations :
  let txs := [Sample.txA; Sample.txB] in
  let run := poll_watch_wallet Sample.cfg 0 [Sample.window txs; Sample.window txs]
               (boot None) in
  writes (emitted run) = [Some "A"; Some "B"; Some "A"]
  /\ ts_key Sample.txB = 200 /\ ts_key Sample.txA = 100
  /\ ~ cursor_never_goes_back txs (writes (emitted run)).
Proof.
  cbv zeta.
  assert (Hw : writes (emitted (poll_watch_wallet Sample.cfg 0
                 [Sample.window [Sample.txA; Sample.txB];
                  Sample.window [Sample.txA; Sample.txB]] (boot None)))
               = [Some "A"; Some "B"; Some "A"]) by (vm_compute; reflexivity).
  rewrite Hw. repeat split.
  intros H.
  specialize (H 1%nat (Some "B") (Some "A") Sample.txB Sample.txA
                eq_refl eq_refl).
  simpl in H. unfold ts_key in H. simpl in H.
  assert (200 <= 100) by (apply H; auto). lia.
Qed.

(** ** Resolving a mint *)

(** C6. On a cache miss, when the metadata lookup fails (the request raises,
    the reply is empty, or it carries neither name nor symbol),
    [fetch_token_metadata] returns the pair ("unknown", "unknown") and caches
    exactly that pair for the mint. *)
Theorem fetch_token_metadata_failure (env : Env) (mint_ : string) (s : Store) :
  _token_cache s !! mint_ = None ->
  lookup_failed (metadata_reply env mint_) = true ->
  let r := fetch_token_metadata env mint_ s in
  outcome r = inr ("unknown", "unknown")
  /\ _token_cache (final r) = <[mint_ := ("unknown", "unknown")]> (_token_cache s)
  /\ _token_cache (final r) !! mint_ = Some ("unknown", "unknown").
Proof.
  intros Hmiss Hfail. cbv zeta.
  destruct (fetch_token_metadata_miss_failed env mint_ s Hmiss Hfail) as (Ho & Hc).
  rewrite Hc. repeat split; [exact Ho | apply lookup_insert_eq].
Qed.

Lemma fetch_token_metadata_failure_witness :
  outcome (fetch_token_metadata (SampleReplies.env_of SampleReplies.network_error)
             "Mx" (boot None)) = inr ("unknown", "unknown")
  /\ outcome (fetch_token_metadata (SampleReplies.env_of SampleReplies.empty_list)
                "Mx" (boot None)) = inr ("unknown", "unknown")
  /\ _token_cache
       (final (fetch_token_metadata (SampleReplies.env_of SampleReplies.no_fields)
                 "Mx" (boot None))) !! "Mx" = Some ("unknown", "unknown").
Proof.
  split; [| split].
  - apply (fetch_token_metadata_failure
             (SampleReplies.env_of SampleReplies.network_error) "Mx" (boot None));
      reflexivity.
  - apply (fetch_token_metadata_failure
             (SampleReplies.env_of SampleReplies.empty_list) "Mx" (boot None));
      reflexivity.
  - apply (fetch_token_metadata_failure
             (SampleReplies.env_of SampleReplies.no_fields) "Mx" (boot None));
      reflexivity.
Defined.

(** A reply with a symbol and no name is not a failed lookup: the symbol is
    kept. *)
Example fetch_token_metadata_only_symbol :
  outcome (fetch_token_metadata (SampleReplies.env_of SampleReplies.only_symbol)
             "Mx" (boot None)) = inr ("unknown", "USDC").
Proof. reflexivity. Qed.

(** C7. A mint that is cached is answered from the cache, with no request
    and no change of the store; a call caches the mint whether its lookup
    succeeded or failed, so that a second call returns the same pair without
    a request; no iteration of the loop removes or changes an entry; and over
    any run of the loop at most one metadata request is made for a mint. *)
Theorem metadata_lookup_at_most_once :
  (forall env mint_ s v,
      _token_cache s !! mint_ = Some v ->
      fetch_token_metadata env mint_ s = MkRun (inr v) s [])
  /\ (forall env env' mint_ s,
         let first := fetch_token_metadata env mint_ s in
         exists v,
           outcome first = inr v
           /\ fetch_token_metadata env' mint_ (final first)
              = MkRun (inr v) (final first) [])
  /\ (forall cfg env s mint_ v,
         _token_cache s !! mint_ = Some v ->
         _token_cache (final (iteration cfg env s)) !! mint_ = Some v)
  /\ (forall cfg start envs s mint_,
         (lookups mint_ (emitted (poll_watch_wallet cfg start envs s)) <= 1)%nat).
Proof.
  split; [| split; [| split]].
  - intros env mint_ s v. apply fetch_token_metadata_hit.
  - intros env env' mint_ s. cbv zeta.
    destruct (fetch_token_metadata_returns env mint_ s) as (v & Ho & Hc).
    exists v. split; [exact Ho |]. now apply fetch_token_metadata_hit.
  - intros cfg env s mint_ v. apply (iteration_frugal cfg env s).
  - intros cfg start envs s mint_.
    apply (poll_watch_wallet_frugal cfg start envs s).
Qed.

Lemma metadata_lookup_at_most_once_witness :
  let envs := [Sample.window [Sample.txC; Sample.txB];
               Sample.window [Sample.txC; Sample.txB]] in
  let run := poll_watch_wallet Sample.cfg 0 envs (boot None) in
  lookups "Mx" (emitted run) = 1%nat
  /\ (lookups "Mx" (emitted run) <= 1)%nat.
Proof.
  split; [vm_compute; reflexivity |].
  destruct metadata_lookup_at_most_once as (_ & _ & _ & H). apply H.
Defined.

(** ** Enrichment *)

Lemma iso_time_of_run t s :
  final (iso_time_of t s) = s /\ emitted (iso_time_of t s) = [].
Proof.
  unfold iso_time_of, ts_to_iso.
  destruct t as [ts|]; [| split; reflexivity].
  destruct (ts =? 0); [split; reflexivity |].
  destruct (Datetime.isoformat_utc ts); split; reflexivity.
Qed.

(** Extraction raises only where the timestamp cannot be rendered. *)
Lemma extract_token_details_outcome cfg env tx s :
  match outcome (iso_time_of (timestamp tx) s) with
  | inl e => extract_token_details cfg env tx s = MkRun (inl e) s []
  | inr iso =>
      exists d,
        outcome (extract_token_details cfg env tx s) = inr d
        /\ alert_time d = iso
        /\ alert_signature d = signature tx
        /\ alert_mint d = candidate_mint cfg tx
  end.
Proof.
  unfold extract_token_details, candidate_mint.
  pose proof (fetch_token_metadata_returns env) as Hf.
  generalize dependent (fetch_token_metadata env). intros f Hf.
  pose proof (iso_time_of_run (timestamp tx) s) as (Hs & He).
  generalize dependent (iso_time_of (timestamp tx)). intros it Hs He.
  destruct (select_candidate cfg (tokenTransfers tx)) as [c|].
  - set (m := Py.or_str (mint c) "unknown").
    set (n := Py.or_str (Py.or (token_info_name c) (tokenName c)) "unknown").
    set (k := Py.or_str (Py.or (token_info_symbol c) (tokenSymbol c)) "unknown").
    cbv beta iota.
    destruct (negb (String.eqb m "unknown")
              && (String.eqb n "unknown" || String.eqb k "unknown"));
      unfold bind, ret;
      destruct (it s) as [[e | iso] s0 evs0];
      cbn [outcome final emitted] in *; subst s0 evs0; try reflexivity.
    + destruct (Hf m s) as ([v1 v2] & Ho & _).
      destruct (f m s) as [[e | [a b]] s1 evs1];
        cbn [outcome final emitted] in *; [discriminate |]. eauto.
    + eauto.
  - cbv beta iota. unfold bind, ret.
    destruct (it s) as [[e | iso] s0 evs0];
      cbn [outcome final emitted] in *; subst s0 evs0; [reflexivity |].
    cbn. eauto.
Qed.

Lemma first_touching_app cfg pre t post :
  Forall (fun u => touches_wallet cfg u = false) pre ->
  touches_wallet cfg t = true ->
  first_touching cfg (pre ++ t :: post) = Some t.
Proof.
  intros Hpre Ht. induction Hpre as [|u pre Hu Hpre IH]; simpl.
  - now rewrite Ht.
  - now rewrite Hu.
Qed.

Lemma first_touching_none cfg l :
  Forall (fun u => touches_wallet cfg u = false) l ->
  first_touching cfg l = None.
Proof.
  induction 1 as [|u l Hu Hl IH]; simpl; [reflexivity |]. now rewrite Hu.
Qed.

(** C8. The transfer selected by [extract_token_details] is the first one
    whose [fromUserAccount] or [toUserAccount] is the watched wallet; when
    no transfer touches the wallet it is the first of the list; the mint of
    the record is read from it; and for a transaction without transfers the
    record has "unknown" for name, ticker and mint, nothing is requested
    and the store is untouched. *)
Theorem extract_token_details_selection (cfg : Config) :
  (forall t, touches_wallet cfg t = true <->
             (fromUserAccount t = Some (WATCH_WALLET cfg)
              \/ toUserAccount t = Some (WATCH_WALLET cfg)))
  /\ (forall pre t post,
         Forall (fun u => touches_wallet cfg u = false) pre ->
         touches_wallet cfg t = true ->
         select_candidate cfg (pre ++ t :: post) = Some t)
  /\ (forall t rest,
         Forall (fun u => touches_wallet cfg u = false) (t :: rest) ->
         select_candidate cfg (t :: rest) = Some t)
  /\ (forall env tx s d,
         outcome (extract_token_details cfg env tx s) = inr d ->
         alert_mint d = candidate_mint cfg tx)
  /\ (forall env tx s,
         tokenTransfers tx = [] ->
         extract_token_details cfg env tx s
         = (do iso_time <- iso_time_of (timestamp tx);
            ret {| alert_signature := signature tx;
                   alert_time := iso_time;
                   alert_token_name := "unknown";
                   alert_ticker := "unknown";
                   alert_mint := "unknown" |}) s
         /\ final (extract_token_details cfg env tx s) = s
         /\ emitted (extract_token_details cfg env tx s) = []).
Proof.
  split; [| split; [| split; [| split]]].
  - intros t. unfold touches_wallet. rewrite orb_true_iff, !py_eqb_true.
    reflexivity.
  - intros pre t post Hpre Ht. unfold select_candidate.
    now rewrite first_touching_app.
  - intros t rest Hall. unfold select_candidate.
    now rewrite first_touching_none.
  - intros env tx s d Hd.
    pose proof (extract_token_details_outcome cfg env tx s) as H.
    destruct (outcome (iso_time_of (timestamp tx) s)) as [e | iso].
    + rewrite H in Hd. discriminate.
    + destruct H as (d' & Ho & _ & _ & Hm). congruence.
  - intros env tx s Hnone.
    assert (E : extract_token_details cfg env tx s
                = (do iso_time <- iso_time_of (timestamp tx);
                   ret {| alert_signature := signature tx;
                          alert_time := iso_time;
                          alert_token_name := "unknown";
                          alert_ticker := "unknown";
                          alert_mint := "unknown" |}) s).
    { unfold extract_token_details. rewrite Hnone.
      cbn [select_candidate first_touching]. unfold bind.
      destruct (iso_time_of (timestamp tx) s) as [[e | iso] s0 evs0];
        reflexivity. }
    split; [exact E |]. rewrite E. unfold bind.
    pose proof (iso_time_of_run (timestamp tx) s) as (Hs & He).
    destruct (iso_time_of (timestamp tx) s) as [[e | iso] s0 evs0];
      cbn [outcome final emitted] in *; subst; split; reflexivity.
Qed.

Lemma extract_token_details_selection_witness :
  let t1 := Sample.transfer "x" "y" "M1" in
  let t2 := Sample.transfer "other" "W4LLET" "Mx" in
  let t3 := Sample.transfer "W4LLET" "z" "M3" in
  select_candidate Sample.cfg [t1; t2; t3] = Some t2
  /\ select_candidate Sample.cfg [t1; t1] = Some t1
  /\ emitted (extract_token_details Sample.cfg (Sample.window []) Sample.txA
                (boot None)) = [].
Proof.
  cbv zeta.
  destruct (extract_token_details_selection Sample.cfg)
    as (_ & Hfirst & Hfallback & _ & Hnone).
  split; [| split].
  - apply (Hfirst [Sample.transfer "x" "y" "M1"]
             (Sample.transfer "other" "W4LLET" "Mx")
             [Sample.transfer "W4LLET" "z" "M3"]).
    + repeat constructor.
    + reflexivity.
  - apply Hfallback. repeat constructor.
  - apply Hnone. reflexivity.
Defined.

(** C9, amended. When the timestamp of the transaction is present, is not 0
    and lies in the range of [datetime], the [time] of the record is its
    ISO-8601 rendering in UTC; when the timestamp is absent, it is the string
    "unknown". *)
Theorem alert_time_rendering
  (cfg : Config) (env : Env) (tx : RawTransaction) (s : Store) :
  (forall ts iso,
      timestamp tx = Some ts -> ts <> 0 ->
      Datetime.isoformat_utc ts = Some iso ->
      exists d, outcome (extract_token_details cfg env tx s) = inr d
                /\ alert_time d = iso)
  /\ (timestamp tx = None ->
      exists d, outcome (extract_token_details cfg env tx s) = inr d
                /\ alert_time d = "unknown").
Proof.
  pose proof (extract_token_details_outcome cfg env tx s) as H.
  split.
  - intros ts iso Hts Hnz Hiso. rewrite Hts in H.
    unfold iso_time_of, ts_to_iso in H.
    destruct (Z.eqb_spec ts 0) as [E | _]; [contradiction |].
    rewrite Hiso in H. cbn in H. destruct H as (d & Ho & Ht & _). eauto.
  - intros Hts. rewrite Hts in H. cbn in H.
    destruct H as (d & Ho & Ht & _). eauto.
Qed.

Lemma alert_time_rendering_witness :
  (exists d, outcome (extract_token_details Sample.cfg (Sample.window [])
                        (Sample.tx "S" 1700000000) (boot None)) = inr d
             /\ alert_time d = "2023-11-14T22:13:20+00:00")
  /\ (exists d, outcome (extract_token_details Sample.cfg (Sample.window [])
                           {| signature := Some "S"; timestamp := None;
                              tokenTransfers := [] |} (boot None)) = inr d
                /\ alert_time d = "unknown").
Proof.
  split.
  - apply (proj1 (alert_time_rendering Sample.cfg (Sample.window [])
                    (Sample.tx "S" 1700000000) (boot None)) 1700000000);
      [reflexivity | discriminate | vm_compute; reflexivity].
  - apply (proj2 (alert_time_rendering Sample.cfg (Sample.window [])
                    {| signature := Some "S"; timestamp := None;
                       tokenTransfers := [] |} (boot None))).
    reflexivity.
Defined.

(** C9 as stated fails: the timestamp is present and is the epoch, whose
    rendering is 1970-01-01T00:00:00+00:00; the record says "unknown". *)
Lemma epoch_timestamp_renders_unknown :
  timestamp (Sample.tx "S" 0) = Some 0
  /\ Datetime.isoformat_utc 0 = Some "1970-01-01T00:00:00+00:00"
  /\ outcome (extract_token_details Sample.cfg (Sample.window [])
                (Sample.tx "S" 0) (boot None))
     = inr {| alert_signature := Some "S"; alert_time := "unknown";
              alert_token_name := "unknown"; alert_ticker := "unknown";
              alert_mint := "unknown" |}.
Proof. split; [| split]; vm_compute; reflexivity. Qed.

(** ** Delivery failures *)

Lemma for_each_cons_ok {A} (body : A -> M unit) x l s :
  outcome (body x s) = inr tt ->
  for_each body (x :: l) s
  = let r' := for_each body l (final (body x s)) in
    MkRun (outcome r') (final r') (emitted (body x s) ++ emitted r').
Proof.
  intros H. simpl. unfold bind.
  destruct (body x s) as [[e | []] s1 evs1]; simpl in *; [discriminate |].
  destruct (for_each body l s1); reflexivity.
Qed.

(** When Telegram answers the notification of a transaction with a status
    other than 200, the failure is printed and nothing is raised: the cursor
    is set to the signature of the transaction and written to the state
    file, and the loop goes on with the rest of the batch. *)
Lemma delivery_http_failure_swallowed
  (cfg : Config) (env : Env) (tx : RawTransaction) (rest : list RawTransaction)
  (s : Store) (details : AlertRecord) (code : Z) (body : string) :
  Py.truthy (TELEGRAM_BOT_TOKEN cfg) = true ->
  Py.truthy (TELEGRAM_CHAT_ID cfg) = true ->
  outcome (extract_token_details cfg env tx s) = inr details ->
  telegram_reply env (alert_text cfg details) = TelegramResponse code body ->
  code <> 200 ->
  let r := process_tx cfg env tx s in
  outcome r = inr tt
  /\ In (PostTelegram (alert_text cfg details)) (emitted r)
  /\ In (Print ("[TELEGRAM] Failed: " +:+ pretty code +:+ " " +:+ body)) (emitted r)
  /\ In (WriteState (signature tx)) (emitted r)
  /\ last_sig (final r) = signature tx
  /\ state_file (final r) = signature tx
  /\ for_each (process_tx cfg env) (tx :: rest) s
     = let r' := for_each (process_tx cfg env) rest (final r) in
       MkRun (outcome r') (final r') (emitted r ++ emitted r').
Proof.
  intros Htok Hchat Hext Hreply Hcode. cbv zeta.
  assert (Hrun :
    outcome (process_tx cfg env tx s) = inr tt
    /\ In (PostTelegram (alert_text cfg details)) (emitted (process_tx cfg env tx s))
    /\ In (Print ("[TELEGRAM] Failed: " +:+ pretty code +:+ " " +:+ body))
         (emitted (process_tx cfg env tx s))
    /\ In (WriteState (signature tx)) (emitted (process_tx cfg env tx s))
    /\ last_sig (final (process_tx cfg env tx s)) = signature tx
    /\ state_file (final (process_tx cfg env tx s)) = signature tx).
  { unfold process_tx, save_last_signature, send_telegram_text.
    rewrite Htok, Hchat. cbn [negb orb].
    unfold bind, print, emit, modify, ret.
    destruct (extract_token_details cfg env tx s) as [[e | d] s0 evs0];
      cbn [outcome] in Hext; [discriminate |].
    injection Hext as ->.
    cbn [outcome final emitted].
    rewrite Hreply.
    destruct (Z.eqb_spec code 200) as [E | _]; [contradiction |].
    cbn [outcome final emitted state_file last_sig set_state_file set_last_sig].
    repeat split; rewrite ?in_app_iff; cbn [In]; auto 10. }
  destruct Hrun as (Ho & Hpost & Hlog & Hwrite & Hsig & Hfile).
  repeat split; auto.
  now apply for_each_cons_ok.
Qed.

Lemma delivery_http_failure_swallowed_witness :
  let env := SampleDelivery.env_of SampleDelivery.refused [Sample.txA; Sample.txB] in
  let r := process_tx Sample.cfg env Sample.txA (boot None) in
  outcome r = inr tt /\ last_sig (final r) = Some "A" /\ state_file (final r) = Some "A".
Proof.
  cbv zeta.
  destruct (delivery_http_failure_swallowed Sample.cfg
              (SampleDelivery.env_of SampleDelivery.refused [Sample.txA; Sample.txB])
              Sample.txA [Sample.txB] (boot None)
              {| alert_signature := Some "A";
                 alert_time := "1970-01-01T00:01:40+00:00";
                 alert_token_name := "unknown"; alert_ticker := "unknown";
                 alert_mint := "unknown" |}
              502 "Bad Gateway")
    as (Ho & _ & _ & _ & Hsig & Hfile & _);
    [reflexivity | reflexivity | vm_compute; reflexivity | reflexivity
    | discriminate |].
  repeat split; assumption.
Defined.

(** C5. A delivery failure is meant to be swallowed, the cursor advancing
    all the same; [send_telegram_text] does so for an HTTP status other than
    200 but does not catch what [requests.post] raises, as
    [fetch_token_metadata] does for its own request. Here the request to
    Telegram times out for the first transaction of the batch A, B: the
    exception leaves the loop over the batch, the cursor is neither set nor
    written for A, B is not processed, and the iteration ends in the clause
    for network errors. *)
Theorem delivery_exception_stops_batch :
  let env := SampleDelivery.env_of SampleDelivery.timed_out [Sample.txA; Sample.txB] in
  let r := process_tx Sample.cfg env Sample.txA (boot None) in
  let it := iteration Sample.cfg env (boot None) in
  outcome r = inl (RequestException "Read timed out.")
  /\ last_sig (final r) = None
  /\ state_file (final r) = None
  /\ writes (emitted r) = []
  /\ outcome it = inr Transient
  /\ state_file (final it) = None
  /\ writes (emitted it) = []
  /\ length (SampleDelivery.posts (emitted it)) = 1%nat.
Proof. cbv zeta. repeat split; vm_compute; reflexivity. Qed.

(** ** The back-off and what ends an iteration *)

Lemma iteration_throttled cfg env s :
  throttled_fetch env -> outcome (iteration cfg env s) = inr RateLimited.
Proof.
  intros (msg & Hreply).
  unfold iteration, poll_once, fetch_recent_transactions, handle.
  unfold_run. rewrite Hreply. reflexivity.
Qed.

Lemma iterations_throttled cfg envs : forall s,
  Forall throttled_fetch envs ->
  outcome (iterations cfg envs s) = inr (replicate (length envs) RateLimited).
Proof.
  induction envs as [|env envs IH]; intros s Hall; [reflexivity |].
  apply Forall_cons in Hall as (Henv & Hrest).
  cbn [iterations length replicate]. unfold bind.
  pose proof (iteration_throttled cfg env s Henv) as Hb.
  destruct (iteration cfg env s) as [o s1 evs1]. cbn [outcome] in Hb. subst o.
  specialize (IH s1 Hrest).
  destruct (iterations cfg envs s1) as [o2 s2 evs2]. cbn [outcome] in IH. subst o2.
  reflexivity.
Qed.

(** What the processing of a window raises is the [RequestException] of a
    request to Telegram or the exception of a timestamp that cannot be
    rendered, never an [HTTPError]. *)
Lemma iso_time_of_raises t s e :
  outcome (iso_time_of t s) = inl e -> no_http_error e.
Proof.
  unfold iso_time_of, ts_to_iso. destruct t as [ts|]; [| discriminate].
  destruct (ts =? 0); [discriminate |].
  destruct (Datetime.isoformat_utc ts); [discriminate |].
  intros [= <-]. exact I.
Qed.

Lemma extract_token_details_raises cfg env tx s e :
  outcome (extract_token_details cfg env tx s) = inl e -> no_http_error e.
Proof.
  intros Hout.
  pose proof (extract_token_details_outcome cfg env tx s) as Ho.
  pose proof (iso_time_of_raises (timestamp tx) s) as Hiso.
  destruct (outcome (iso_time_of (timestamp tx) s)) as [e0 | iso].
  - rewrite Ho in Hout. cbn [outcome] in Hout. injection Hout as <-.
    now apply Hiso.
  - destruct Ho as (d & Hd & _). congruence.
Qed.

Lemma send_telegram_text_raises cfg env text s e :
  outcome (send_telegram_text cfg env text s) = inl e -> no_http_error e.
Proof.
  unfold send_telegram_text.
  destruct (negb (Py.truthy (TELEGRAM_BOT_TOKEN cfg))
            || negb (Py.truthy (TELEGRAM_CHAT_ID cfg))); [discriminate |].
  unfold_run. destruct (telegram_reply env text) as [msg | code body]; simpl.
  - intros [= <-]. exact I.
  - destruct (code =? 200); discriminate.
Qed.

Lemma process_tx_raises cfg env tx s e :
  outcome (process_tx cfg env tx s) = inl e -> no_http_error e.
Proof.
  unfold process_tx, save_last_signature.
  pose proof (extract_token_details_raises cfg env tx s) as Hext.
  pose proof (send_telegram_text_raises cfg env) as Hsend.
  generalize dependent (send_telegram_text cfg env). intros snd Hsend.
  generalize dependent (extract_token_details cfg env tx). intros ext Hext.
  unfold bind, print, emit, modify, ret.
  destruct (ext s) as [[e0 | d] s0 evs0]; cbn [outcome] in *.
  - intros [= <-]. now apply Hext.
  - specialize (Hsend (alert_text cfg d) s0).
    destruct (snd (alert_text cfg d) s0) as [[e1 | []] s1 evs1];
      cbn [outcome] in *; [| discriminate].
    intros [= <-]. now apply Hsend.
Qed.

Lemma for_each_raises cfg env (l : list RawTransaction) : forall s e,
  outcome (for_each (process_tx cfg env) l s) = inl e -> no_http_error e.
Proof.
  induction l as [|tx l IH]; intros s e; [discriminate |].
  cbn [for_each]. unfold bind.
  pose proof (process_tx_raises cfg env tx s) as Htx.
  destruct (process_tx cfg env tx s) as [[e0 | []] s1 evs1]; cbn [outcome] in *.
  - intros [= <-]. now apply Htx.
  - specialize (IH s1 e).
    destruct (for_each (process_tx cfg env) l s1) as [o s2 evs2];
      cbn [outcome] in *. exact IH.
Qed.

Lemma process_window_raises cfg env txs s e :
  outcome (process_window cfg env txs s) = inl e -> no_http_error e.
Proof.
  unfold process_window. destruct txs as [|tx0 txs0]; [discriminate |].
  remember (tx0 :: txs0) as txs eqn:Etxs. clear Etxs tx0 txs0.
  unfold load_last_signature, save_last_signature. unfold_run.
  pose proof (for_each_raises cfg env (new_batch txs (last_sig s)) s e) as Hfor.
  destruct (for_each (process_tx cfg env) (new_batch txs (last_sig s)) s)
    as [[e0 | []] s1 evs1]; simpl in *; [exact Hfor |].
  destruct (negb (Py.truthy (state_file s1))); simpl; [| discriminate].
  destruct (last (txs_sorted txs)) as [newest|]; simpl; [| discriminate].
  destruct (Py.truthy (signature newest)); simpl; discriminate.
Qed.

(** C4, amended. Starting from the base delay (the poll interval, 20 s),
    after [n] iterations in a row whose fetch is refused with HTTP 429 the
    retry delay is [min (base * 2^n) max] with [max] 300 s. The delay is set
    back to the base by an iteration whose fetch succeeds and whose window
    is processed to its end; when the fetch succeeds and the processing of
    the window raises, the line of the reset is not reached and the delay
    stays as it is. *)
Theorem backoff_ladder (cfg : Config) :
  (forall envs s,
      (1 <= length envs)%nat ->
      retry_delay s = POLL_INTERVAL_SEC ->
      Forall throttled_fetch envs ->
      retry_delay (final (iterations cfg envs s))
      = Z.min (POLL_INTERVAL_SEC * 2 ^ Z.of_nat (length envs)) MAX_BACKOFF)
  /\ (forall env s txs,
         transactions_reply env = FetchJson txs ->
         outcome (process_window cfg env txs s) = inr tt ->
         outcome (iteration cfg env s) = inr Success
         /\ retry_delay (final (iteration cfg env s)) = POLL_INTERVAL_SEC)
  /\ (forall env s txs e,
         transactions_reply env = FetchJson txs ->
         outcome (process_window cfg env txs s) = inl e ->
         outcome (iteration cfg env s) = inr (branch_of e)
         /\ branch_of e <> Success /\ branch_of e <> RateLimited
         /\ retry_delay (final (iteration cfg env s)) = retry_delay s)
  /\ POLL_INTERVAL_SEC = 20 /\ MAX_BACKOFF = 300.
Proof.
  split; [| split; [| split; [| split; reflexivity]]].
  - intros envs s _ Hs Hall.
    apply (iterations_rate_limited cfg envs s 0);
      [lia | rewrite Hs; reflexivity | now apply iterations_throttled].
  - intros env s txs Hreply Hpw. rewrite iteration_unfold, Hreply.
    destruct (process_window cfg env txs s) as [[e | []] s1 evs1];
      cbn [outcome] in Hpw; [discriminate |].
    destruct (after_window_run env s1) as (_ & Hr & _). cbv zeta in Hr.
    destruct (after_window env s1) as [o s' evs]. cbn [outcome final] in *.
    split; [reflexivity | exact Hr].
  - intros env s txs e Hreply Hpw.
    pose proof (process_window_raises cfg env txs s e Hpw) as Hne.
    destruct (process_window_writes cfg env txs s) as (_ & _ & _ & _ & Hrd).
    cbv zeta in Hrd.
    rewrite iteration_unfold, Hreply.
    destruct (process_window cfg env txs s) as [[e0 | []] s1 evs1];
      cbn [outcome final] in *; [| discriminate].
    injection Hpw as ->.
    destruct (handle_run e s1) as (b & Ho & _ & _ & Hr & _). cbv zeta in *.
    assert (Hb : outcome (handle e s1) = inr (branch_of e)
                 /\ branch_of e <> Success /\ branch_of e <> RateLimited).
    { destruct e as [code msg | msg | msg]; [destruct Hne |..];
        repeat split; discriminate. }
    destruct Hb as (Hb & Hs & Hl). rewrite Hb in Ho. injection Ho as <-.
    destruct (handle e s1) as [o s' evs]. cbn [outcome final] in *. subst o.
    repeat split; try assumption.
    rewrite Hr, Hrd. destruct (branch_of e); congruence.
Qed.

Lemma backoff_ladder_witness :
  let s := set_retry_delay POLL_INTERVAL_SEC (boot None) in
  let climbed := final (iterations Sample.cfg (replicate 5 Sample.throttled) s) in
  retry_delay (final (iterations Sample.cfg (replicate 3 Sample.throttled) s)) = 160
  /\ retry_delay climbed = 300
  /\ retry_delay (final (iteration Sample.cfg (Sample.window [Sample.txA]) climbed)) = 20
  /\ retry_delay
       (final (iteration Sample.cfg
                 (SampleDelivery.env_of SampleDelivery.timed_out [Sample.txA]) climbed))
     = 300.
Proof.
  cbv zeta.
  destruct (backoff_ladder Sample.cfg) as (Hup & Hreset & Hkept & _).
  assert (Hth : forall n, Forall throttled_fetch (replicate n Sample.throttled)).
  { intros n. apply Forall_replicate. now eexists. }
  split; [| split; [| split]].
  - apply (Hup (replicate 3 Sample.throttled)); [simpl; lia | reflexivity | apply Hth].
  - apply (Hup (replicate 5 Sample.throttled)); [simpl; lia | reflexivity | apply Hth].
  - destruct (Hreset (Sample.window [Sample.txA])
                (final (iterations Sample.cfg (replicate 5 Sample.throttled)
                          (set_retry_delay POLL_INTERVAL_SEC (boot None))))
                [Sample.txA]) as (_ & H); [reflexivity | reflexivity | exact H].
  - destruct (Hkept (SampleDelivery.env_of SampleDelivery.timed_out [Sample.txA])
                (final (iterations Sample.cfg (replicate 5 Sample.throttled)
                          (set_retry_delay POLL_INTERVAL_SEC (boot None))))
                [Sample.txA] (RequestException "Read timed out."))
      as (_ & _ & _ & H); [reflexivity | reflexivity |].
    rewrite H.
    apply (Hup (replicate 5 Sample.throttled)); [simpl; lia | reflexivity | apply Hth].
Defined.

(** C4 as stated fails: with the retry delay at 160 s, a fetch that succeeds
    is followed by a request to Telegram that times out; the iteration ends
    in the network-error clause and the delay is still 160 s. *)
Lemma successful_fetch_keeps_backoff :
  let env := SampleDelivery.env_of SampleDelivery.timed_out [Sample.txA] in
  let s := set_retry_delay 160 (boot None) in
  transactions_reply env = FetchJson [Sample.txA]
  /\ outcome (iteration Sample.cfg env s) = inr Transient
  /\ retry_delay (final (iteration Sample.cfg env s)) = 160
  /\ retry_delay (final (iteration Sample.cfg env s)) <> POLL_INTERVAL_SEC.
Proof. cbv zeta. repeat split. vm_compute. discriminate. Qed.

(** ** A window without news *)

Lemma new_batch_In_iff txs seen t :
  Py.truthy seen = true ->
  In t (new_batch txs seen) <-> In t txs /\ signature t <> seen.
Proof.
  intros Hseen. unfold new_batch. rewrite Hseen, filter_In, txs_sorted_In.
  rewrite negb_true_iff, py_eqb_false. reflexivity.
Qed.

Lemma new_batch_nil_iff txs seen :
  Py.truthy seen = true ->
  new_batch txs seen = [] <-> forall t, In t txs -> signature t = seen.
Proof.
  intros Hseen. split.
  - intros Hnil t Ht.
    destruct (decide (signature t = seen)) as [E | N]; [exact E |].
    assert (Hin : In t (new_batch txs seen)) by (apply new_batch_In_iff; auto).
    rewrite Hnil in Hin. destruct Hin.
  - intros Hall. destruct (new_batch txs seen) as [|t l] eqn:E; [reflexivity |].
    assert (Hin : In t (new_batch txs seen)) by (rewrite E; now left).
    apply new_batch_In_iff in Hin as [Hin Hne]; [| exact Hseen].
    now destruct (Hne (Hall t Hin)).
Qed.

Lemma iteration_no_news cfg env s txs seen :
  Py.truthy seen = true ->
  new_batch txs seen = [] ->
  transactions_reply env = FetchJson txs ->
  last_sig s = seen -> state_file s = seen ->
  let r := iteration cfg env s in
  outcome r = inr Success
  /\ alerts (emitted r) = []
  /\ writes (emitted r) = []
  /\ last_sig (final r) = seen
  /\ state_file (final r) = seen.
Proof.
  intros Hseen Hnil Hreply Hlast Hfile. cbv zeta.
  unfold iteration, poll_once, fetch_recent_transactions, process_window,
    after_window, heartbeat, load_last_signature.
  unfold try_except, bind, gets, emit, modify, print, sleep, ret.
  rewrite Hreply. cbn [outcome final emitted].
  destruct txs as [|tx0 txs0].
  - cbn [outcome final emitted app last_heartbeat set_retry_delay].
    destruct (300 <? time_at_check env - last_heartbeat s);
      cbn; repeat split; assumption.
  - remember (tx0 :: txs0) as txs eqn:E. clear E.
    cbn [outcome final emitted]. rewrite Hlast, Hnil.
    cbn [for_each ret outcome final emitted]. unfold ret.
    cbn [outcome final emitted]. rewrite Hfile, Hseen.
    cbn [negb outcome final emitted app last_heartbeat set_retry_delay].
    destruct (300 <? time_at_check env - last_heartbeat s);
      cbn; repeat split; assumption.
Qed.

(** C1, amended. With a cursor (a non-empty string), the batch is empty
    exactly when every transaction of the window carries the cursor as its
    signature, as when the window holds only the cursor's transaction; the
    iteration then raises no alert and leaves the cursor as it is. *)
Theorem new_batch_empty_when_all_seen
  (cfg : Config) (env : Env) (s : Store)
  (txs : list RawTransaction) (seen : option string) :
  Py.truthy seen = true ->
  (new_batch txs seen = [] <-> forall t, In t txs -> signature t = seen)
  /\ ((forall t, In t txs -> signature t = seen) ->
      transactions_reply env = FetchJson txs ->
      last_sig s = seen -> state_file s = seen ->
      let r := iteration cfg env s in
      outcome r = inr Success
      /\ alerts (emitted r) = []
      /\ writes (emitted r) = []
      /\ last_sig (final r) = seen
      /\ state_file (final r) = seen).
Proof.
  intros Hseen. split; [now apply new_batch_nil_iff |].
  intros Hall. apply iteration_no_news; [exact Hseen |].
  now apply new_batch_nil_iff.
Qed.

Lemma new_batch_empty_when_all_seen_witness :
  let s := set_state_file (Some "A") (set_last_sig (Some "A") (boot None)) in
  let r := iteration Sample.cfg (Sample.window [Sample.txA]) s in
  new_batch [Sample.txA] (Some "A") = []
  /\ alerts (emitted r) = []
  /\ state_file (final r) = Some "A".
Proof.
  cbv zeta.
  destruct (new_batch_empty_when_all_seen Sample.cfg
              (Sample.window [Sample.txA])
              (set_state_file (Some "A") (set_last_sig (Some "A") (boot None)))
              [Sample.txA] (Some "A") eq_refl) as (Hiff & Hrun).
  assert (Hall : forall t, In t [Sample.txA] -> signature t = Some "A").
  { intros t [<- | []]. reflexivity. }
  split; [now apply Hiff |].
  destruct (Hrun Hall eq_refl eq_refl eq_refl) as (_ & Ha & _ & _ & Hf).
  split; assumption.
Defined.

(** ** Scenarios *)

(** First run over the window A (100), B (200): both are alerted, oldest
    first, and the cursor ends at B. *)
Example first_run_alerts_both :
  let r := poll_watch_wallet Sample.cfg 0 [Sample.window [Sample.txB; Sample.txA]]
             (boot None) in
  writes (emitted r) = [Some "A"; Some "B"]
  /\ length (SampleDelivery.posts (emitted r)) = 2%nat
  /\ state_file (final r) = Some "B".
Proof. cbv zeta. repeat split; vm_compute; reflexivity. Qed.

(** A transfer of mint Mx without inline name, the metadata reply being an
    empty list: the record names the token "unknown" and Mx is cached as
    ("unknown", "unknown"). *)
Example unknown_mint_is_cached :
  let r := extract_token_details Sample.cfg (Sample.window []) Sample.txC
             (boot None) in
  outcome r = inr {| alert_signature := Some "C";
                     alert_time := "1970-01-01T00:02:30+00:00";
                     alert_token_name := "unknown"; alert_ticker := "unknown";
                     alert_mint := "Mx" |}
  /\ _token_cache (final r) !! "Mx" = Some ("unknown", "unknown").
Proof. cbv zeta. split; vm_compute; reflexivity. Qed.

(** * Further properties of the loop *)

(** ** The shape of an iteration *)

(** An iteration is its fetch, then the window or the clause of what was
    raised, then the tail of the [try] when nothing was. *)
#[export] Instance only_step (P : Event -> Prop) : StepRel (only P).
Proof.
  split; unfold only.
  - intros s. constructor.
  - intros s1 s2 s3 e1 e2 H1 H2. apply Forall_app. now split.
Qed.

Ltac only_auto :=
  repeat always_step;
  try solve
    [ eauto with watcher
    | match goal with |- always ?R (emit _) => apply (always_emit R) end;
      intros ?; repeat constructor;
      first [ match goal with
              | H : forall line, window_line line = true -> _ |- _ =>
                  apply H; reflexivity
              end
            | auto ]
    | match goal with |- always ?R (modify _) => apply (always_modify R) end;
      intros ?; constructor ].

Lemma fetch_token_metadata_miss_line env mint_ s :
  _token_cache s !! mint_ = None ->
  exists v log,
    fetch_token_metadata env mint_ s
    = MkRun (inr v) (set_token_cache (<[mint_ := v]> (_token_cache s)) s)
        (PostMetadata mint_ :: log)
    /\ (log = [] \/ exists line, log = [Print line] /\ window_line line = true).
Proof.
  intros Hmiss. unfold fetch_token_metadata, lookup_metadata.
  unfold_run. rewrite Hmiss. simpl.
  destruct (metadata_reply env mint_) as [e | [| [| [msg | n sy] items]]];
    simpl; eauto 8.
  destruct n as [| sn | [] tn]; simpl; eauto 8;
    destruct sy as [| ss | [] ts]; simpl; eauto 8.
Qed.

Lemma fetch_token_metadata_only (P : Event -> Prop) env mint_ :
  (forall line, window_line line = true -> P (Print line)) ->
  (forall m, P (PostMetadata m)) ->
  always (only P) (fetch_token_metadata env mint_).
Proof.
  intros Hp Hm s. destruct (_token_cache s !! mint_) as [v|] eqn:Hc.
  - rewrite (fetch_token_metadata_hit _ _ _ _ Hc). constructor.
  - destruct (fetch_token_metadata_miss_line env _ _ Hc) as (v & log & -> & Hlog).
    unfold only. simpl.
    destruct Hlog as [-> | (line & -> & Hline)]; repeat constructor; auto.
Qed.

Lemma extract_token_details_only (P : Event -> Prop) cfg env tx :
  (forall line, window_line line = true -> P (Print line)) ->
  (forall m, P (PostMetadata m)) ->
  always (only P) (extract_token_details cfg env tx).
Proof.
  intros Hp Hm. pose proof (fun m => fetch_token_metadata_only P env m Hp Hm) as Hf.
  unfold extract_token_details, iso_time_of, ts_to_iso. only_auto.
Qed.

Lemma send_telegram_text_only (P : Event -> Prop) cfg env text :
  window_events cfg P -> always (only P) (send_telegram_text cfg env text).
Proof.
  intros (Hp & _ & _ & Ht). unfold send_telegram_text.
  destruct (Py.truthy (TELEGRAM_BOT_TOKEN cfg));
    destruct (Py.truthy (TELEGRAM_CHAT_ID cfg)); cbn [negb orb];
    only_auto.
Qed.

Lemma process_tx_only (P : Event -> Prop) cfg env tx :
  window_events cfg P -> always (only P) (process_tx cfg env tx).
Proof.
  intros HP. pose proof HP as (Hp & Hm & Hw & _).
  pose proof (extract_token_details_only P cfg env tx Hp Hm) as He.
  pose proof (send_telegram_text_only P cfg env) as Hs.
  unfold process_tx, save_last_signature. only_auto.
Qed.

Lemma process_window_only (P : Event -> Prop) cfg env txs :
  window_events cfg P -> always (only P) (process_window cfg env txs).
Proof.
  intros HP. pose proof HP as (Hp & Hm & Hw & _).
  pose proof (process_tx_only P cfg env) as Ht.
  unfold process_window, load_last_signature, save_last_signature. only_auto.
Qed.

Lemma handle_shape e s :
  exists line,
    handle e s
    = MkRun (inr (branch_of e))
        (match branch_of e with
         | RateLimited => set_retry_delay (Z.min (retry_delay s * 2) MAX_BACKOFF) s
         | _ => s
         end)
        [Print line; Sleep (branch_pause (branch_of e) s)]
    /\ branch_of e <> Success.
Proof.
  unfold handle, branch_of. destruct e as [code msg | msg | msg].
  - destruct (code =? 429); unfold_run; eexists; split;
      try reflexivity; discriminate.
  - unfold_run. eexists; split; [reflexivity | discriminate].
  - unfold_run. eexists; split; [reflexivity | discriminate].
Qed.

Lemma after_window_shape env s :
  let beat := 300 <? time_at_check env - last_heartbeat s in
  after_window env s
  = MkRun (inr tt)
      (if beat
       then set_last_heartbeat (time_at_mark env)
              (set_retry_delay POLL_INTERVAL_SEC s)
       else set_retry_delay POLL_INTERVAL_SEC s)
      ((if beat then [Print "[HEARTBEAT] Watcher is alive."] else [])
       ++ [Sleep POLL_INTERVAL_SEC]).
Proof.
  cbv zeta. unfold after_window, heartbeat. unfold_run.
  destruct (300 <? time_at_check env - last_heartbeat s); reflexivity.
Qed.

(** What [process_window] leaves alone. *)
Lemma process_window_keeps cfg env txs s :
  retry_delay (final (process_window cfg env txs s)) = retry_delay s
  /\ last_heartbeat (final (process_window cfg env txs s)) = last_heartbeat s.
Proof.
  split.
  - now destruct (process_window_writes cfg env txs s) as (_ & _ & _ & _ & H).
  - revert s.
    change (always (fun s s' _ => last_heartbeat s' = last_heartbeat s)
              (process_window cfg env txs)).
    assert (St : StepRel (fun s s' (_ : list Event) =>
                            last_heartbeat s' = last_heartbeat s))
      by (split; intros; congruence).
    assert (Ht : forall tx, always (fun s s' _ => last_heartbeat s' = last_heartbeat s)
                              (process_tx cfg env tx)).
    { intros tx s. now destruct (process_tx_cases cfg env tx s) as (_ & _ & H). }
    unfold process_window, load_last_signature, save_last_signature.
    repeat always_step; auto;
      first [ apply (always_emit _); reflexivity
            | apply (always_modify _); reflexivity ].
Qed.

Lemma branch_pause_same_delay b s s' :
  retry_delay s' = retry_delay s -> branch_pause b s' = branch_pause b s.
Proof. intros H. destruct b; simpl; congruence. Qed.

Lemma iteration_shape (cfg : Config) (env : Env) (s : Store) :
  exists b s' mid,
    iteration cfg env s
    = MkRun (inr b) s'
        (GetTransactions (WATCH_WALLET cfg) 20 :: mid ++ [Sleep (branch_pause b s)])
    /\ Forall (fun ev => is_fetch ev = false /\ is_sleep ev = false) mid.
Proof.
  rewrite iteration_unfold.
  destruct (transactions_reply env) as [e | txs].
  - destruct (handle_shape e s) as (line & -> & _).
    exists (branch_of e), (match branch_of e with
                           | RateLimited =>
                               set_retry_delay (Z.min (retry_delay s * 2) MAX_BACKOFF) s
                           | _ => s
                           end), [Print line].
    split; [reflexivity | repeat constructor].
  - assert (HP : window_events cfg
                   (fun ev => is_fetch ev = false /\ is_sleep ev = false))
      by (repeat split).
    pose proof (process_window_only _ cfg env txs HP s) as Hev.
    destruct (process_window_keeps cfg env txs s) as (Hrd & _).
    unfold only in Hev.
    destruct (process_window cfg env txs s) as [[e | []] s1 evs1];
      cbn [outcome final emitted] in *.
    + destruct (handle_shape e s1) as (line & -> & _).
      rewrite (branch_pause_same_delay _ _ _ Hrd).
      eexists (branch_of e), _, (evs1 ++ [Print line]).
      split; [now rewrite <- app_assoc |].
      apply Forall_app. split; [exact Hev | repeat constructor].
    + rewrite after_window_shape. cbv zeta.
      eexists Success, _, (evs1 ++ _).
      split; [now rewrite <- app_assoc |].
      apply Forall_app. split; [exact Hev |].
      destruct (300 <? time_at_check env - last_heartbeat s1); repeat constructor.
Qed.

Lemma iteration_shape_by_cause (cfg : Config) (env : Env) (s : Store) :
  let b := branch_after (raised_in_try cfg env s) in
  exists s' mid,
    iteration cfg env s
    = MkRun (inr b) s'
        (GetTransactions (WATCH_WALLET cfg) 20 :: mid ++ [Sleep (branch_pause b s)])
    /\ Forall (fun ev => is_fetch ev = false /\ is_sleep ev = false) mid.
Proof.
  cbv zeta. unfold raised_in_try. rewrite iteration_unfold.
  destruct (transactions_reply env) as [e | txs]; cbn [branch_after].
  - destruct (handle_shape e s) as (line & -> & _).
    eexists _, [Print line].
    split; [reflexivity | repeat constructor].
  - assert (HP : window_events cfg
                   (fun ev => is_fetch ev = false /\ is_sleep ev = false))
      by (repeat split).
    pose proof (process_window_only _ cfg env txs HP s) as Hev.
    destruct (process_window_keeps cfg env txs s) as (Hrd & _).
    unfold only in Hev.
    destruct (process_window cfg env txs s) as [[e | []] s1 evs1];
      cbn [outcome final emitted branch_after] in *.
    + destruct (handle_shape e s1) as (line & -> & _).
      rewrite (branch_pause_same_delay _ _ _ Hrd).
      eexists _, (evs1 ++ [Print line]).
      split; [now rewrite <- app_assoc |].
      apply Forall_app. split; [exact Hev | repeat constructor].
    + rewrite after_window_shape. cbv zeta.
      eexists _, (evs1 ++ _).
      split; [now rewrite <- app_assoc |].
      apply Forall_app. split; [exact Hev |].
      destruct (300 <? time_at_check env - last_heartbeat s1); repeat constructor.
Qed.

(** X1. An iteration never raises; it asks the feed once, at its start, for
    the 20 latest transactions of the wallet, and pauses once, at its end.
    The pause and the branch follow what left the [try], whether the fetch
    or the processing of the window raised it: nothing, the success branch
    and the poll interval; an [HTTPError] with status 429, the rate-limit
    branch and the retry delay the iteration began with; any other
    [HTTPError] or [RequestException], the network-error branch and 10 s;
    any other exception, the catch-all branch and 5 s. *)
Theorem iteration_fetches_once_and_pauses_once
  (cfg : Config) (env : Env) (s : Store) :
  exists s' mid,
    let ends (b : Branch) (pause : Z) :=
      MkRun (inr b) s'
        (GetTransactions (WATCH_WALLET cfg) 20 :: mid ++ [Sleep pause]) in
    Forall (fun ev => is_fetch ev = false /\ is_sleep ev = false) mid
    /\ iteration cfg env s
       = match raised_in_try cfg env s with
         | None => ends Success POLL_INTERVAL_SEC
         | Some (HTTPError status_code _) =>
             if status_code =? 429
             then ends RateLimited (retry_delay s)
             else ends Transient 10
         | Some (RequestException _) => ends Transient 10
         | Some (PyException _) => ends Fatal 5
         end.
Proof.
  destruct (iteration_shape_by_cause cfg env s) as (s' & mid & Hrun & Hmid).
  exists s', mid. cbv zeta. split; [exact Hmid |]. rewrite Hrun.
  destruct (raised_in_try cfg env s) as [[code msg | msg | msg] |];
    cbn [branch_after branch_of]; [| reflexivity..].
  destruct (code =? 429); reflexivity.
Qed.

(** ** Iterations that process nothing *)

Lemma alerts_app e1 e2 : alerts (e1 ++ e2) = alerts e1 ++ alerts e2.
Proof. unfold alerts. apply List.filter_app. Qed.

(** The clauses and the tail of the [try] touch neither cursor nor cache and
    raise no alert. *)
Lemma handle_aside e s :
  let r := handle e s in
  outcome r = inr (branch_of e)
  /\ last_sig (final r) = last_sig s
  /\ state_file (final r) = state_file s
  /\ _token_cache (final r) = _token_cache s
  /\ last_heartbeat (final r) = last_heartbeat s
  /\ writes (emitted r) = []
  /\ alerts (emitted r) = [].
Proof.
  cbv zeta. unfold handle, branch_of. destruct e as [code msg | msg | msg];
    [destruct (code =? 429) |..]; unfold_run; repeat split.
Qed.

Lemma after_window_aside env s :
  let r := after_window env s in
  outcome r = inr tt
  /\ last_sig (final r) = last_sig s
  /\ state_file (final r) = state_file s
  /\ _token_cache (final r) = _token_cache s
  /\ writes (emitted r) = []
  /\ alerts (emitted r) = [].
Proof.
  cbv zeta. rewrite after_window_shape. cbv zeta.
  destruct (300 <? time_at_check env - last_heartbeat s); repeat split.
Qed.

(** X2. When the fetch raises, whatever the exception, or returns no
    transaction, the iteration sends no alert and writes no cursor: the
    cursor, the state file and the cache are as before. A raised fetch ends
    in the clause of its exception and leaves the heartbeat clock alone; an
    empty window ends in success. *)
Theorem iteration_without_window (cfg : Config) (env : Env) (s : Store) :
  (exists e, transactions_reply env = FetchRaises e)
  \/ transactions_reply env = FetchJson [] ->
  let r := iteration cfg env s in
  last_sig (final r) = last_sig s
  /\ state_file (final r) = state_file s
  /\ _token_cache (final r) = _token_cache s
  /\ writes (emitted r) = []
  /\ alerts (emitted r) = []
  /\ (forall e, transactions_reply env = FetchRaises e ->
        outcome r = inr (branch_of e)
        /\ last_heartbeat (final r) = last_heartbeat s)
  /\ (transactions_reply env = FetchJson [] -> outcome r = inr Success).
Proof.
  intros Hreply. cbv zeta. rewrite iteration_unfold.
  destruct Hreply as [(e & ->) | ->].
  - destruct (handle_aside e s) as (Ho & H1 & H2 & H3 & H4 & Hw & Ha).
    cbv zeta in *.
    destruct (handle e s) as [o s' evs]; cbn [outcome final emitted] in *.
    do 5 (split; [assumption |]). split.
    + intros e' [= <-]. split; assumption.
    + discriminate.
  - change (process_window cfg env [] s) with (MkRun (inr tt) s []).
    cbn [app].
    destruct (after_window_aside env s) as (Ho & H1 & H2 & H3 & Hw & Ha).
    cbv zeta in *.
    destruct (after_window env s) as [o s' evs]; cbn [outcome final emitted] in *.
    do 5 (split; [assumption |]). split; [discriminate | reflexivity].
Qed.

Lemma iteration_without_window_witness :
  let s := set_retry_delay 20 (boot (Some "A")) in
  let r := iteration Sample.cfg Sample.throttled s in
  state_file (final r) = Some "A" /\ alerts (emitted r) = [].
Proof.
  cbv zeta.
  destruct (iteration_without_window Sample.cfg Sample.throttled
              (set_retry_delay 20 (boot (Some "A"))))
    as (_ & H & _ & _ & Ha & _).
  - left. eexists. reflexivity.
  - split; [exact H | exact Ha].
Defined.

(** ** The cursor in memory and the state file *)

#[export] Instance sync_step : StepRel sync_kept.
Proof. split; unfold sync_kept; auto. Qed.

Lemma process_tx_sync cfg env tx : always sync_kept (process_tx cfg env tx).
Proof.
  intros s Hs. destruct (process_tx_cases cfg env tx s) as (Hc & _).
  cbv zeta in Hc.
  destruct (outcome (process_tx cfg env tx s));
    destruct Hc as (H1 & H2 & _); congruence.
Qed.

Lemma save_then_set_sync sig :
  always sync_kept (save_last_signature sig ;; modify (set_last_sig sig)).
Proof. intros s _. reflexivity. Qed.

Lemma process_window_sync cfg env txs : always sync_kept (process_window cfg env txs).
Proof.
  unfold process_window, load_last_signature. destruct txs as [|tx0 txs0].
  - apply (always_ret _).
  - apply (always_bind _); [apply (always_gets _) | intros seen].
    apply (always_bind _);
      [apply (always_for_each _); intros tx; apply process_tx_sync | intros _].
    apply (always_bind _); [apply (always_gets _) | intros stored].
    destruct (negb (Py.truthy stored)); [| apply (always_ret _)].
    destruct (last (txs_sorted (tx0 :: txs0))) as [newest|];
      [| apply (always_ret _)].
    destruct (Py.truthy (signature newest)); [| apply (always_ret _)].
    apply save_then_set_sync.
Qed.

Lemma iteration_sync cfg env : always sync_kept (iteration cfg env).
Proof.
  intros s Hs. rewrite iteration_unfold.
  destruct (transactions_reply env) as [e | txs].
  - destruct (handle_aside e s) as (_ & H1 & H2 & _). cbv zeta in *.
    destruct (handle e s) as [o s' evs]; cbn [final] in *. congruence.
  - pose proof (process_window_sync cfg env txs s Hs) as Hw.
    destruct (process_window cfg env txs s) as [[e | []] s1 evs1];
      cbn [final] in *.
    + destruct (handle_aside e s1) as (_ & H1 & H2 & _). cbv zeta in *.
      destruct (handle e s1) as [o s' evs]; cbn [final] in *. congruence.
    + destruct (after_window_aside env s1) as (_ & H1 & H2 & _). cbv zeta in *.
      destruct (after_window env s1) as [o s' evs]; cbn [final] in *. congruence.
Qed.

Lemma iterations_always (R : Store -> Store -> list Event -> Prop) `{!StepRel R}
  cfg envs :
  (forall env, always R (iteration cfg env)) -> always R (iterations cfg envs).
Proof.
  intros H. induction envs as [|env envs IH]; simpl.
  - apply (always_ret R).
  - apply (always_bind R); [apply H | intros b].
    apply (always_bind R); [exact IH | intros bs]. apply (always_ret R).
Qed.

#[local] Arguments Disk.process_tx : simpl never.
#[local] Arguments Disk.process_window : simpl never.
#[local] Arguments Disk.iteration : simpl never.

Lemma for_each_ext_in {A} (f g : A -> M unit) (l : list A) :
  (forall x, In x l -> forall s, f x s = g x s) ->
  forall s, for_each f l s = for_each g l s.
Proof.
  induction l as [|x l IH]; intros H s; [reflexivity |].
  cbn [for_each]. unfold bind. rewrite (H x) by now left.
  destruct (g x s) as [[e | []] s1 evs1]; [reflexivity |].
  rewrite IH; [reflexivity |]. intros y Hy. apply H. now right.
Qed.

Lemma last_In {A} (l : list A) x : last l = Some x -> In x l.
Proof.
  intros H. apply last_Some in H as (l' & ->).
  apply in_app_iff. right. now left.
Qed.

(** While the writes go through, the definitions of [Disk] are those
    above. *)
Lemma disk_process_tx_written cfg env disk tx s :
  disk (signature tx) = Written ->
  Disk.process_tx cfg env disk tx s = process_tx cfg env tx s.
Proof.
  intros H.
  unfold Disk.process_tx, process_tx, Disk.save_last_signature, save_last_signature.
  rewrite H. reflexivity.
Qed.

Lemma disk_process_window_written cfg env disk txs s :
  (forall t, In t txs -> disk (signature t) = Written) ->
  Disk.process_window cfg env disk txs s = process_window cfg env txs s.
Proof.
  intros H. unfold Disk.process_window, process_window.
  destruct txs as [|tx0 txs0]; [reflexivity |].
  remember (tx0 :: txs0) as txs eqn:Etxs. clear Etxs tx0 txs0.
  unfold load_last_signature, Disk.save_last_signature, save_last_signature.
  unfold_run.
  rewrite (for_each_ext_in (Disk.process_tx cfg env disk) (process_tx cfg env)).
  2:{ intros t Ht s0. apply disk_process_tx_written, H.
      apply txs_sorted_In. eapply new_batch_In, Ht. }
  destruct (for_each (process_tx cfg env) (new_batch txs (last_sig s)) s)
    as [[e | []] s1 evs1]; simpl; [reflexivity |].
  destruct (negb (Py.truthy (state_file s1))); simpl; [| reflexivity].
  destruct (last (txs_sorted txs)) as [newest|] eqn:El; simpl; [| reflexivity].
  destruct (Py.truthy (signature newest)); simpl; [| reflexivity].
  rewrite (H newest); [reflexivity |].
  apply txs_sorted_In, last_In, El.
Qed.

Lemma disk_iteration_unfold cfg env disk s :
  Disk.iteration cfg env disk s
  = match transactions_reply env with
    | FetchRaises e =>
        match handle e s with
        | MkRun o s' evs => MkRun o s' (GetTransactions (WATCH_WALLET cfg) 20 :: evs)
        end
    | FetchJson txs =>
        match Disk.process_window cfg env disk txs s with
        | MkRun (inl e) s1 evs1 =>
            match handle e s1 with
            | MkRun o s' evs =>
                MkRun o s' (GetTransactions (WATCH_WALLET cfg) 20 :: evs1 ++ evs)
            end
        | MkRun (inr _) s1 evs1 =>
            match after_window env s1 with
            | MkRun _ s' evs =>
                MkRun (inr Success) s'
                  (GetTransactions (WATCH_WALLET cfg) 20 :: evs1 ++ evs)
            end
        end
    end.
Proof.
  unfold Disk.iteration, Disk.poll_once, fetch_recent_transactions.
  pose proof (after_window_run env) as Haw. cbv zeta in Haw.
  generalize dependent (after_window env). intros aw Haw.
  generalize handle. intros h.
  generalize (Disk.process_window cfg env disk). intros pw.
  unfold try_except, bind, emit, ret, raise. simpl.
  destruct (transactions_reply env) as [e | txs]; simpl.
  - destruct (h e s) as [o s' evs]. reflexivity.
  - destruct (pw txs s) as [[e | []] s1 evs1]; simpl.
    + destruct (h e s1) as [o s' evs]. reflexivity.
    + destruct (Haw s1) as (Ho & _).
      destruct (aw s1) as [o s' evs]; simpl in *. subst o. simpl.
      now rewrite ?app_nil_r.
Qed.

Lemma disk_iteration_written cfg env disk s :
  window_is_written env disk ->
  Disk.iteration cfg env disk s = iteration cfg env s.
Proof.
  intros H. rewrite disk_iteration_unfold, iteration_unfold.
  destruct (transactions_reply env) as [e | txs] eqn:Hreply; [reflexivity |].
  rewrite disk_process_window_written; [reflexivity |].
  intros t Ht. now apply (H txs).
Qed.

(** With writes that fail, the cursor and the file part only under an
    exception of the last clause. *)
Lemma disk_process_tx_sync cfg env disk tx s :
  last_sig s = state_file s ->
  in_sync_unless_other (Disk.process_tx cfg env disk tx s).
Proof.
  intros Hs. unfold in_sync_unless_other, Disk.process_tx, Disk.save_last_signature.
  pose proof (extract_token_details_quiet cfg env tx s) as (Q1 & _ & _ & Q4 & _).
  pose proof (send_telegram_text_run cfg env) as Hsend.
  generalize dependent (send_telegram_text cfg env). intros snd Hsend.
  generalize dependent (extract_token_details cfg env tx). intros ext Q1 Q4.
  unfold bind, print, emit, modify, ret, raise.
  destruct (ext s) as [[e | d] s0 evs0]; cbn [outcome final] in *.
  - destruct e; auto; congruence.
  - destruct (Hsend (alert_text cfg d) s0) as (T1 & _).
    destruct (snd (alert_text cfg d) s0) as [[e | []] s1 evs1];
      cbn [outcome final] in *; subst s1.
    + destruct e; auto; congruence.
    + destruct (disk (signature tx)); cbn; auto.
Qed.

Lemma disk_for_each_sync cfg env disk (l : list RawTransaction) : forall s,
  last_sig s = state_file s ->
  in_sync_unless_other (for_each (Disk.process_tx cfg env disk) l s).
Proof.
  induction l as [|tx l IH]; intros s Hs; [exact Hs |].
  cbn [for_each]. unfold bind.
  pose proof (disk_process_tx_sync cfg env disk tx s Hs) as Htx.
  unfold in_sync_unless_other in *.
  destruct (Disk.process_tx cfg env disk tx s) as [[e | []] s1 evs1];
    cbn [outcome final] in *; [exact Htx |].
  specialize (IH s1 Htx).
  destruct (for_each (Disk.process_tx cfg env disk) l s1) as [o s2 evs2];
    cbn [outcome final] in *. exact IH.
Qed.

Lemma disk_process_window_sync cfg env disk txs s :
  last_sig s = state_file s ->
  in_sync_unless_other (Disk.process_window cfg env disk txs s).
Proof.
  intros Hs. unfold Disk.process_window. destruct txs as [|tx0 txs0]; [exact Hs |].
  remember (tx0 :: txs0) as txs eqn:Etxs. clear Etxs tx0 txs0.
  pose proof (disk_for_each_sync cfg env disk (new_batch txs (last_sig s)) s Hs)
    as Hfor.
  unfold load_last_signature, Disk.save_last_signature, in_sync_unless_other in *.
  unfold_run.
  destruct (for_each (Disk.process_tx cfg env disk) (new_batch txs (last_sig s)) s)
    as [[e | []] s1 evs1]; simpl in *; [exact Hfor |].
  destruct (negb (Py.truthy (state_file s1))); simpl; [| exact Hfor].
  destruct (last (txs_sorted txs)) as [newest|]; simpl; [| exact Hfor].
  destruct (Py.truthy (signature newest)); simpl; [| exact Hfor].
  destruct (disk (signature newest)); simpl; auto.
Qed.

Lemma disk_iteration_sync cfg env disk s :
  last_sig s = state_file s ->
  outcome (Disk.iteration cfg env disk s) <> inr Fatal ->
  last_sig (final (Disk.iteration cfg env disk s))
  = state_file (final (Disk.iteration cfg env disk s)).
Proof.
  intros Hs. rewrite disk_iteration_unfold.
  destruct (transactions_reply env) as [e | txs].
  - destruct (handle_aside e s) as (_ & H1 & H2 & _). cbv zeta in *.
    destruct (handle e s) as [o s' evs]; cbn [final] in *. congruence.
  - pose proof (disk_process_window_sync cfg env disk txs s Hs) as Hw.
    unfold in_sync_unless_other in Hw.
    destruct (Disk.process_window cfg env disk txs s) as [[e | []] s1 evs1];
      cbn [outcome final] in *.
    + destruct (handle_aside e s1) as (Ho & H1 & H2 & _). cbv zeta in *.
      destruct (handle e s1) as [o s' evs]; cbn [outcome final] in *. subst o.
      intros Hb. destruct e; cbn [branch_of] in Hb; try congruence.
    + destruct (after_window_aside env s1) as (_ & H1 & H2 & _). cbv zeta in *.
      destruct (after_window env s1) as [o s' evs]; cbn [final] in *. congruence.
Qed.

Lemma disk_process_tx_write_fails cfg env disk tx s d :
  outcome (extract_token_details cfg env tx s) = inr d ->
  (forall s0, outcome (send_telegram_text cfg env (alert_text cfg d) s0) = inr tt) ->
  disk (signature tx) <> Written ->
  let r := Disk.process_tx cfg env disk tx s in
  (exists msg, outcome r = inl (PyException msg))
  /\ last_sig (final r) = signature tx
  /\ state_file (final r)
     = match disk (signature tx) with
       | DumpRaises _ => None
       | _ => state_file s
       end.
Proof.
  intros Hext Hsend Hdisk. cbv zeta.
  unfold Disk.process_tx, Disk.save_last_signature.
  pose proof (extract_token_details_quiet cfg env tx s) as (_ & _ & _ & Q4 & _).
  pose proof (send_telegram_text_run cfg env) as Hrun.
  generalize dependent (send_telegram_text cfg env). intros snd Hsend Hrun.
  generalize dependent (extract_token_details cfg env tx). intros ext Hext Q4.
  unfold bind, print, emit, modify, ret, raise.
  destruct (ext s) as [[e | d0] s0 evs0]; cbn [outcome final] in *;
    [discriminate |].
  injection Hext as ->.
  destruct (Hrun (alert_text cfg d) s0) as (T1 & _). specialize (Hsend s0).
  destruct (snd (alert_text cfg d) s0) as [[e | []] s1 evs1];
    cbn [outcome final] in *; [discriminate |]. subst s1.
  destruct (disk (signature tx)) as [| msg | msg]; [now destruct Hdisk |..];
    cbn; eauto.
Qed.

(** X3. The cursor kept in memory and the cursor in the state file part
    only when a write of the state file fails. Take an iteration whose
    writes can raise ([Disk.iteration]) and that starts with the two equal.
    When no write of a cursor of the fetched window fails, it is the
    iteration of the loop as modelled above, and the two are equal at its
    end in every branch, wherever in the batch an exception of the
    notification or of the rendering stops it. Whatever the writes do, the
    two are equal at the end unless the iteration ends in the catch-all
    clause. And the write that fails for a transaction that was extracted
    and notified leaves the new signature in memory and the old contents (or
    none, when the file was truncated) in the file, because [last_sig] is
    assigned before [save_last_signature] is called. *)
Theorem cursor_matches_state_file
  (cfg : Config) (env : Env) (disk : option string -> WriteReply) (s : Store) :
  let r := Disk.iteration cfg env disk s in
  (window_is_written env disk ->
   r = iteration cfg env s
   /\ (last_sig s = state_file s -> last_sig (final r) = state_file (final r)))
  /\ (last_sig s = state_file s ->
      outcome r <> inr Fatal ->
      last_sig (final r) = state_file (final r))
  /\ (forall tx d,
         outcome (extract_token_details cfg env tx s) = inr d ->
         (forall s0, outcome (send_telegram_text cfg env (alert_text cfg d) s0)
                     = inr tt) ->
         disk (signature tx) <> Written ->
         let r1 := Disk.process_tx cfg env disk tx s in
         (exists msg, outcome r1 = inl (PyException msg))
         /\ last_sig (final r1) = signature tx
         /\ state_file (final r1)
            = match disk (signature tx) with
              | DumpRaises _ => None
              | _ => state_file s
              end).
Proof.
  cbv zeta. split; [| split].
  - intros Hw. rewrite (disk_iteration_written cfg env disk s Hw).
    split; [reflexivity |]. apply (iteration_sync cfg env s).
  - apply disk_iteration_sync.
  - intros tx d Hext Hsend Hdisk.
    apply (disk_process_tx_write_fails cfg env disk tx s d Hext Hsend Hdisk).
Qed.

Lemma cursor_matches_state_file_witness :
  let s := set_last_sig (Some "Z") (boot (Some "Z")) in
  let env := Sample.window [Sample.txA; Sample.txB] in
  let dropped := SampleDelivery.env_of SampleDelivery.timed_out [Sample.txA; Sample.txB] in
  (Disk.iteration Sample.cfg dropped (fun _ => Written) s = iteration Sample.cfg dropped s
   /\ last_sig (final (Disk.iteration Sample.cfg dropped (fun _ => Written) s))
      = state_file (final (Disk.iteration Sample.cfg dropped (fun _ => Written) s)))
  /\ last_sig (final (Disk.iteration Sample.cfg dropped SampleDisk.refuses_B s))
     = state_file (final (Disk.iteration Sample.cfg dropped SampleDisk.refuses_B s))
  /\ last_sig (final (Disk.process_tx Sample.cfg env SampleDisk.refuses_B Sample.txB s))
     = Some "B"
  /\ state_file (final (Disk.process_tx Sample.cfg env SampleDisk.refuses_B Sample.txB s))
     = Some "Z".
Proof.
  cbv zeta. split; [| split].
  - pose proof (proj1 (cursor_matches_state_file Sample.cfg
                  (SampleDelivery.env_of SampleDelivery.timed_out [Sample.txA; Sample.txB])
                  (fun _ => Written)
                  (set_last_sig (Some "Z") (boot (Some "Z"))))) as H.
    cbv zeta in H. destruct H as (Heq & Hsync); [intros txs t _ _; reflexivity |].
    split; [exact Heq | apply Hsync; reflexivity].
  - apply (proj1 (proj2 (cursor_matches_state_file Sample.cfg
                  (SampleDelivery.env_of SampleDelivery.timed_out [Sample.txA; Sample.txB])
                  SampleDisk.refuses_B
                  (set_last_sig (Some "Z") (boot (Some "Z")))))).
    + reflexivity.
    + vm_compute. discriminate.
  - pose proof (proj2 (proj2 (cursor_matches_state_file Sample.cfg
                  (Sample.window [Sample.txA; Sample.txB])
                  SampleDisk.refuses_B
                  (set_last_sig (Some "Z") (boot (Some "Z")))))) as H.
    cbv zeta in H.
    destruct (H Sample.txB
                {| alert_signature := Some "B"; alert_time := "1970-01-01T00:03:20+00:00";
                   alert_token_name := "unknown"; alert_ticker := "unknown";
                   alert_mint := "unknown" |})
      as (_ & Hmem & Hfile).
    + vm_compute. reflexivity.
    + intros s0. reflexivity.
    + vm_compute. discriminate.
    + split; [exact Hmem | exact Hfile].
Defined.

(** The write of cursor [B] is refused in the middle of an iteration: [A]
    is written, the iteration ends in the catch-all clause with [B] in
    memory and [A] in the file. *)
Example refused_write_parts_cursor_and_file :
  let r := Disk.iteration Sample.cfg (Sample.window [Sample.txA; Sample.txB])
             SampleDisk.refuses_B (set_last_sig (Some "Z") (boot (Some "Z"))) in
  outcome r = inr Fatal
  /\ writes (emitted r) = [Some "A"]
  /\ last_sig (final r) = Some "B"
  /\ state_file (final r) = Some "A".
Proof. cbv zeta. repeat split. Qed.

(** ** The retry delay and the pauses *)

Lemma sleeps_app e1 e2 : sleeps (e1 ++ e2) = sleeps e1 ++ sleeps e2.
Proof. apply omap_app. Qed.

#[export] Instance paced_step : StepRel paced.
Proof.
  split; unfold paced.
  - intros s Hs. split; [exact Hs | constructor].
  - intros s1 s2 s3 e1 e2 H1 H2 Hs.
    destruct (H1 Hs) as (Hs2 & Hf1). destruct (H2 Hs2) as (Hs3 & Hf2).
    split; [exact Hs3 |]. rewrite sleeps_app. apply Forall_app. now split.
Qed.

Lemma sleeps_none evs :
  Forall (fun ev => is_fetch ev = false /\ is_sleep ev = false) evs ->
  sleeps evs = [].
Proof.
  induction 1 as [|ev evs [_ Hev] _ IH]; [reflexivity |].
  destruct ev; try discriminate; exact IH.
Qed.

Lemma iteration_sleeps cfg env s :
  exists b,
    outcome (iteration cfg env s) = inr b
    /\ sleeps (emitted (iteration cfg env s)) = [branch_pause b s].
Proof.
  destruct (iteration_shape cfg env s) as (b & s' & mid & -> & Hmid).
  exists b. split; [reflexivity |]. cbn [emitted].
  change (GetTransactions (WATCH_WALLET cfg) 20 :: mid ++ [Sleep (branch_pause b s)])
    with ([GetTransactions (WATCH_WALLET cfg) 20] ++ mid ++ [Sleep (branch_pause b s)]).
  rewrite !sleeps_app, (sleeps_none mid Hmid). reflexivity.
Qed.

Lemma iteration_paced cfg env : always paced (iteration cfg env).
Proof.
  intros s Hs. unfold delay_in_range in *.
  destruct (iteration_sleeps cfg env s) as (b & Hb & Hsl).
  destruct (iteration_cases cfg env s) as (b' & Hb' & Hr & _). cbv zeta in *.
  rewrite Hb in Hb'. injection Hb' as <-. rewrite Hsl, Hr.
  unfold POLL_INTERVAL_SEC, MAX_BACKOFF in *.
  split; [destruct b; lia |].
  constructor; [| constructor].
  destruct b; cbv beta delta [branch_pause POLL_INTERVAL_SEC] iota; lia.
Qed.

(** X4. From its first iteration on, [poll_watch_wallet] keeps the retry
    delay between the poll interval (20 s) and the cap (300 s), pauses
    exactly once per iteration, and never pauses for less than 5 s nor for
    more than 300 s. *)
Theorem pauses_are_bounded (cfg : Config) (start : Z) (envs : list Env) (s : Store) :
  let r := poll_watch_wallet cfg start envs s in
  POLL_INTERVAL_SEC <= retry_delay (final r) <= MAX_BACKOFF
  /\ Forall (fun d => 5 <= d <= MAX_BACKOFF) (sleeps (emitted r))
  /\ length (sleeps (emitted r)) = length envs.
Proof.
  cbv zeta. unfold poll_watch_wallet, load_last_signature. unfold_run.
  set (s0 := set_last_heartbeat start
               (set_retry_delay POLL_INTERVAL_SEC (set_last_sig (state_file s) s))).
  assert (Hs0 : delay_in_range s0)
    by (unfold delay_in_range, s0, POLL_INTERVAL_SEC, MAX_BACKOFF; simpl; lia).
  pose proof (iterations_always paced cfg envs (iteration_paced cfg) s0 Hs0)
    as (Hd & Hf).
  assert (Hlen : forall s1, length (sleeps (emitted (iterations cfg envs s1)))
                            = length envs).
  { clear. induction envs as [|env envs IH]; intros s1; [reflexivity |].
    cbn [iterations]. unfold bind, ret.
    destruct (iteration_sleeps cfg env s1) as (b & Hb & Hsl).
    destruct (iteration cfg env s1) as [o s2 evs2]; cbn [outcome emitted] in *.
    subst o. specialize (IH s2).
    destruct (iterations cfg envs s2) as [[e | bs] s3 evs3];
      cbn [emitted] in *; rewrite ?app_nil_r, sleeps_app, Hsl, length_app, IH;
      reflexivity. }
  specialize (Hlen s0).
  destruct (iterations cfg envs s0) as [o s' evs]; cbn [final emitted] in *.
  split; [exact Hd |]. split; [exact Hf | exact Hlen].
Qed.

(** ** The heartbeat *)

Lemma handle_no_heartbeat e s : ~ In heartbeat_line (emitted (handle e s)).
Proof.
  unfold handle, heartbeat_line. destruct e as [code msg | msg | msg];
    [destruct (code =? 429) |..]; unfold_run;
    intros [H | [H | []]]; cbv in H; discriminate.
Qed.

Lemma process_window_no_heartbeat cfg env txs s :
  ~ In heartbeat_line (emitted (process_window cfg env txs s)).
Proof.
  assert (HP : window_events cfg (fun ev => ev <> heartbeat_line)).
  { unfold heartbeat_line. repeat split; try discriminate.
    intros line Hline [= ->]. discriminate. }
  pose proof (process_window_only _ cfg env txs HP s) as H. unfold only in H.
  rewrite List.Forall_forall in H. intros Hin. now apply (H _ Hin).
Qed.

(** X5. The heartbeat belongs to the success path only. An iteration that
    ends in success prints it exactly when more than 300 s have passed since
    the last one, and then restarts the heartbeat clock; an iteration that
    ends in any of the [except] clauses neither prints it nor touches the
    clock, however long ago the last heartbeat was. *)
Theorem heartbeat_only_after_success (cfg : Config) (env : Env) (s : Store) :
  let r := iteration cfg env s in
  (outcome r = inr Success ->
   (300 < time_at_check env - last_heartbeat s ->
    In heartbeat_line (emitted r) /\ last_heartbeat (final r) = time_at_mark env)
   /\ (time_at_check env - last_heartbeat s <= 300 ->
       ~ In heartbeat_line (emitted r)
       /\ last_heartbeat (final r) = last_heartbeat s))
  /\ (outcome r <> inr Success ->
      ~ In heartbeat_line (emitted r)
      /\ last_heartbeat (final r) = last_heartbeat s).
Proof.
  cbv zeta. rewrite iteration_unfold.
  assert (Hfetch : GetTransactions (WATCH_WALLET cfg) 20 <> heartbeat_line)
    by discriminate.
  destruct (transactions_reply env) as [e | txs].
  - pose proof (handle_no_heartbeat e s) as Hn.
    destruct (handle_aside e s) as (Ho & _ & _ & _ & Hh & _ & _).
    destruct (handle_shape e s) as (_ & _ & Hne). cbv zeta in *.
    destruct (handle e s) as [o s' evs]; cbn [outcome final emitted] in *.
    subst o. split.
    + intros [= Hb]. now destruct Hne.
    + intros _. split; [| exact Hh]. intros [H | H]; [now apply Hfetch | now apply Hn].
  - pose proof (process_window_no_heartbeat cfg env txs s) as Hw.
    destruct (process_window_keeps cfg env txs s) as (_ & Hk).
    destruct (process_window cfg env txs s) as [[e | []] s1 evs1];
      cbn [outcome final emitted] in *.
    + pose proof (handle_no_heartbeat e s1) as Hn.
      destruct (handle_aside e s1) as (Ho & _ & _ & _ & Hh & _ & _).
      destruct (handle_shape e s1) as (_ & _ & Hne). cbv zeta in *.
      destruct (handle e s1) as [o s' evs]; cbn [outcome final emitted] in *.
      subst o. split.
      * intros [= Hb]. now destruct Hne.
      * intros _. split; [| congruence].
        intros [H | H]; [now apply Hfetch |].
        apply in_app_or in H as [H | H]; [now apply Hw | now apply Hn].
    + rewrite after_window_shape. cbv zeta. rewrite Hk.
      destruct (Z.ltb_spec 300 (time_at_check env - last_heartbeat s)) as [Hlt | Hge];
        cbn [outcome final emitted last_heartbeat set_last_heartbeat
             set_retry_delay].
      * split; [| intros H; now destruct H].
        intros _. split; [| intros; lia].
        intros _. split; [| reflexivity].
        right. apply in_or_app. right. now left.
      * split; [| intros H; now destruct H].
        intros _. split; [intros; lia |].
        intros _. split; [| exact Hk].
        intros [H | H]; [now apply Hfetch |].
        apply in_app_or in H as [H | [H | []]]; [now apply Hw | discriminate].
Qed.

Lemma heartbeat_only_after_success_witness :
  let late := {| transactions_reply := FetchRaises (RequestException "down");
                 metadata_reply := Sample.no_metadata;
                 telegram_reply := Sample.ok_telegram;
                 time_at_check := 100000; time_at_mark := 100000 |} in
  let r := iteration Sample.cfg late (boot None) in
  ~ In heartbeat_line (emitted r) /\ last_heartbeat (final r) = 0.
Proof.
  cbv zeta.
  apply (proj2 (heartbeat_only_after_success Sample.cfg
                  {| transactions_reply := FetchRaises (RequestException "down");
                     metadata_reply := Sample.no_metadata;
                     telegram_reply := Sample.ok_telegram;
                     time_at_check := 100000; time_at_mark := 100000 |}
                  (boot None))).
  vm_compute. discriminate.
Defined.

(** ** Without Telegram credentials *)

Lemma iteration_only (P : Event -> Prop) cfg env :
  window_events cfg P ->
  (forall line, P (Print line)) ->
  (forall a n, P (GetTransactions a n)) ->
  (forall d, P (Sleep d)) ->
  always (only P) (iteration cfg env).
Proof.
  intros HP Hp Hg Hs s. unfold only. rewrite iteration_unfold.
  destruct (transactions_reply env) as [e | txs].
  - destruct (handle_shape e s) as (line & -> & _). cbn [emitted].
    repeat constructor; auto.
  - pose proof (process_window_only P cfg env txs HP s) as Hw. unfold only in Hw.
    destruct (process_window cfg env txs s) as [[e | []] s1 evs1];
      cbn [emitted] in *.
    + destruct (handle_shape e s1) as (line & -> & _). cbn [emitted].
      constructor; [apply Hg |]. apply Forall_app. split; [exact Hw |].
      repeat constructor; auto.
    + rewrite after_window_shape. cbv zeta. cbn [emitted].
      constructor; [apply Hg |]. apply Forall_app. split; [exact Hw |].
      destruct (300 <? time_at_check env - last_heartbeat s1);
        repeat constructor; auto.
Qed.

(** A transaction whose details are extracted and whose notification does
    not raise moves the cursor. *)
Lemma process_tx_returns cfg env tx s details :
  outcome (extract_token_details cfg env tx s) = inr details ->
  (forall s0, outcome (send_telegram_text cfg env (alert_text cfg details) s0)
              = inr tt) ->
  outcome (process_tx cfg env tx s) = inr tt.
Proof.
  intros Hext Hsend. unfold process_tx, save_last_signature.
  generalize dependent (send_telegram_text cfg env). intros snd Hsend.
  generalize dependent (extract_token_details cfg env tx). intros ext Hext.
  unfold bind, print, emit, modify, ret.
  destruct (ext s) as [[e | d] s0 evs0]; cbn [outcome] in Hext; [discriminate |].
  injection Hext as ->. cbn [outcome final emitted].
  specialize (Hsend s0).
  destruct (snd (alert_text cfg details) s0) as [[e | []] s1 evs1];
    cbn [outcome] in *; [discriminate | reflexivity].
Qed.

(** X6. When the bot token or the chat id is not set (absent or empty), no
    request to Telegram is ever made: [send_telegram_text] only prints that
    it skips the send. The transaction counts as processed all the same:
    the cursor is set to its signature and written to the state file. *)
Theorem without_credentials_nothing_is_sent (cfg : Config) :
  Py.truthy (TELEGRAM_BOT_TOKEN cfg) = false
  \/ Py.truthy (TELEGRAM_CHAT_ID cfg) = false ->
  (forall env text s,
      send_telegram_text cfg env text s
      = MkRun (inr tt) s
          [Print "[TELEGRAM] Bot token or chat ID missing — skipping send."])
  /\ (forall start envs s,
         Forall (fun ev => is_post_telegram ev = false)
           (emitted (poll_watch_wallet cfg start envs s)))
  /\ (forall env tx s details,
         outcome (extract_token_details cfg env tx s) = inr details ->
         let r := process_tx cfg env tx s in
         outcome r = inr tt
         /\ last_sig (final r) = signature tx
         /\ state_file (final r) = signature tx).
Proof.
  intros Hmiss.
  assert (Hskip : negb (Py.truthy (TELEGRAM_BOT_TOKEN cfg))
                  || negb (Py.truthy (TELEGRAM_CHAT_ID cfg)) = true).
  { destruct Hmiss as [-> | ->]; [reflexivity | apply orb_true_r]. }
  assert (Hsend : forall env text s,
             send_telegram_text cfg env text s
             = MkRun (inr tt) s
                 [Print "[TELEGRAM] Bot token or chat ID missing — skipping send."]).
  { intros env text s. unfold send_telegram_text. rewrite Hskip. reflexivity. }
  split; [exact Hsend |]. split.
  - intros start envs s.
    assert (HP : window_events cfg (fun ev => is_post_telegram ev = false)).
    { repeat split. intros Ht Hc. rewrite Ht, Hc in Hskip. discriminate. }
    pose proof (iterations_always _ cfg envs
                  (fun env => iteration_only _ cfg env HP
                                (fun _ => eq_refl) (fun _ _ => eq_refl)
                                (fun _ => eq_refl))) as Hit.
    unfold poll_watch_wallet, load_last_signature. unfold_run.
    specialize (Hit (set_last_heartbeat start
                       (set_retry_delay POLL_INTERVAL_SEC
                          (set_last_sig (state_file s) s)))).
    unfold only in Hit.
    destruct (iterations cfg envs _) as [o s' evs]; cbn [emitted] in *.
    constructor; [reflexivity | exact Hit].
  - intros env tx s details Hext. cbv zeta.
    assert (Ho : outcome (process_tx cfg env tx s) = inr tt).
    { apply (process_tx_returns cfg env tx s details Hext).
      intros s0. now rewrite Hsend. }
    destruct (process_tx_cases cfg env tx s) as (Hc & _). cbv zeta in Hc.
    rewrite Ho in Hc. destruct Hc as (H1 & H2 & _). auto.
Qed.

Lemma without_credentials_nothing_is_sent_witness :
  let cfg := {| WATCH_WALLET := "W4LLET"; TELEGRAM_BOT_TOKEN := Some "";
                TELEGRAM_CHAT_ID := Some "42" |} in
  let r := poll_watch_wallet cfg 0 [Sample.window [Sample.txA; Sample.txB]]
             (boot None) in
  Forall (fun ev => is_post_telegram ev = false) (emitted r)
  /\ state_file (final r) = Some "B".
Proof.
  cbv zeta. split.
  - apply (without_credentials_nothing_is_sent
             {| WATCH_WALLET := "W4LLET"; TELEGRAM_BOT_TOKEN := Some "";
                TELEGRAM_CHAT_ID := Some "42" |}).
    left. reflexivity.
  - vm_compute. reflexivity.
Defined.

(** ** A successful iteration *)

Lemma new_batch_nil seen : new_batch [] seen = [].
Proof. unfold new_batch, txs_sorted. destruct (Py.truthy seen); reflexivity. Qed.

Lemma process_window_success cfg env txs s :
  let r := process_window cfg env txs s in
  let batch := new_batch txs (last_sig s) in
  outcome r = inr tt ->
  (exists extra, writes (emitted r) = map signature batch ++ extra
                 /\ (length extra <= 1)%nat)
  /\ (forall t, last batch = Some t -> Py.truthy (signature t) = true ->
        writes (emitted r) = map signature batch
        /\ last_sig (final r) = signature t
        /\ state_file (final r) = signature t).
Proof.
  cbv zeta. unfold process_window. destruct txs as [|tx0 txs0].
  { intros _. rewrite new_batch_nil. split; [exists []; auto |]. discriminate. }
  remember (tx0 :: txs0) as txs eqn:Etxs. clear Etxs tx0 txs0.
  unfold load_last_signature, save_last_signature. unfold_run.
  destruct (for_each_process_tx cfg env (new_batch txs (last_sig s)) s)
    as (done & rest & Hsplit & Hw & Hok & _ & Hlast & _).
  destruct (for_each (process_tx cfg env) (new_batch txs (last_sig s)) s)
    as [[e | []] s1 evs1]; simpl in *; [discriminate |].
  specialize (Hok eq_refl). subst rest. rewrite app_nil_r in Hsplit.
  rewrite Hsplit. intros _. split.
  - destruct (negb (Py.truthy (state_file s1))); simpl;
      [| exists []; rewrite !app_nil_r; auto].
    destruct (last (txs_sorted txs)) as [newest|]; simpl;
      [| exists []; rewrite !app_nil_r; auto].
    destruct (Py.truthy (signature newest)); simpl;
      [| exists []; rewrite !app_nil_r; auto].
    exists [signature newest]. rewrite writes_app, Hw. auto.
  - intros t Ht Htruthy. destruct (Hlast t Ht) as (H1 & H2).
    rewrite H2, Htruthy. simpl. rewrite app_nil_r. auto.
Qed.

(** X7. An iteration that ends in success has processed its whole batch:
    the cursor was written once for every transaction of [new_batch], in
    batch order, followed at most by the fall-back write of the newest
    signature; and when the last transaction of the batch has a non-empty
    signature there is no fall-back write and that signature is the cursor,
    in memory and in the state file. *)
Theorem success_covers_the_batch
  (cfg : Config) (env : Env) (s : Store) (txs : list RawTransaction) :
  transactions_reply env = FetchJson txs ->
  outcome (iteration cfg env s) = inr Success ->
  let r := iteration cfg env s in
  let batch := new_batch txs (last_sig s) in
  (exists extra, writes (emitted r) = map signature batch ++ extra
                 /\ (length extra <= 1)%nat)
  /\ (forall t, last batch = Some t -> Py.truthy (signature t) = true ->
        writes (emitted r) = map signature batch
        /\ last_sig (final r) = signature t
        /\ state_file (final r) = signature t).
Proof.
  intros Hreply. cbv zeta. rewrite iteration_unfold, Hreply.
  pose proof (process_window_success cfg env txs s) as Hw. cbv zeta in Hw.
  destruct (process_window cfg env txs s) as [[e | []] s1 evs1];
    cbn [outcome final emitted] in *.
  - destruct (handle_shape e s1) as (line & -> & Hne).
    intros [= Hb]. now destruct Hne.
  - intros _. destruct (Hw eq_refl) as ((extra & Hx & Hlen) & Hlast).
    destruct (after_window_aside env s1) as (_ & H1 & H2 & _ & Hwa & _).
    cbv zeta in *.
    destruct (after_window env s1) as [o s' evs]; cbn [outcome final emitted] in *.
    assert (Hwr : writes (GetTransactions (WATCH_WALLET cfg) 20 :: evs1 ++ evs)
                  = writes evs1).
    { change (writes (GetTransactions (WATCH_WALLET cfg) 20 :: evs1 ++ evs))
        with (writes (evs1 ++ evs)).
      now rewrite writes_app, Hwa, app_nil_r. }
    rewrite Hwr. split; [eauto |].
    intros t Ht Htr. destruct (Hlast t Ht Htr) as (Hw1 & Hl & Hf).
    repeat split; congruence.
Qed.

Lemma success_covers_the_batch_witness :
  let r := iteration Sample.cfg (Sample.window [Sample.txB; Sample.txC; Sample.txA])
             (boot None) in
  writes (emitted r) = [Some "A"; Some "C"; Some "B"]
  /\ state_file (final r) = Some "B".
Proof.
  cbv zeta.
  destruct (success_covers_the_batch Sample.cfg
              (Sample.window [Sample.txB; Sample.txC; Sample.txA]) (boot None)
              [Sample.txB; Sample.txC; Sample.txA] eq_refl)
    as (_ & Hlast); [vm_compute; reflexivity |].
  destruct (Hlast Sample.txB eq_refl eq_refl) as (Hw & _ & Hf).
  split; [exact Hw | exact Hf].
Defined.

(** ** Inline identity and metadata *)

Lemma extract_token_details_fields cfg env tx s :
  extract_token_details cfg env tx s
  = (do iso_time <- iso_time_of (timestamp tx);
     if needs_lookup cfg tx
     then
       do v <- fetch_token_metadata env (candidate_mint cfg tx);
       ret {| alert_signature := signature tx;
              alert_time := iso_time;
              alert_token_name :=
                if String.eqb (candidate_name cfg tx) "unknown"
                then fst v else candidate_name cfg tx;
              alert_ticker :=
                if String.eqb (candidate_symbol cfg tx) "unknown"
                then snd v else candidate_symbol cfg tx;
              alert_mint := candidate_mint cfg tx |}
     else
       ret {| alert_signature := signature tx;
              alert_time := iso_time;
              alert_token_name := candidate_name cfg tx;
              alert_ticker := candidate_symbol cfg tx;
              alert_mint := candidate_mint cfg tx |}) s.
Proof.
  unfold extract_token_details, needs_lookup, candidate_mint, candidate_name,
    candidate_symbol.
  generalize (fetch_token_metadata env). intros f.
  generalize (iso_time_of (timestamp tx)). intros it.
  destruct (select_candidate cfg (tokenTransfers tx)) as [c|].
  - set (m := Py.or_str (mint c) "unknown").
    set (n := Py.or_str (Py.or (token_info_name c) (tokenName c)) "unknown").
    set (k := Py.or_str (Py.or (token_info_symbol c) (tokenSymbol c)) "unknown").
    cbv beta iota. unfold bind, ret.
    destruct (it s) as [[e | iso] s0 evs0]; [reflexivity |].
    destruct (negb (String.eqb m "unknown")
              && (String.eqb n "unknown" || String.eqb k "unknown"));
      [| now rewrite ?app_nil_r].
    destruct (f m s0) as [[e | [a b]] s1 evs1]; now rewrite ?app_nil_r.
  - cbv beta iota. unfold bind, ret.
    destruct (it s) as [[e | iso] s0 evs0]; now rewrite ?app_nil_r.
Qed.

Lemma iso_time_of_pure t :
  exists o, forall s, iso_time_of t s = MkRun o s [].
Proof.
  unfold iso_time_of, ts_to_iso. destruct t as [ts|]; [| eexists; reflexivity].
  destruct (ts =? 0); [eexists; reflexivity |].
  destruct (Datetime.isoformat_utc ts); eexists; reflexivity.
Qed.

(** X8. What the selected transfer says inline is never replaced by
    metadata. When the mint is unknown, or both name and symbol are given
    inline, no lookup is made at all and the store is untouched; otherwise
    one lookup resolves the mint, the inline field that is known is kept and
    only the unknown one is taken from the cached metadata. The name of the
    [token] object comes before [tokenName]. *)
Theorem inline_identity_is_kept
  (cfg : Config) (env : Env) (tx : RawTransaction) (s : Store) :
  let r := extract_token_details cfg env tx s in
  (needs_lookup cfg tx = false ->
   final r = s /\ emitted r = []
   /\ forall d, outcome r = inr d ->
        alert_token_name d = candidate_name cfg tx
        /\ alert_ticker d = candidate_symbol cfg tx)
  /\ (needs_lookup cfg tx = true ->
      forall d, outcome r = inr d ->
        exists v, _token_cache (final r) !! candidate_mint cfg tx = Some v
          /\ alert_token_name d
             = (if String.eqb (candidate_name cfg tx) "unknown"
                then fst v else candidate_name cfg tx)
          /\ alert_ticker d
             = (if String.eqb (candidate_symbol cfg tx) "unknown"
                then snd v else candidate_symbol cfg tx))
  /\ (needs_lookup cfg tx = false <->
      candidate_mint cfg tx = "unknown"
      \/ (candidate_name cfg tx <> "unknown" /\ candidate_symbol cfg tx <> "unknown"))
  /\ (forall c n, select_candidate cfg (tokenTransfers tx) = Some c ->
        token_info_name c = Some n -> n <> "" ->
        candidate_name cfg tx = n).
Proof.
  cbv zeta. rewrite extract_token_details_fields.
  destruct (iso_time_of_pure (timestamp tx)) as (o & Hiso).
  split; [| split; [| split]].
  - intros Hno. unfold bind. rewrite Hiso, Hno.
    destruct o as [e | iso]; cbn; repeat split; try discriminate.
    + now injection H as <-.
    + now injection H as <-.
  - intros Hyes d. unfold bind. rewrite Hiso, Hyes.
    destruct o as [e | iso]; [discriminate |].
    destruct (fetch_token_metadata_returns env (candidate_mint cfg tx) s)
      as (v & Ho & Hc).
    destruct (fetch_token_metadata env (candidate_mint cfg tx) s)
      as [[e | w] s1 evs1]; cbn [outcome final emitted] in *; [discriminate |].
    injection Ho as ->. unfold ret. cbn [outcome final].
    intros [= <-]. exists v. cbn. auto.
  - unfold needs_lookup.
    destruct (String.eqb_spec (candidate_mint cfg tx) "unknown");
      destruct (String.eqb_spec (candidate_name cfg tx) "unknown");
      destruct (String.eqb_spec (candidate_symbol cfg tx) "unknown");
      cbn; split; intros H; try discriminate; try reflexivity; auto;
      destruct H as [H | [H1 H2]]; contradiction.
  - intros c n Hc Hn Hne. unfold candidate_name. rewrite Hc.
    unfold Py.or, Py.truthy. rewrite Hn.
    destruct (String.eqb_spec n ""); [contradiction |]. cbn.
    destruct (String.eqb_spec n ""); [contradiction | reflexivity].
Qed.

Lemma inline_identity_is_kept_witness :
  let t := {| fromUserAccount := Some "W4LLET"; toUserAccount := Some "z";
              mint := Some "Mx";
              token := Some {| name := Some "Bonk"; symbol := None |};
              tokenName := Some "Other"; tokenSymbol := Some "BONK" |} in
  let tx := {| signature := Some "S"; timestamp := Some 100;
               tokenTransfers := [t] |} in
  let r := extract_token_details Sample.cfg (Sample.window []) tx (boot None) in
  final r = boot None /\ emitted r = [] /\ candidate_name Sample.cfg tx = "Bonk".
Proof.
  cbv zeta.
  pose proof (inline_identity_is_kept Sample.cfg (Sample.window [])
                {| signature := Some "S"; timestamp := Some 100;
                   tokenTransfers :=
                     [{| fromUserAccount := Some "W4LLET"; toUserAccount := Some "z";
                         mint := Some "Mx";
                         token := Some {| name := Some "Bonk"; symbol := None |};
                         tokenName := Some "Other"; tokenSymbol := Some "BONK" |}] |}
                (boot None)) as H.
  cbv zeta in H. destruct H as (Hno & _ & _ & Hname).
  destruct (Hno eq_refl) as (Hf & He & _).
  split; [exact Hf |]. split; [exact He |].
  eapply Hname; [reflexivity | reflexivity | discriminate].
Defined.

(** X9. Extraction is repeatable: once a transaction has been extracted,
    extracting it again, whatever the metadata end point would now answer,
    makes no request, changes nothing and returns the same record. *)
Theorem extract_token_details_again
  (cfg : Config) (env env' : Env) (tx : RawTransaction) (s : Store)
  (d : AlertRecord) :
  outcome (extract_token_details cfg env tx s) = inr d ->
  let s1 := final (extract_token_details cfg env tx s) in
  extract_token_details cfg env' tx s1 = MkRun (inr d) s1 [].
Proof.
  cbv zeta. rewrite !extract_token_details_fields.
  destruct (iso_time_of_pure (timestamp tx)) as (o & Hiso).
  unfold bind. rewrite !Hiso.
  destruct o as [e | iso]; [discriminate |].
  destruct (needs_lookup cfg tx).
  - destruct (fetch_token_metadata_returns env (candidate_mint cfg tx) s)
      as (v & Ho & Hc).
    destruct (fetch_token_metadata env (candidate_mint cfg tx) s)
      as [[e | w] s1 evs1]; cbn [outcome final emitted] in *; [discriminate |].
    injection Ho as ->. unfold ret. cbn [outcome final emitted].
    intros [= <-].
    rewrite (fetch_token_metadata_hit env' _ _ _ Hc). reflexivity.
  - unfold ret. cbn [outcome final]. intros [= <-]. reflexivity.
Qed.

Lemma extract_token_details_again_witness :
  let r := extract_token_details Sample.cfg (Sample.window []) Sample.txC (boot None) in
  exists d, outcome r = inr d
            /\ extract_token_details Sample.cfg
                 (SampleReplies.env_of SampleReplies.only_symbol) Sample.txC (final r)
               = MkRun (inr d) (final r) [].
Proof.
  cbv zeta. eexists. split; [vm_compute; reflexivity |].
  apply (extract_token_details_again Sample.cfg (Sample.window [])).
  vm_compute. reflexivity.
Defined.

(** ** Start of the process *)

Lemma iterations_return cfg envs : forall s,
  exists bs, outcome (iterations cfg envs s) = inr bs /\ length bs = length envs.
Proof.
  induction envs as [|env envs IH]; intros s.
  - exists []. split; reflexivity.
  - cbn [iterations]. unfold bind, ret.
    destruct (iteration_shape cfg env s) as (b & s' & mid & -> & _).
    destruct (IH s') as (bs & Hbs & Hlen).
    destruct (iterations cfg envs s') as [[e | bs'] s2 evs2];
      cbn [outcome] in *; [discriminate |].
    injection Hbs as ->. exists (b :: bs). split; [reflexivity |].
    cbn. now rewrite Hlen.
Qed.

Lemma poll_watch_wallet_returns cfg start envs s :
  exists bs, outcome (poll_watch_wallet cfg start envs s) = inr bs
             /\ length bs = length envs.
Proof.
  unfold poll_watch_wallet, load_last_signature. unfold_run.
  destruct (iterations_return cfg envs
              (set_last_heartbeat start
                 (set_retry_delay POLL_INTERVAL_SEC (set_last_sig (state_file s) s))))
    as (bs & Hbs & Hlen).
  destruct (iterations cfg envs _) as [o s' evs]; cbn [outcome] in *.
  eauto.
Qed.

(** X10. [__main__] refuses to start without [HELIUS_API_KEY] or
    [WATCH_WALLET] (absent or empty), raising before anything is sent or
    printed, the API key being checked first. The starting message is sent
    outside the loop's [try]: when that request raises, the exception ends
    the process before the first fetch. Otherwise the loop runs, and no
    exception ever leaves it. *)
Theorem main_start
  (environ : Environ) (start : Z) (startup : Env) (envs : list Env) (s : Store) :
  (Py.truthy (env_HELIUS_API_KEY environ) = false ->
   main environ start startup envs s
   = MkRun (inl (PyException "Missing env var: HELIUS_API_KEY")) s [])
  /\ (Py.truthy (env_HELIUS_API_KEY environ) = true ->
      Py.truthy (env_WATCH_WALLET environ) = false ->
      main environ start startup envs s
      = MkRun (inl (PyException "Missing env var: WATCH_WALLET")) s [])
  /\ (Py.truthy (env_HELIUS_API_KEY environ) = true ->
      Py.truthy (env_WATCH_WALLET environ) = true ->
      Py.truthy (env_BOT_TOKEN environ) = true ->
      Py.truthy (env_CHAT_ID environ) = true ->
      forall msg,
        telegram_reply startup "Watcher starting…" = TelegramRaises msg ->
        main environ start startup envs s
        = MkRun (inl (RequestException msg)) s [PostTelegram "Watcher starting…"])
  /\ (Py.truthy (env_HELIUS_API_KEY environ) = true ->
      Py.truthy (env_WATCH_WALLET environ) = true ->
      (forall msg, telegram_reply startup "Watcher starting…" <> TelegramRaises msg) ->
      exists bs, outcome (main environ start startup envs s) = inr bs
                 /\ length bs = length envs).
Proof.
  unfold main, require_env.
  split; [| split; [| split]].
  - intros ->. reflexivity.
  - intros -> ->. reflexivity.
  - intros -> -> Htok Hchat msg Hreply.
    unfold send_telegram_text. cbn [TELEGRAM_BOT_TOKEN TELEGRAM_CHAT_ID].
    rewrite Htok, Hchat. unfold_run. rewrite Hreply. reflexivity.
  - intros -> -> Hreply. unfold bind, ret. cbv beta iota zeta.
    set (cfg := {| WATCH_WALLET := Py.or_str (env_WATCH_WALLET environ) "";
                   TELEGRAM_BOT_TOKEN := env_BOT_TOKEN environ;
                   TELEGRAM_CHAT_ID := env_CHAT_ID environ |}).
    pose proof (poll_watch_wallet_returns cfg start envs) as Hloop.
    assert (Hsend : exists evs, send_telegram_text cfg startup "Watcher starting…" s
                                = MkRun (inr tt) s evs).
    { unfold send_telegram_text.
      destruct (negb (Py.truthy (TELEGRAM_BOT_TOKEN cfg))
                || negb (Py.truthy (TELEGRAM_CHAT_ID cfg)));
        [eexists; reflexivity |].
      unfold_run.
      destruct (telegram_reply startup "Watcher starting…") as [msg | code body]
        eqn:E; [now destruct (Hreply msg) |].
      destruct (code =? 200); eexists; reflexivity. }
    destruct Hsend as (evs & Hsend).
    generalize dependent (poll_watch_wallet cfg start envs). intros loop Hloop.
    generalize dependent (send_telegram_text cfg startup "Watcher starting…").
    intros snd Hsend. rewrite Hsend.
    destruct (Hloop s) as (bs & Hbs & Hlen).
    destruct (loop s) as [o s' evs']; cbn [outcome] in *. eauto.
Qed.

Lemma main_start_witness :
  let environ := {| env_HELIUS_API_KEY := Some "key"; env_WATCH_WALLET := Some "";
                    env_BOT_TOKEN := None; env_CHAT_ID := None |} in
  main environ 0 (Sample.window []) [Sample.window [Sample.txA]] (boot None)
  = MkRun (inl (PyException "Missing env var: WATCH_WALLET")) (boot None) [].
Proof.
  cbv zeta.
  apply (main_start {| env_HELIUS_API_KEY := Some "key"; env_WATCH_WALLET := Some "";
                       env_BOT_TOKEN := None; env_CHAT_ID := None |});
    reflexivity.
Defined.

(** ** The order of the feed *)

Lemma NoDup_map_key_inj {A} (key : A -> Z) (l : list A) x y :
  List.NoDup (map key l) -> In x l -> In y l -> key x = key y -> x = y.
Proof.
  induction l as [|a l IH]; intros Hnd Hx Hy Hk; [destruct Hx |].
  cbn in Hnd. apply List.NoDup_cons_iff in Hnd as [Hnot Hnd].
  destruct Hx as [-> | Hx], Hy as [-> | Hy]; auto.
  - destruct Hnot. rewrite Hk. now apply in_map.
  - destruct Hnot. rewrite <- Hk. now apply in_map.
Qed.

Lemma sorted_Permutation_eq {A} (key : A -> Z) (l l' : list A) :
  Permutation l l' -> List.NoDup (map key l) ->
  Py.sorted key l = Py.sorted key l'.
Proof.
  intros Hperm Hnd.
  apply (StronglySorted_unique_strong (key_le key)).
  - intros x1 x2 H1 H2 Hle Hge. unfold key_le in *.
    apply (NoDup_map_key_inj key l); [exact Hnd | | | lia].
    + apply list_elem_of_In in H1.
      eapply Permutation_in; [apply sorted_Permutation | exact H1].
    + apply list_elem_of_In in H2.
      eapply Permutation_in; [| exact H2].
      rewrite sorted_Permutation. now symmetry.
  - apply sorted_StronglySorted.
  - apply sorted_StronglySorted.
  - now rewrite !sorted_Permutation.
Qed.

(** X11. When the transactions of a window have pairwise distinct sort keys
    (timestamps, a missing one counting as 0), the batch does not depend on
    the order in which the feed lists them: any rearrangement of the window
    gives the same batch, with or without a cursor. *)
Theorem new_batch_ignores_feed_order
  (txs txs' : list RawTransaction) (seen : option string) :
  Permutation txs txs' ->
  List.NoDup (map ts_key txs) ->
  new_batch txs seen = new_batch txs' seen.
Proof.
  intros Hperm Hnd. unfold new_batch, txs_sorted.
  now rewrite (sorted_Permutation_eq ts_key txs txs' Hperm Hnd).
Qed.

Lemma new_batch_ignores_feed_order_witness :
  new_batch [Sample.txA; Sample.txB; Sample.txC] (Some "B")
  = new_batch [Sample.txC; Sample.txB; Sample.txA] (Some "B").
Proof.
  apply new_batch_ignores_feed_order.
  - apply Permutation_rev.
  - repeat constructor; cbn; intros H;
      repeat (destruct H as [H | H]; [discriminate |]); destruct H.
Defined.

(** ** Names are never blank *)

#[export] Instance named_step : StepRel named_kept.
Proof. split; unfold named_kept; auto. Qed.

Lemma or_str_nonempty a d : d <> "" -> Py.or_str a d <> "".
Proof.
  intros Hd. unfold Py.or_str. destruct a as [x|]; [| exact Hd].
  destruct (String.eqb_spec x ""); auto.
Qed.

Lemma cache_named_insert s m n k :
  cache_named s -> n <> "" -> k <> "" ->
  cache_named (set_token_cache (<[m := (n, k)]> (_token_cache s)) s).
Proof.
  intros Hs Hn Hk m' n' k'. cbn.
  destruct (decide (m = m')) as [<- | Hne].
  - rewrite lookup_insert_eq. intros [= <- <-]. auto.
  - rewrite lookup_insert_ne by exact Hne. apply Hs.
Qed.

Lemma fetch_token_metadata_named env mint_ s :
  cache_named s ->
  cache_named (final (fetch_token_metadata env mint_ s))
  /\ forall n k, outcome (fetch_token_metadata env mint_ s) = inr (n, k) ->
                 n <> "" /\ k <> "".
Proof.
  intros Hs. destruct (_token_cache s !! mint_) as [[n0 k0]|] eqn:Hc.
  - rewrite (fetch_token_metadata_hit _ _ _ _ Hc). cbn.
    split; [exact Hs |]. intros n k [= <- <-]. eapply Hs, Hc.
  - assert (Hu : "unknown" <> "") by discriminate.
    assert (Hmiss : exists n k,
               outcome (fetch_token_metadata env mint_ s) = inr (n, k)
               /\ final (fetch_token_metadata env mint_ s)
                  = set_token_cache (<[mint_ := (n, k)]> (_token_cache s)) s
               /\ n <> "" /\ k <> "").
    { unfold fetch_token_metadata, lookup_metadata. unfold_run. rewrite Hc. simpl.
      destruct (metadata_reply env mint_) as [e | [| [| [msg | n sy] items]]];
        simpl;
        try (destruct n as [| sn | [] tn]; destruct sy as [| ss | [] ts]; simpl);
        do 2 eexists;
        (split; [reflexivity | split; [reflexivity | split]]);
        first [ exact Hu
              | match goal with
                | |- (if String.eqb ?x "" then _ else _) <> "" =>
                    destruct (String.eqb_spec x ""); [exact Hu | assumption]
                end ]. }
    destruct Hmiss as (n & k & -> & -> & Hn & Hk).
    split; [now apply cache_named_insert |]. now intros n' k' [= <- <-].
Qed.

Lemma fetch_token_metadata_named_kept env mint_ :
  always named_kept (fetch_token_metadata env mint_).
Proof. intros s Hs. now apply fetch_token_metadata_named. Qed.

Ltac named_auto :=
  repeat always_step;
  try solve
    [ eauto with watcher
    | match goal with |- always ?R (emit _) => apply (always_emit R) end;
      intros ? H; exact H
    | match goal with |- always ?R (modify _) => apply (always_modify R) end;
      intros ? H; exact H ].

Lemma iteration_named_kept cfg env : always named_kept (iteration cfg env).
Proof.
  pose proof (fetch_token_metadata_named_kept env) as Hf.
  unfold iteration, poll_once, fetch_recent_transactions, process_window,
    process_tx, extract_token_details, iso_time_of, ts_to_iso,
    send_telegram_text, after_window, heartbeat, handle, load_last_signature,
    save_last_signature.
  named_auto.
Qed.

(** X12. No alert shows a blank token: as long as no cached name or symbol
    is the empty string, which holds of the empty cache a process starts
    with and is kept by every iteration of the loop, the name, the ticker
    and the mint of every extracted record are non-empty strings. *)
Theorem alert_fields_are_never_blank (cfg : Config) :
  cache_named (boot None)
  /\ (forall env s, cache_named s -> cache_named (final (iteration cfg env s)))
  /\ (forall env tx s d,
         cache_named s ->
         outcome (extract_token_details cfg env tx s) = inr d ->
         alert_token_name d <> "" /\ alert_ticker d <> "" /\ alert_mint d <> "").
Proof.
  split; [| split].
  - intros m n k. cbn. rewrite lookup_empty. discriminate.
  - intros env s. apply (iteration_named_kept cfg env s).
  - intros env tx s d Hs. rewrite extract_token_details_fields.
    assert (Hu : "unknown" <> "") by discriminate.
    assert (Hm : candidate_mint cfg tx <> "").
    { unfold candidate_mint. destruct (select_candidate cfg (tokenTransfers tx));
        [now apply or_str_nonempty | exact Hu]. }
    assert (Hn : candidate_name cfg tx <> "").
    { unfold candidate_name. destruct (select_candidate cfg (tokenTransfers tx));
        [now apply or_str_nonempty | exact Hu]. }
    assert (Hk : candidate_symbol cfg tx <> "").
    { unfold candidate_symbol. destruct (select_candidate cfg (tokenTransfers tx));
        [now apply or_str_nonempty | exact Hu]. }
    destruct (iso_time_of_pure (timestamp tx)) as (o & Hiso).
    unfold bind. rewrite Hiso. destruct o as [e | iso]; [discriminate |].
    destruct (needs_lookup cfg tx).
    + destruct (fetch_token_metadata_named env (candidate_mint cfg tx) s Hs)
        as (_ & Hv).
      destruct (fetch_token_metadata env (candidate_mint cfg tx) s)
        as [[e | [n k]] s1 evs1]; cbn [outcome] in *; [discriminate |].
      destruct (Hv n k eq_refl) as (Hn' & Hk').
      unfold ret. cbn [outcome]. intros [= <-]. cbn.
      repeat split; auto.
      * destruct (String.eqb (candidate_name cfg tx) "unknown"); auto.
      * destruct (String.eqb (candidate_symbol cfg tx) "unknown"); auto.
    + unfold ret. cbn [outcome]. intros [= <-]. cbn. auto.
Qed.

Lemma alert_fields_are_never_blank_witness :
  exists d, outcome (extract_token_details Sample.cfg
                       (SampleReplies.env_of SampleReplies.only_symbol)
                       Sample.txC (boot None)) = inr d
            /\ alert_token_name d <> "" /\ alert_ticker d = "USDC".
Proof.
  eexists. split; [vm_compute; reflexivity |]. split; [| reflexivity].
  destruct (alert_fields_are_never_blank Sample.cfg) as (Hboot & _ & Hrec).
  apply (Hrec (SampleReplies.env_of SampleReplies.only_symbol) Sample.txC
           (boot None) _ Hboot).
  vm_compute. reflexivity.
Defined.

(** ** One notification per transaction *)

Lemma notifications_app e1 e2 :
  notifications (e1 ++ e2) = notifications e1 ++ notifications e2.
Proof. apply omap_app. Qed.

Lemma notifications_none evs :
  Forall (fun ev => is_post_telegram ev = false) evs -> notifications evs = [].
Proof.
  induction 1 as [|ev evs Hev _ IH]; [reflexivity |].
  destruct ev; try discriminate; exact IH.
Qed.

Lemma extract_token_details_no_post cfg env tx s :
  notifications (emitted (extract_token_details cfg env tx s)) = [].
Proof.
  apply notifications_none.
  apply (extract_token_details_only (fun ev => is_post_telegram ev = false));
    reflexivity.
Qed.

Lemma process_tx_notifies cfg env tx s :
  Py.truthy (TELEGRAM_BOT_TOKEN cfg) = true ->
  Py.truthy (TELEGRAM_CHAT_ID cfg) = true ->
  outcome (process_tx cfg env tx s) = inr tt ->
  exists text, notifications (emitted (process_tx cfg env tx s)) = [text]
               /\ alert_of cfg text tx.
Proof.
  intros Htok Hchat. unfold process_tx, save_last_signature, send_telegram_text.
  rewrite Htok, Hchat. cbn [negb orb].
  pose proof (extract_token_details_no_post cfg env tx s) as Hn.
  pose proof (extract_token_details_outcome cfg env tx s) as Ho.
  destruct (iso_time_of_pure (timestamp tx)) as (o & Hiso).
  rewrite Hiso in Ho. cbn [outcome] in Ho.
  generalize dependent (extract_token_details cfg env tx). intros ext Hn Ho.
  unfold bind, print, emit, modify, ret, raise.
  destruct (ext s) as [[e | d] s0 evs0]; cbn [outcome emitted] in *;
    [discriminate |].
  assert (Hsig : alert_signature d = signature tx).
  { destruct o as [e | iso]; [discriminate |].
    destruct Ho as (d' & [= <-] & _ & Hs & _). exact Hs. }
  destruct (telegram_reply env (alert_text cfg d)) as [msg | code body];
    [discriminate |].
  intros _. exists (alert_text cfg d).
  split; [| exists d; auto].
  destruct (code =? 200); cbn [outcome final emitted];
    rewrite !notifications_app, Hn; reflexivity.
Qed.

Lemma for_each_notifies cfg env (l : list RawTransaction) : forall s,
  Py.truthy (TELEGRAM_BOT_TOKEN cfg) = true ->
  Py.truthy (TELEGRAM_CHAT_ID cfg) = true ->
  outcome (for_each (process_tx cfg env) l s) = inr tt ->
  Forall2 (alert_of cfg)
    (notifications (emitted (for_each (process_tx cfg env) l s))) l.
Proof.
  induction l as [|tx l IH]; intros s Htok Hchat; [constructor |].
  cbn [for_each]. unfold bind.
  pose proof (process_tx_notifies cfg env tx s Htok Hchat) as Htx.
  destruct (process_tx cfg env tx s) as [[e | []] s1 evs1];
    cbn [outcome emitted] in *; [discriminate |].
  destruct (Htx eq_refl) as (text & Hn & Ha).
  specialize (IH s1 Htok Hchat).
  destruct (for_each (process_tx cfg env) l s1) as [o s2 evs2];
    cbn [outcome emitted] in *.
  intros Ho. rewrite notifications_app, Hn. constructor; auto.
Qed.

Lemma process_window_notifies cfg env txs s :
  Py.truthy (TELEGRAM_BOT_TOKEN cfg) = true ->
  Py.truthy (TELEGRAM_CHAT_ID cfg) = true ->
  outcome (process_window cfg env txs s) = inr tt ->
  Forall2 (alert_of cfg)
    (notifications (emitted (process_window cfg env txs s)))
    (new_batch txs (last_sig s)).
Proof.
  intros Htok Hchat. unfold process_window. destruct txs as [|tx0 txs0].
  { intros _. rewrite new_batch_nil. constructor. }
  remember (tx0 :: txs0) as txs eqn:Etxs. clear Etxs tx0 txs0.
  unfold load_last_signature, save_last_signature. unfold_run.
  pose proof (for_each_notifies cfg env (new_batch txs (last_sig s)) s Htok Hchat)
    as Hfor.
  destruct (for_each (process_tx cfg env) (new_batch txs (last_sig s)) s)
    as [[e | []] s1 evs1]; simpl in *; [discriminate |].
  specialize (Hfor eq_refl). intros _.
  assert (Hrest : forall evs,
             notifications evs = [] ->
             Forall2 (alert_of cfg) (notifications (evs1 ++ evs))
               (new_batch txs (last_sig s))).
  { intros evs Hevs. now rewrite notifications_app, Hevs, app_nil_r. }
  destruct (negb (Py.truthy (state_file s1))); simpl; [| now apply Hrest].
  destruct (last (txs_sorted txs)) as [newest|]; simpl; [| now apply Hrest].
  destruct (Py.truthy (signature newest)); simpl; now apply Hrest.
Qed.

(** X13. With the Telegram credentials set, an iteration that ends in
    success has sent exactly one notification for each transaction of its
    batch, in batch order (oldest first), each carrying the signature of its
    transaction; nothing else is sent to Telegram. *)
Theorem one_notification_per_transaction
  (cfg : Config) (env : Env) (s : Store) (txs : list RawTransaction) :
  Py.truthy (TELEGRAM_BOT_TOKEN cfg) = true ->
  Py.truthy (TELEGRAM_CHAT_ID cfg) = true ->
  transactions_reply env = FetchJson txs ->
  outcome (iteration cfg env s) = inr Success ->
  Forall2 (alert_of cfg)
    (notifications (emitted (iteration cfg env s)))
    (new_batch txs (last_sig s)).
Proof.
  intros Htok Hchat Hreply. rewrite iteration_unfold, Hreply.
  pose proof (process_window_notifies cfg env txs s Htok Hchat) as Hw.
  destruct (process_window cfg env txs s) as [[e | []] s1 evs1];
    cbn [outcome final emitted] in *.
  - destruct (handle_shape e s1) as (line & -> & Hne).
    intros [= Hb]. now destruct Hne.
  - intros _. specialize (Hw eq_refl).
    rewrite after_window_shape. cbv zeta. cbn [emitted].
    change (notifications (GetTransactions (WATCH_WALLET cfg) 20 :: ?l))
      with (notifications l).
    rewrite notifications_app.
    replace (notifications _ ++ notifications _) with (notifications evs1);
      [exact Hw |].
    destruct (300 <? time_at_check env - last_heartbeat s1);
      cbn; now rewrite app_nil_r.
Qed.

Lemma one_notification_per_transaction_witness :
  let r := iteration Sample.cfg (Sample.window [Sample.txB; Sample.txA]) (boot None) in
  Forall2 (alert_of Sample.cfg) (notifications (emitted r)) [Sample.txA; Sample.txB].
Proof.
  cbv zeta.
  apply (one_notification_per_transaction Sample.cfg
           (Sample.window [Sample.txB; Sample.txA]) (boot None)
           [Sample.txB; Sample.txA]); reflexivity.
Defined.

(** ** The back-off between rate limits *)

Lemma iterations_without_success cfg envs : forall s bs,
  delay_in_range s ->
  outcome (iterations cfg envs s) = inr bs ->
  no_success bs ->
  retry_delay s <= retry_delay (final (iterations cfg envs s))
  /\ delay_in_range (final (iterations cfg envs s)).
Proof.
  unfold no_success, delay_in_range, POLL_INTERVAL_SEC, MAX_BACKOFF.
  induction envs as [|env envs IH]; intros s bs Hs Hout Hno.
  - simpl. lia.
  - cbn [iterations] in *.
    destruct (iteration_cases cfg env s) as (b & Hb & Hr & _). cbv zeta in *.
    unfold bind in *.
    destruct (iteration cfg env s) as [o s1 evs1];
      cbn [outcome final emitted] in *. subst o.
    specialize (IH s1).
    destruct (iterations cfg envs s1) as [[e | bs'] s2 evs2];
      cbn [outcome final emitted ret] in *; [discriminate |].
    unfold ret in Hout. cbn [outcome final emitted] in *.
    injection Hout as <-.
    assert (Hb' : b <> Success) by (intros ->; apply Hno; now left).
    assert (Hs1 : retry_delay s <= retry_delay s1 /\ 20 <= retry_delay s1 <= 300).
    { unfold POLL_INTERVAL_SEC, MAX_BACKOFF in Hr.
      destruct b; try congruence; rewrite Hr; lia. }
    destruct (IH bs') as (Hle & Hin); [lia | reflexivity | |].
    + intros Hin. apply Hno. now right.
    + split; lia.
Qed.

(** X14. Only a success resets the back-off. An iteration that ends in the
    network-error or in the catch-all clause leaves the retry delay exactly
    as it is, and over any run of iterations none of which succeeds the
    retry delay never goes down: rate limits separated by other errors keep
    climbing the ladder. *)
Theorem backoff_outlives_other_errors (cfg : Config) :
  (forall env s b,
      outcome (iteration cfg env s) = inr b ->
      b = Transient \/ b = Fatal ->
      retry_delay (final (iteration cfg env s)) = retry_delay s)
  /\ (forall envs s bs,
         delay_in_range s ->
         outcome (iterations cfg envs s) = inr bs ->
         no_success bs ->
         retry_delay s <= retry_delay (final (iterations cfg envs s))).
Proof.
  split.
  - intros env s b Hout Hb.
    destruct (iteration_cases cfg env s) as (b' & Hb' & Hr & _). cbv zeta in *.
    rewrite Hb' in Hout. injection Hout as ->.
    now destruct Hb as [-> | ->].
  - intros envs s bs Hs Hout Hno.
    now destruct (iterations_without_success cfg envs s bs Hs Hout Hno).
Qed.

Lemma backoff_outlives_other_errors_witness :
  let dropped := Sample.env_of (FetchRaises (RequestException "Connection reset")) in
  let s := set_retry_delay 20 (boot None) in
  retry_delay (final (iteration Sample.cfg dropped (set_retry_delay 80 (boot None)))) = 80
  /\ 20 <= retry_delay
             (final (iterations Sample.cfg [Sample.throttled; dropped; Sample.throttled] s)).
Proof.
  cbv zeta. split.
  - apply (proj1 (backoff_outlives_other_errors Sample.cfg)
             (Sample.env_of (FetchRaises (RequestException "Connection reset")))
             (set_retry_delay 80 (boot None)) Transient);
      [reflexivity | now left].
  - apply (proj2 (backoff_outlives_other_errors Sample.cfg)
             [Sample.throttled;
              Sample.env_of (FetchRaises (RequestException "Connection reset"));
              Sample.throttled]
             (set_retry_delay 20 (boot None))
             [RateLimited; Transient; RateLimited]).
    + unfold delay_in_range. vm_compute. split; discriminate.
    + reflexivity.
    + unfold no_success. simpl. intros [H | [H | [H | []]]]; discriminate.
Defined.

(** ** The log line of an alert *)

Lemma append_cons c a b : String c a +:+ b = String c (a +:+ b).
Proof. reflexivity. Qed.

Lemma has_newline_app a b : has_newline (a +:+ b) = has_newline a || has_newline b.
Proof.
  induction a as [|c a IH]; [reflexivity |].
  rewrite append_cons. cbn [has_newline]. rewrite IH. now rewrite orb_assoc.
Qed.

Lemma replace_newline_one_line by_ s :
  has_newline by_ = false -> has_newline (Py.replace_newline by_ s) = false.
Proof.
  intros Hby. induction s as [|c s IH]; [reflexivity |].
  cbn [Py.replace_newline]. destruct (Ascii.eqb c "010") eqn:Hc.
  - now rewrite has_newline_app, Hby, IH.
  - cbn [has_newline]. now rewrite Hc, IH.
Qed.

Lemma meta_line_is_no_alert line :
  String.prefix "[META] " line = true -> String.prefix "[ALERT] " line = false.
Proof.
  destruct line as [|a [|b line]]; try discriminate.
  - cbn [String.prefix]. destruct (ascii_dec "[" a); discriminate.
  - cbn [String.prefix].
    destruct (ascii_dec "[" a); [| discriminate].
    destruct (ascii_dec "M" b) as [<- |]; [| discriminate].
    reflexivity.
Qed.

Lemma meta_event_one_line ev : meta_event ev -> one_line_alert ev.
Proof.
  destruct ev; cbn; auto.
  intros Hm Ha. rewrite (meta_line_is_no_alert _ Hm) in Ha. discriminate.
Qed.

Lemma fetch_token_metadata_meta env mint_ :
  always (only meta_event) (fetch_token_metadata env mint_).
Proof.
  intros s. unfold only. destruct (_token_cache s !! mint_) as [v|] eqn:Hc.
  - rewrite (fetch_token_metadata_hit _ _ _ _ Hc). constructor.
  - unfold fetch_token_metadata, lookup_metadata.
    unfold_run. rewrite Hc. simpl.
    destruct (metadata_reply env mint_) as [e | [| [| [msg | n sy] items]]];
      simpl; repeat constructor.
    destruct n as [| sn | [] tn]; simpl; repeat constructor;
      destruct sy as [| ss | [] ts]; simpl; repeat constructor.
Qed.

Lemma extract_token_details_meta cfg env tx :
  always (only meta_event) (extract_token_details cfg env tx).
Proof.
  pose proof (fetch_token_metadata_meta env) as Hf.
  unfold extract_token_details, iso_time_of, ts_to_iso. only_auto.
Qed.

(** X15. The log line of an alert holds on one line: the message sent to
    Telegram spans several lines, and whatever the name, the ticker, the
    mint or the signature of the feed contain, every [[ALERT]] line printed
    while a transaction is processed is free of line feeds; once the details
    are extracted that line is printed, with each line feed of the message
    replaced. *)
Theorem alert_is_logged_on_one_line
  (cfg : Config) (env : Env) (tx : RawTransaction) (s : Store) :
  Forall one_line_alert (emitted (process_tx cfg env tx s))
  /\ (forall d,
         outcome (extract_token_details cfg env tx s) = inr d ->
         has_newline (alert_text cfg d) = true
         /\ In (Print ("[ALERT] " +:+ Py.replace_newline " | " (alert_text cfg d)))
              (emitted (process_tx cfg env tx s))).
Proof.
  pose proof (extract_token_details_meta cfg env tx s) as Hm. unfold only in Hm.
  assert (Hline : forall d,
             one_line_alert
               (Print ("[ALERT] " +:+ Py.replace_newline " | " (alert_text cfg d)))).
  { intros d _. rewrite has_newline_app, replace_newline_one_line; reflexivity. }
  unfold process_tx, save_last_signature, send_telegram_text.
  generalize dependent (extract_token_details cfg env tx). intros ext Hm.
  unfold bind, print, emit, modify, ret, raise.
  destruct (ext s) as [[e | d] s0 evs0]; cbn [outcome final emitted] in *.
  - split; [| discriminate].
    eapply List.Forall_impl; [apply meta_event_one_line | exact Hm].
  - assert (Hevs : Forall one_line_alert evs0).
    { eapply List.Forall_impl; [apply meta_event_one_line | exact Hm]. }
    split.
    + destruct (negb (Py.truthy (TELEGRAM_BOT_TOKEN cfg))
                || negb (Py.truthy (TELEGRAM_CHAT_ID cfg)));
        [| destruct (telegram_reply env (alert_text cfg d)) as [msg | code body];
           [| destruct (code =? 200)]];
        cbn [outcome final emitted];
        rewrite ?app_nil_r; repeat (apply Forall_app; split);
        try exact Hevs; repeat constructor; try apply Hline;
        intros H; vm_compute in H; discriminate.
    + intros d' [= <-]. split.
      * unfold alert_text. rewrite !has_newline_app.
        replace (has_newline nl) with true by reflexivity.
        now rewrite ?orb_true_r.
      * destruct (negb (Py.truthy (TELEGRAM_BOT_TOKEN cfg))
                  || negb (Py.truthy (TELEGRAM_CHAT_ID cfg)));
          [| destruct (telegram_reply env (alert_text cfg d)) as [msg | code body];
             [| destruct (code =? 200)]];
          cbn [outcome final emitted];
          rewrite ?in_app_iff; cbn [In]; auto 10.
Qed.

Lemma alert_is_logged_on_one_line_witness :
  let r := process_tx Sample.cfg (Sample.window [Sample.txC]) Sample.txC (boot None) in
  Forall one_line_alert (emitted r)
  /\ exists d, outcome (extract_token_details Sample.cfg (Sample.window [Sample.txC])
                         Sample.txC (boot None)) = inr d
               /\ has_newline (alert_text Sample.cfg d) = true
               /\ In (Print ("[ALERT] "
                             +:+ Py.replace_newline " | " (alert_text Sample.cfg d)))
                    (emitted r).
Proof.
  cbv zeta.
  pose proof (alert_is_logged_on_one_line Sample.cfg (Sample.window [Sample.txC])
                Sample.txC (boot None)) as (Hall & Hd).
  split; [exact Hall |].
  eexists. split; [vm_compute; reflexivity |].
  apply Hd. vm_compute. reflexivity.
Defined.
